(** * Industry-adoption aggregation pipeline: a shallow embedding

    The three scripts of the repository ([export_web_data.py],
    [generate_summary_stats.py], [plot_industry_adoption.py]) share one
    pipeline: load two tables per agent, inner-join them on the repository
    identifier [nwo], count the joined rows per (month, industry) and
    present the counts.  The scripts are glue around pandas calls, so the
    embedding has two layers:

    - [Pandas]: the table operations the scripts call ([rename], [merge],
      [groupby(...).size()], [unstack(fill_value=0)], [cumsum], [iloc[-1]],
      [sort_values], [head]) as list functions;
    - one module per script, each function written call by call after its
      Python body, in an error monad for the exceptions and, for the
      drivers, a trace of the output events.

    Rows are typed as in the data model: a first-use row carries a
    repository identifier and an instant, a prediction row an identifier and
    an industry code; null cells are outside the model.  A table read from a
    file has its column labels beside its rows: the labels decide whether a
    column is found, and whether it is found once (a file may store a column
    under its legacy and under its canonical label, and the rename then
    leaves two columns of one label).  Counts are natural numbers (pandas
    holds them as int64; a count never exceeds the number of rows of a
    table). *)

From Stdlib Require Import String Ascii DecimalString ZArith Arith Lia Bool.
From Stdlib Require Import List Permutation Sorted.
Import ListNotations.
Open Scope string_scope.
Open Scope list_scope.

Set Implicit Arguments.

(* ================================================================== *)
(** ** Exceptions and the error monad *)

Inductive exn : Type :=
| FileNotFoundError (path : string)
| KeyError (key : string)
| IndexError
| TypeError
| ValueError.

Definition is_FileNotFoundError (e : exn) : bool :=
  match e with FileNotFoundError _ => true | _ => false end.

Inductive Res (A : Type) : Type :=
| Ok (a : A)
| Raise (e : exn).
Arguments Ok {A} a.
Arguments Raise {A} e.

Definition rbind {A B} (m : Res A) (f : A -> Res B) : Res B :=
  match m with
  | Ok a => f a
  | Raise e => Raise e
  end.

Declare Scope res_scope.
Delimit Scope res_scope with res.
Notation "x <- m ;; k" := (rbind m (fun x => k))
  (at level 61, m at next level, right associativity) : res_scope.

(** Python evaluates the elements left to right and stops at the first
    exception. *)
Fixpoint mapM {A B} (f : A -> Res B) (l : list A) : Res (list B) :=
  match l with
  | [] => Ok []
  | x :: t =>
      (y <- f x ;;
       ys <- mapM f t ;;
       Ok (y :: ys))%res
  end.

(** [l[0]] and [l[-1]] on a Python list. *)
Definition item_first {A} (l : list A) : Res A :=
  match l with
  | [] => Raise IndexError
  | x :: _ => Ok x
  end.

Fixpoint item_last {A} (l : list A) : Res A :=
  match l with
  | [] => Raise IndexError
  | [x] => Ok x
  | _ :: t => item_last t
  end.

(* ================================================================== *)
(** ** Data model *)

(** A timezone-aware instant, by its UTC calendar fields. *)
Record Timestamp : Type := mkTimestamp {
  ts_year : Z;
  ts_month : Z;
  ts_day : Z;
  ts_nanos : Z
}.

(** A monthly [Period] is its ordinal, the number of months since 1970-01,
    as pandas stores it; periods compare by ordinal. *)
Definition Period : Type := Z.

(** [ts.to_period("M")] *)
Definition to_period_M (t : Timestamp) : Period :=
  ((ts_year t - 1970) * 12 + (ts_month t - 1))%Z.

Definition decimal (n : Z) : string :=
  NilZero.string_of_uint (N.to_uint (Z.to_N n)).

Definition zfill (width : nat) (s : string) : string :=
  (string_of_list_ascii (repeat "0"%char (width - String.length s)) ++ s)%string.

(** [str(period)], the ["%Y-%m"] rendering. *)
Definition period_str (p : Period) : string :=
  (zfill 4 (decimal (1970 + p / 12)) ++ "-" ++ zfill 2 (decimal (p mod 12 + 1)))%string.

Module FirstUse.
Record t : Type := mk { nwo : string; first_use_date : Timestamp }.
End FirstUse.

Module Prediction.
Record t : Type := mk { nwo : string; predicted_naics : string }.
End Prediction.

Module Joined.
Record t : Type := mk {
  nwo : string;
  first_use_date : Timestamp;
  predicted_naics : string
}.
(** the derived column [year_month] (called [month] in
    [generate_monthly_adoption]) *)
Definition year_month (r : t) : Period := to_period_M (first_use_date r).
End Joined.

(* ================================================================== *)
(** ** The pandas operations the scripts use *)

Module Pandas.

(** A table as read from a parquet file: the column labels as stored and
    the rows.  The labels say under which names the columns of the row
    type are stored (a legacy file labels them differently). *)
Record Frame (R : Type) : Type := mkFrame {
  columns : list string;
  rows : list R
}.

(** [label in df.columns] *)
Definition has_column {R} (label : string) (df : Frame R) : bool :=
  existsb (String.eqb label) (columns df).

(** The number of columns that carry a label.  The labels of a stored table
    are distinct, but a rename can give two columns the same label. *)
Definition label_count {R} (label : string) (df : Frame R) : nat :=
  count_occ string_dec (columns df) label.

(** [df.rename(columns={old: new})] *)
Definition rename {R} (old new : string) (df : Frame R) : Frame R :=
  {| columns := map (fun c => if String.eqb c old then new else c) (columns df);
     rows := rows df |}.

(** [first_use.merge(predictions, on="nwo", how="inner")]: for every left
    row, in order, one output row per right row with the same key. *)
Definition merge (first_use : list FirstUse.t) (predictions : list Prediction.t)
  : list Joined.t :=
  flat_map
    (fun f =>
       map (fun p => Joined.mk (FirstUse.nwo f) (FirstUse.first_use_date f)
                       (Prediction.predicted_naics p))
           (filter (fun p => String.eqb (Prediction.nwo p) (FirstUse.nwo f))
                   predictions))
    first_use.


(** *** Sorting and distinct values *)

(** Stable insertion sort; [leb x y] says that [x] may stand before [y]. *)
Fixpoint insert_by {A} (leb : A -> A -> bool) (x : A) (l : list A) : list A :=
  match l with
  | [] => [x]
  | y :: t => if leb x y then x :: l else y :: insert_by leb x t
  end.

Definition sort_by {A} (leb : A -> A -> bool) (l : list A) : list A :=
  fold_right (insert_by leb) [] l.

Definition key_dec (a b : Period * string) : {a = b} + {a <> b}.
Proof. decide equality; [apply string_dec | apply Z.eq_dec]. Defined.

(** lexicographic order of the group keys [(year_month, predicted_naics)] *)
Definition key_leb (a b : Period * string) : bool :=
  if (fst a =? fst b)%Z then String.leb (snd a) (snd b) else (fst a <? fst b)%Z.

(** The distinct values of a key column in ascending order, as the index
    of a sorted group-by has them. *)
Definition sorted_unique {A} (dec : forall a b : A, {a = b} + {a <> b})
  (leb : A -> A -> bool) (l : list A) : list A :=
  sort_by leb (nodup dec l).

(** *** Series and pivot tables *)

(** A series: labels with their values, in order. *)
Definition Series (K : Type) : Type := list (K * nat).

(** [s.get(k, default)] on a series with key test [eqb] *)
Definition lookup {K} (eqb : K -> K -> bool) (k : K) (s : Series K) (default : nat) : nat :=
  match find (fun e => eqb (fst e) k) s with
  | Some e => snd e
  | None => default
  end.

Definition key_eqb (a b : Period * string) : bool :=
  if key_dec a b then true else false.

(** [df.groupby(["year_month", "predicted_naics"]).size()]: one entry per
    distinct key pair, keys ascending, with the number of rows of the
    group. *)
Definition groupby_size (df : list Joined.t) : Series (Period * string) :=
  let keys := map (fun r => (Joined.year_month r, Joined.predicted_naics r)) df in
  map (fun k => (k, count_occ key_dec keys k)) (sorted_unique key_dec key_leb keys).

(** [df.groupby("month").size()] *)
Definition groupby_month_size (df : list Joined.t) : Series Period :=
  let keys := map Joined.year_month df in
  map (fun k => (k, count_occ Z.eq_dec keys k)) (sorted_unique Z.eq_dec Z.leb keys).

(** A month-by-industry table, stored by column as pandas does: the month
    index and, per industry label, the column of counts. *)
Record Pivot : Type := mkPivot {
  index : list Period;
  data : list (string * list nat)
}.

Definition pivot_columns (p : Pivot) : list string := map fst (data p).

(** [p[col].tolist()] *)
Definition column (p : Pivot) (col : string) : Res (list nat) :=
  match find (fun e => String.eqb (fst e) col) (data p) with
  | Some e => Ok (snd e)
  | None => Raise (KeyError col)
  end.

(** [s.unstack(fill_value=...)]: the first key level becomes the index,
    the second the columns, both ascending; a missing pair is filled. *)
Definition unstack (fill_value : nat) (s : Series (Period * string)) : Pivot :=
  let idx := sorted_unique Z.eq_dec Z.leb (map (fun e => fst (fst e)) s) in
  let cols := sorted_unique string_dec String.leb (map (fun e => snd (fst e)) s) in
  {| index := idx;
     data := map (fun c => (c, map (fun m => lookup key_eqb (m, c) s fill_value) idx)) cols |}.

(** [p.sort_index()]: the rows are put in ascending order of the index
    (stable). *)
Definition sort_index (p : Pivot) : Pivot :=
  let order :=
    sort_by (fun a b => (fst a <=? fst b)%Z) (combine (index p) (seq 0 (length (index p)))) in
  {| index := map fst order;
     data := map (fun e => (fst e, map (fun a => nth (snd a) (snd e) 0) order)) (data p) |}.

Fixpoint cumsum_from (acc : nat) (l : list nat) : list nat :=
  match l with
  | [] => []
  | x :: t => (acc + x) :: cumsum_from (acc + x) t
  end.

(** [p.cumsum()]: running sums down every column. *)
Definition cumsum (p : Pivot) : Pivot :=
  {| index := index p;
     data := map (fun e => (fst e, cumsum_from 0 (snd e))) (data p) |}.

(** [p.iloc[-1]]: the last row, as a series over the columns. *)
Definition iloc_last (p : Pivot) : Res (Series string) :=
  match index p with
  | [] => Raise IndexError
  | _ => Ok (map (fun e => (fst e, last (snd e) 0)) (data p))
  end.

(** [s.sum()] *)
Definition series_sum {K} (s : Series K) : nat := list_sum (map snd s).

(** [p.sum()]: the total of every column. *)
Definition column_totals (p : Pivot) : Series string :=
  map (fun e => (fst e, list_sum (snd e))) (data p).

(** The order in which a sort leaves entries of equal value.  pandas sorts
    with an algorithm that is not stable, so this order is not fixed by the
    call: it is a parameter of whatever sorts, given as a rank of the
    entries that may depend on the series that is sorted.  Entries of equal
    value come out by ascending rank; with one rank for all,
    [stable_order], they stay in the order they had. *)
Definition TieOrder (K : Type) : Type := Series K -> K * nat -> nat.

Definition stable_order {K} : TieOrder K := fun _ _ => 0.

Definition desc_leb {K} (rank : K * nat -> nat) (a b : K * nat) : bool :=
  if Nat.eqb (snd a) (snd b) then Nat.leb (rank a) (rank b) else Nat.ltb (snd b) (snd a).

(** [s.sort_values(ascending=False)] *)
Definition sort_values_desc {K} (tie : TieOrder K) (s : Series K) : Series K :=
  sort_by (desc_leb (tie s)) s.

(** [s.head(n)]: the first [n] entries, all but the last [-n] when [n] is
    negative. *)
Definition head {A} (n : Z) (l : list A) : list A :=
  if (0 <=? n)%Z then firstn (Z.to_nat n) l
  else firstn (length l - Z.to_nat (- n)) l.

(** [p[labels]]: the listed columns, in the listed order. *)
Definition select (p : Pivot) (labels : list string) : Res Pivot :=
  (cols <- mapM (fun c => v <- column p c ;; Ok (c, v)) labels ;;
   Ok {| index := index p; data := cols |})%res.

Fixpoint add_rows (a b : list nat) : list nat :=
  match a, b with
  | x :: a', y :: b' => (x + y) :: add_rows a' b'
  | _, _ => []
  end.

(** [p.sum(axis=1)]: the total of every row. *)
Definition row_totals (p : Pivot) : list nat :=
  fold_right (fun e acc => add_rows (snd e) acc) (repeat 0 (length (index p))) (data p).

(** [p[label] = values]: the column is replaced where it stands, or added
    as the last one. *)
Fixpoint set_column_in (label : string) (values : list nat) (d : list (string * list nat))
  : list (string * list nat) :=
  match d with
  | [] => [(label, values)]
  | e :: t =>
      if String.eqb (fst e) label then (label, values) :: t
      else e :: set_column_in label values t
  end.

Definition set_column (label : string) (values : list nat) (p : Pivot) : Pivot :=
  {| index := index p; data := set_column_in label values (data p) |}.

End Pandas.

(** The column normalisation that opens every loader (the same four lines in
    [load_and_process] and in both [load_first_use]). *)
Definition normalize_columns {R} (df : Pandas.Frame R) : Pandas.Frame R :=
  let df :=
    if Pandas.has_column "repo_nwo" df then Pandas.rename "repo_nwo" "nwo" df else df in
  let df :=
    if Pandas.has_column "first_claude_commit" df
    then Pandas.rename "first_claude_commit" "first_use_date" df else df in
  df.

(* ================================================================== *)
(** ** Files, output events and the driver monad *)

(** The input files, by agent key: [data/adoption_timing/{agent}_first_use.parquet]
    and [data/predictions/{agent}_predictions.parquet]; [None] is a file
    that does not exist. *)
Record FileSystem : Type := mkFileSystem {
  first_use_parquet : string -> option (Pandas.Frame FirstUse.t);
  predictions_parquet : string -> option (Pandas.Frame Prediction.t)
}.

Definition first_use_path (agent : string) : string :=
  ("data/adoption_timing/" ++ agent ++ "_first_use.parquet")%string.

Definition predictions_path (agent : string) : string :=
  ("data/predictions/" ++ agent ++ "_predictions.parquet")%string.

(** [pd.read_parquet(path)] *)
Definition read_parquet {R} (file : option (Pandas.Frame R)) (path : string)
  : Res (Pandas.Frame R) :=
  match file with
  | Some df => Ok df
  | None => Raise (FileNotFoundError path)
  end.

(** The use of one column by its label: a label that is not there is a
    [KeyError] with the label, a label that several columns carry a
    [ValueError].  This is what the key lookup of [merge] does ("The column
    label 'nwo' is not unique."), and what [pd.to_datetime(df[label])] comes
    to, for [df[label]] is then a table, which [to_datetime] refuses
    ("cannot assemble with duplicate keys"). *)
Definition require_unique_column {R} (label : string) (df : Pandas.Frame R) : Res unit :=
  match Pandas.label_count label df with
  | 0 => Raise (KeyError label)
  | 1 => Ok tt
  | _ => Raise ValueError
  end.

(** The message of the [KeyError] of [df[labels]] (pandas 2): the labels
    that are missing, written as a Python list, or all of [labels] when none
    is there. *)
Definition py_list_repr (l : list string) : string :=
  ("[" ++ String.concat ", " (map (fun x => "'" ++ x ++ "'") l) ++ "]")%string.

Definition not_in_index (labels missing : list string) : string :=
  if Nat.eqb (length missing) (length labels)
  then ("None of [Index(" ++ py_list_repr labels ++ ", dtype='object')] are in the [columns]")%string
  else (py_list_repr missing ++ " not in index")%string.

(** [preds[["nwo", "predicted_naics"]]]: every listed label has to be there;
    the result has the columns of the first label, then those of the
    second. *)
Definition project_predictions (preds : Pandas.Frame Prediction.t)
  : Res (Pandas.Frame Prediction.t) :=
  let labels := ["nwo"; "predicted_naics"] in
  match filter (fun l => negb (Pandas.has_column l preds)) labels with
  | [] =>
      Ok {| Pandas.columns :=
              flat_map (fun l => filter (fun c => String.eqb c l) (Pandas.columns preds))
                labels;
            Pandas.rows := Pandas.rows preds |}
  | missing => Raise (KeyError (not_in_index labels missing))
  end.

(** [first_use.merge(predictions, on="nwo", how="inner")] on loaded tables:
    the key is looked up in the right table, then in the left one, and has
    to name one column of each. *)
Definition merge_on_nwo (first_use : Pandas.Frame FirstUse.t)
  (predictions : Pandas.Frame Prediction.t) : Res (list Joined.t) :=
  (_ <- require_unique_column "nwo" predictions ;;
   _ <- require_unique_column "nwo" first_use ;;
   Ok (Pandas.merge (Pandas.rows first_use) (Pandas.rows predictions)))%res.

(** The loader's last step, [df["first_use_date"] = pd.to_datetime(df["first_use_date"], utc=True)]:
    the label has to name one column; its cells are instants already and
    stay as they are. *)
Definition coerce_first_use_date (df : Pandas.Frame FirstUse.t)
  : Res (Pandas.Frame FirstUse.t) :=
  (_ <- require_unique_column "first_use_date" df ;; Ok df)%res.

(** [d.get(k, default)] on a dict literal *)
Definition dict_get (d : list (string * string)) (k default : string) : string :=
  match find (fun e => String.eqb (fst e) k) d with
  | Some e => snd e
  | None => default
  end.

(** [d[k]] on a dict literal *)
Definition dict_item (d : list (string * string)) (k : string) : Res string :=
  match find (fun e => String.eqb (fst e) k) d with
  | Some e => Ok (snd e)
  | None => Raise (KeyError k)
  end.

(** A driver run: the events it has produced so far, and how it ended. *)
Section Driver.
Variable E : Type.

Definition IO (A : Type) : Type := (list E * Res A)%type.

Definition io_ret {A} (a : A) : IO A := ([], Ok a).

Definition io_bind {A B} (m : IO A) (f : A -> IO B) : IO B :=
  match m with
  | (t, Ok a) => let (t', r) := f a in (t ++ t', r)
  | (t, Raise e) => (t, Raise e)
  end.

Definition emit (ev : E) : IO unit := ([ev], Ok tt).

Definition lift {A} (r : Res A) : IO A := ([], r).

(** [try: body  except <catches> as e: handler(e)] *)
Definition try_except (body : IO unit) (catches : exn -> bool) (handler : exn -> IO unit)
  : IO unit :=
  match body with
  | (t, Raise e) =>
      if catches e then let (t', r) := handler e in (t ++ t', r) else (t, Raise e)
  | (t, Ok a) => (t, Ok a)
  end.

(** [for x in l: body(x)] *)
Fixpoint for_each {X} (l : list X) (body : X -> IO unit) : IO unit :=
  match l with
  | [] => io_ret tt
  | x :: t => io_bind (body x) (fun _ => for_each t body)
  end.
End Driver.

Arguments io_ret {E A} a.
Arguments io_bind {E A B} m f.
Arguments emit {E} ev.
Arguments lift {E A} r.
Arguments try_except {E} body catches handler.
Arguments for_each {E X} l body.

Declare Scope io_scope.
Delimit Scope io_scope with io.
Notation "x <- m ;; k" := (io_bind m (fun x => k))
  (at level 61, m at next level, right associativity) : io_scope.
Notation "m ;;; k" := (io_bind m (fun _ => k))
  (at level 61, right associativity) : io_scope.

(* ================================================================== *)
(** ** scripts/export_web_data.py *)

Module ExportWebData.

Definition NAICS_DESCRIPTIONS : list (string * string) :=
  [ ("11", "Agriculture"); ("21", "Mining"); ("22", "Utilities");
    ("23", "Construction"); ("31-33", "Manufacturing"); ("42", "Wholesale Trade");
    ("44-45", "Retail Trade"); ("48-49", "Transportation"); ("51", "Information");
    ("52", "Finance"); ("53", "Real Estate"); ("54", "Professional Services");
    ("55", "Management"); ("56", "Admin Services"); ("61", "Education");
    ("62", "Healthcare"); ("71", "Entertainment"); ("72", "Accommodation");
    ("81", "Other Services"); ("92", "Public Admin") ].

Definition INDUSTRY_COLORS : list (string * string) :=
  [ ("54", "#2E86AB"); ("51", "#A23B72"); ("52", "#F18F01"); ("61", "#C73E1D");
    ("71", "#6A0572"); ("56", "#95C623"); ("81", "#5C8001"); ("48-49", "#7B2D8E");
    ("44-45", "#00A6A6"); ("62", "#E36397"); ("31-33", "#8B4513"); ("92", "#4A7C59");
    ("11", "#DAA520"); ("72", "#FF6B6B"); ("53", "#20B2AA"); ("22", "#4169E1");
    ("23", "#CD853F"); ("42", "#708090"); ("21", "#2F4F4F") ].

(** One entry of the ["industries"] list of the exported structure. *)
Record Industry : Type := mkIndustry {
  code : string;
  name : string;
  color : string;
  values : list nat;
  monthly : list nat
}.

Record WebData : Type := mkWebData {
  months : list string;
  industries : list Industry;
  total_repos : nat
}.

(** The merged table; its derived column is [Joined.year_month]. *)
Definition load_and_process (fs : FileSystem) (agent : string) : Res (list Joined.t) :=
  (first_use <- read_parquet (first_use_parquet fs agent) (first_use_path agent) ;;
   predictions <- read_parquet (predictions_parquet fs agent) (predictions_path agent) ;;
   let first_use := normalize_columns first_use in
   first_use <- coerce_first_use_date first_use ;;
   predictions <- project_predictions predictions ;;
   merged <- merge_on_nwo first_use predictions ;;
   Ok merged)%res.

(** [l.sort(key=key, reverse=True)]: the keys are computed first, then the
    list is sorted by descending key, equal keys keeping their order. *)
Definition sort_reverse_by_key {A} (key : A -> Res nat) (l : list A) : Res (list A) :=
  (keys <- mapM key l ;;
   Ok (map snd (Pandas.sort_by (fun a b => Nat.leb (fst b) (fst a)) (combine keys l))))%res.

(** The group-by of a table without rows is unstacked to the table without
    months and without columns. *)
Definition generate_cumulative_data (fs : FileSystem) (agent : string) : Res WebData :=
  (df <- load_and_process fs agent ;;
   let monthly_table := Pandas.unstack 0 (Pandas.groupby_size df) in
   let monthly_table := Pandas.sort_index monthly_table in
   let cumulative := Pandas.cumsum monthly_table in
   let months := map period_str (Pandas.index cumulative) in
   industries <-
     mapM (fun col =>
             let name := (col ++ ": " ++ dict_get NAICS_DESCRIPTIONS col col)%string in
             let color := dict_get INDUSTRY_COLORS col "#666666" in
             values <- Pandas.column cumulative col ;;
             monthly <- Pandas.column monthly_table col ;;
             Ok {| code := col; name := name; color := color;
                   values := values; monthly := monthly |})
          (Pandas.pivot_columns cumulative) ;;
   industries <- sort_reverse_by_key (fun x => item_last (values x)) industries ;;
   last_row <- Pandas.iloc_last cumulative ;;
   Ok {| months := months;
         industries := industries;
         total_repos := Pandas.series_sum last_row |})%res.

Inductive message : Type :=
| Rule
| Processing (agent_name : string)
| Exported (agent_name : string) (total_repos : nat)
| Months (first last : string)
| Industries (n : nat)
| ErrorProcessing (agent_name : string) (e : exn)
| AllExported.

Inductive event : Type :=
| Print (m : message)
| JsonDump (path : string) (data : WebData).

Definition agents : list (string * string) :=
  [ ("claude", "Claude Code"); ("copilot", "GitHub Copilot"); ("codex", "OpenAI Codex") ].

Definition output_path (agent_key : string) : string :=
  ("web/" ++ agent_key ++ "_cumulative.json")%string.

(** The body of the [try] of the loop of [main]. *)
Definition export_agent (fs : FileSystem) (agent_key agent_name : string) : IO event unit :=
  (emit (Print Rule) ;;;
   emit (Print (Processing agent_name)) ;;;
   emit (Print Rule) ;;;
   agent_data <- lift (generate_cumulative_data fs agent_key) ;;
   emit (JsonDump (output_path agent_key) agent_data) ;;;
   emit (Print (Exported agent_name (total_repos agent_data))) ;;;
   first <- lift (item_first (months agent_data)) ;;
   last <- lift (item_last (months agent_data)) ;;
   emit (Print (Months first last)) ;;;
   emit (Print (Industries (length (industries agent_data)))))%io.

Definition main (fs : FileSystem) : IO event unit :=
  (for_each agents
     (fun a =>
        try_except (export_agent fs (fst a) (snd a))
          (fun _ => true)
          (fun e => emit (Print (ErrorProcessing (snd a) e)))) ;;;
   emit (Print Rule) ;;;
   emit (Print AllExported) ;;;
   emit (Print Rule))%io.

End ExportWebData.

(* ================================================================== *)
(** ** scripts/generate_summary_stats.py (loaders and monthly adoption) *)

Module SummaryStats.

(** The table written by [generate_monthly_adoption], by column. *)
Record MonthlyAdoption : Type := mkMonthlyAdoption {
  month : list string;
  new_repos : list nat;
  cumulative_repos : list nat
}.

Inductive message : Type :=
| LoadingPredictions (agent path : string)
| LoadingFirstUse (agent path : string)
| Rule
| MonthlyAdoptionTitle (display_name : string)
| ErrorMonthlyAdoption (agent : string) (e : exn).

Inductive event : Type :=
| Info (m : message)
| Warning (m : message)
| PrintTable (t : MonthlyAdoption)
| ToCsv (path : string) (t : MonthlyAdoption).

Definition load_predictions (fs : FileSystem) (agent : string)
  : IO event (Pandas.Frame Prediction.t) :=
  (let path := predictions_path agent in
   emit (Info (LoadingPredictions agent path)) ;;;
   lift (read_parquet (predictions_parquet fs agent) path))%io.

Definition load_first_use (fs : FileSystem) (agent : string)
  : IO event (Pandas.Frame FirstUse.t) :=
  (let path := first_use_path agent in
   emit (Info (LoadingFirstUse agent path)) ;;;
   df <- lift (read_parquet (first_use_parquet fs agent) path) ;;
   let df := normalize_columns df in
   lift (coerce_first_use_date df))%io.

Definition generate_monthly_adoption (fs : FileSystem) (agent : string)
  : IO event MonthlyAdoption :=
  (preds <- load_predictions fs agent ;;
   first_use <- load_first_use fs agent ;;
   preds <- lift (project_predictions preds) ;;
   merged <- lift (merge_on_nwo first_use preds) ;;
   let monthly := Pandas.groupby_month_size merged in
   io_ret {| month := map (fun e => period_str (fst e)) monthly;
             new_repos := map snd monthly;
             cumulative_repos := Pandas.cumsum_from 0 (map snd monthly) |})%io.

Definition agents : list string := ["claude"; "copilot"; "codex"].

Definition display_names : list (string * string) :=
  [ ("claude", "Claude Code"); ("copilot", "GitHub Copilot"); ("codex", "OpenAI Codex") ].

(** [t.tail(12)] *)
Definition tail12 (t : MonthlyAdoption) : MonthlyAdoption :=
  let keep {A} (l : list A) := skipn (length l - 12) l in
  {| month := keep (month t);
     new_repos := keep (new_repos t);
     cumulative_repos := keep (cumulative_repos t) |}.

(** The "Monthly adoption" loop of [main]. *)
Definition main_monthly_adoption (fs : FileSystem) : IO event unit :=
  for_each agents
    (fun agent =>
       try_except
         (emit (Info Rule) ;;;
          display <- lift (dict_item display_names agent) ;;
          emit (Info (MonthlyAdoptionTitle display)) ;;;
          emit (Info Rule) ;;;
          monthly <- generate_monthly_adoption fs agent ;;
          emit (PrintTable (tail12 monthly)) ;;;
          emit (ToCsv ("output/monthly_adoption_" ++ agent ++ ".csv")%string monthly))%io
         (fun _ => true)
         (fun e => emit (Warning (ErrorMonthlyAdoption agent e)))).

End SummaryStats.

(* ================================================================== *)
(** ** scripts/plot_industry_adoption.py *)

Module PlotIndustryAdoption.

Definition NAICS_DESCRIPTIONS : list (string * string) :=
  [ ("11", "Agriculture"); ("21", "Mining"); ("22", "Utilities");
    ("23", "Construction"); ("31-33", "Manufacturing"); ("42", "Wholesale Trade");
    ("44-45", "Retail Trade"); ("48-49", "Transportation"); ("51", "Information");
    ("52", "Finance"); ("53", "Real Estate"); ("54", "Professional Services");
    ("56", "Admin Services"); ("61", "Education"); ("62", "Healthcare");
    ("71", "Entertainment"); ("72", "Accommodation"); ("81", "Other Services");
    ("92", "Public Admin") ].

(** What is handed to matplotlib: the labelled series over the months. *)
Record Chart : Type := mkChart {
  chart_title : string;
  chart_index : list Timestamp;
  chart_series : list (string * list nat)
}.

Inductive message : Type :=
| Starting
| Rule
| ProcessingAgent (agent_name : string)
| LoadingFirstUse (agent path : string)
| Loaded (n : nat) (agent : string)
| LoadingPredictions (path : string)
| Merged (n : nat)
| DateRange (first last : option Period)
| TotalRepos (n : nat)
| TopIndustries
| TopIndustry (naics desc : string) (count : nat)
| SavedChart (path : string)
| DataNotFound (agent_name : string) (e : exn)
| Done.

Inductive event : Type :=
| Info (m : message)
| Warning (m : message)
| SaveFig (path : string) (chart : Chart).

Definition load_first_use (fs : FileSystem) (agent : string)
  : IO event (Pandas.Frame FirstUse.t) :=
  (let path := first_use_path agent in
   emit (Info (LoadingFirstUse agent path)) ;;;
   df <- lift (read_parquet (first_use_parquet fs agent) path) ;;
   let df := normalize_columns df in
   df <- lift (coerce_first_use_date df) ;;
   emit (Info (Loaded (length (Pandas.rows df)) agent)) ;;;
   io_ret df)%io.

(** The predictions file is named by the agent key its path is built
    from. *)
Definition merge_with_predictions (fs : FileSystem) (first_use : Pandas.Frame FirstUse.t)
  (agent_key : string) : IO event (list Joined.t) :=
  (let path := predictions_path agent_key in
   emit (Info (LoadingPredictions path)) ;;;
   predictions <- lift (read_parquet (predictions_parquet fs agent_key) path) ;;
   predictions <- lift (project_predictions predictions) ;;
   merged <- lift (merge_on_nwo first_use predictions) ;;
   emit (Info (Merged (length merged))) ;;;
   io_ret merged)%io.

Definition aggregate_by_month_industry (df : list Joined.t) : Pandas.Pivot :=
  let monthly := Pandas.unstack 0 (Pandas.groupby_size df) in
  let monthly := Pandas.sort_index monthly in
  monthly.

(** The chart data of [plot_stacked_area] (its first block): the [top_n]
    columns of largest total, and the other columns summed into
    ["Other"]. *)
Definition plot_data (tie : Pandas.TieOrder string) (data : Pandas.Pivot) (top_n : Z)
  : Res Pandas.Pivot :=
  (let industry_totals := Pandas.sort_values_desc tie (Pandas.column_totals data) in
   let top_industries := map fst (Pandas.head top_n industry_totals) in
   plot_data <- Pandas.select data top_industries ;;
   let other_cols :=
     filter (fun c => negb (existsb (String.eqb c) top_industries))
            (Pandas.pivot_columns data) in
   match other_cols with
   | [] => Ok plot_data
   | _ =>
       others <- Pandas.select data other_cols ;;
       Ok (Pandas.set_column "Other" (Pandas.row_totals others) plot_data)
   end)%res.

(** [period.to_timestamp()]: the first instant of the month. *)
Definition to_timestamp (p : Period) : Timestamp :=
  {| ts_year := 1970 + p / 12; ts_month := p mod 12 + 1; ts_day := 1; ts_nanos := 0 |}.

(** [plot_data.plot.area(...)]: pandas refuses a table without columns
    ("no numeric data to plot"). *)
Definition plot_area (title : string) (index : list Timestamp)
  (series : list (string * list nat)) : Res Chart :=
  match series with
  | [] => Raise TypeError
  | _ => Ok {| chart_title := title; chart_index := index; chart_series := series |}
  end.

Definition plot_stacked_area (tie : Pandas.TieOrder string) (data : Pandas.Pivot)
  (title output_path : string) (top_n : Z) : IO event unit :=
  (plot_data <- lift (plot_data tie data top_n) ;;
   let index := map to_timestamp (Pandas.index plot_data) in
   let columns_with_desc :=
     map (fun col =>
            if String.eqb col "Other" then "Other"
            else (col ++ ": " ++ dict_get NAICS_DESCRIPTIONS col col)%string)
         (Pandas.pivot_columns plot_data) in
   let series := combine columns_with_desc (map snd (Pandas.data plot_data)) in
   chart <- lift (plot_area title index series) ;;
   emit (SaveFig output_path chart) ;;;
   emit (Info (SavedChart output_path)))%io.

Definition default_top_n : Z := 10.

(** [index.min()] and [index.max()]; the empty index has none. *)
Definition index_min (l : list Period) : option Period :=
  match l with
  | [] => None
  | x :: t => Some (fold_left Z.min t x)
  end.

Definition index_max (l : list Period) : option Period :=
  match l with
  | [] => None
  | x :: t => Some (fold_left Z.max t x)
  end.

Definition process_agent (tie : Pandas.TieOrder string) (fs : FileSystem)
  (agent_name agent_key : string) : IO event (list Joined.t) :=
  (emit (Info Rule) ;;;
   emit (Info (ProcessingAgent agent_name)) ;;;
   emit (Info Rule) ;;;
   first_use_df <- load_first_use fs agent_key ;;
   merged <- merge_with_predictions fs first_use_df agent_key ;;
   let monthly := aggregate_by_month_industry merged in
   emit (Info (DateRange (index_min (Pandas.index monthly))
                         (index_max (Pandas.index monthly)))) ;;;
   emit (Info (TotalRepos (Pandas.series_sum (Pandas.column_totals monthly)))) ;;;
   emit (Info TopIndustries) ;;;
   for_each (Pandas.head 5 (Pandas.sort_values_desc tie (Pandas.column_totals monthly)))
     (fun item =>
        emit (Info (TopIndustry (fst item)
                      (dict_get NAICS_DESCRIPTIONS (fst item) "Unknown") (snd item)))) ;;;
   let output_path := ("figures/industry_adoption_" ++ agent_key ++ ".png")%string in
   plot_stacked_area tie monthly ("Monthly Industry Adoption - " ++ agent_name)%string
     output_path default_top_n ;;;
   io_ret merged)%io.

Definition agents : list (string * string) :=
  [ ("Claude Code", "claude"); ("GitHub Copilot", "copilot"); ("OpenAI Codex", "codex") ].

Definition main (tie : Pandas.TieOrder string) (fs : FileSystem) : IO event unit :=
  (emit (Info Starting) ;;;
   for_each agents
     (fun a =>
        try_except (_ <- process_agent tie fs (fst a) (snd a) ;; io_ret tt)
          is_FileNotFoundError
          (fun e => emit (Warning (DataNotFound (fst a) e)))) ;;;
   emit (Info Done))%io.

End PlotIndustryAdoption.

(* ================================================================== *)
(** ** Vocabulary of the statements *)

(** The joined records of one industry, and those of one month among
    them. *)
Definition records_of_industry (c : string) (df : list Joined.t) : list Joined.t :=
  filter (fun r => String.eqb (Joined.predicted_naics r) c) df.

Definition records_of_cell (m : Period) (c : string) (df : list Joined.t) : list Joined.t :=
  filter (fun r => Z.eqb (Joined.year_month r) m && String.eqb (Joined.predicted_naics r) c) df.

(** The keys of the group-by, row by row. *)
Definition group_keys (df : list Joined.t) : list (Period * string) :=
  map (fun r => (Joined.year_month r, Joined.predicted_naics r)) df.

(** The table [unstack(fill_value=0)] makes of the group sizes. *)
Definition monthly_table (df : list Joined.t) : Pandas.Pivot :=
  Pandas.unstack 0 (Pandas.groupby_size df).
Arguments monthly_table : simpl never.

(** The entry of the exported structure for a column of the monthly
    table. *)
Definition industry_entry (e : string * list nat) : ExportWebData.Industry :=
  {| ExportWebData.code := fst e;
     ExportWebData.name :=
       (fst e ++ ": " ++ dict_get ExportWebData.NAICS_DESCRIPTIONS (fst e) (fst e))%string;
     ExportWebData.color := dict_get ExportWebData.INDUSTRY_COLORS (fst e) "#666666";
     ExportWebData.values := Pandas.cumsum_from 0 (snd e);
     ExportWebData.monthly := snd e |}.

(** The final cumulative value of an entry. *)
Definition final_value (e : ExportWebData.Industry) : nat :=
  last (ExportWebData.values e) 0.

(** A column of a table as a list (empty for a label that is no column),
    one of its cells, its total, and the total of a row. *)
Definition column_values (p : Pandas.Pivot) (c : string) : list nat :=
  match Pandas.column p c with
  | Ok v => v
  | Raise _ => []
  end.

Definition cell (p : Pandas.Pivot) (c : string) (i : nat) : nat :=
  nth i (column_values p c) 0.

Definition column_total (p : Pandas.Pivot) (c : string) : nat :=
  list_sum (column_values p c).

Definition month_total (p : Pandas.Pivot) (i : nat) : nat :=
  list_sum (map (fun e => nth i (snd e) 0) (Pandas.data p)).

(** A table as pandas has it: distinct column labels, every column as long
    as the index. *)
Definition well_formed (p : Pandas.Pivot) : Prop :=
  NoDup (Pandas.pivot_columns p)
  /\ Forall (fun e => length (snd e) = length (Pandas.index p)) (Pandas.data p).

(** The columns of a table that are not among [top]. *)
Definition other_industries (p : Pandas.Pivot) (top : list string) : list string :=
  filter (fun c => negb (existsb (String.eqb c) top)) (Pandas.pivot_columns p).

(** The labels [plot_stacked_area] keeps: the first [top_n] of the columns
    by descending total, in the order the sort gives them. *)
Definition top_industries (tie : Pandas.TieOrder string) (p : Pandas.Pivot) (top_n : Z)
  : list string :=
  map fst (Pandas.head top_n (Pandas.sort_values_desc tie (Pandas.column_totals p))).

(** The listed columns of a table. *)
Definition selection (p : Pandas.Pivot) (labels : list string) : Pandas.Pivot :=
  {| Pandas.index := Pandas.index p;
     Pandas.data := map (fun c => (c, column_values p c)) labels |}.

Definition nondecreasing (l : list nat) : Prop :=
  forall i j, i <= j -> j < length l -> nth i l 0 <= nth j l 0.

(** [x] may stand before [y] in a list sorted by [leb] *)
Definition before {A} (leb : A -> A -> bool) (x y : A) : Prop := leb x y = true.

(* ================================================================== *)
(** ** Example data *)

(** Three first-use rows for the repositories A, B and C, dated 2024-01,
    2024-01 and 2024-02, and the predictions A -> "54", B -> "54",
    C -> "62"; a second first-use table has a row for D, which has no
    prediction. *)
Module Example.

Definition first_use : Pandas.Frame FirstUse.t :=
  {| Pandas.columns := ["nwo"; "first_use_date"];
     Pandas.rows :=
       [ FirstUse.mk "A" (mkTimestamp 2024 1 5 0);
         FirstUse.mk "B" (mkTimestamp 2024 1 20 0);
         FirstUse.mk "C" (mkTimestamp 2024 2 11 0) ] |}.

(** the same rows under the legacy labels, with a row for D *)
Definition first_use_with_D : Pandas.Frame FirstUse.t :=
  {| Pandas.columns := ["repo_nwo"; "first_claude_commit"];
     Pandas.rows :=
       Pandas.rows first_use ++ [ FirstUse.mk "D" (mkTimestamp 2024 3 2 0) ] |}.

Definition predictions : Pandas.Frame Prediction.t :=
  {| Pandas.columns := ["nwo"; "predicted_naics"; "confidence"];
     Pandas.rows :=
       [ Prediction.mk "A" "54"; Prediction.mk "B" "54"; Prediction.mk "C" "62" ] |}.

(** predictions for a repository that is in no first-use table *)
Definition predictions_elsewhere : Pandas.Frame Prediction.t :=
  {| Pandas.columns := ["nwo"; "predicted_naics"; "confidence"];
     Pandas.rows := [ Prediction.mk "Z" "51" ] |}.

Definition joined : list Joined.t :=
  Pandas.merge (Pandas.rows first_use) (Pandas.rows predictions).

(** only the files of "claude" exist *)
Definition fs : FileSystem :=
  {| first_use_parquet := fun agent =>
       if String.eqb agent "claude" then Some first_use else None;
     predictions_parquet := fun agent =>
       if String.eqb agent "claude" then Some predictions else None |}.

Definition fs_with_D : FileSystem :=
  {| first_use_parquet := fun agent =>
       if String.eqb agent "claude" then Some first_use_with_D else None;
     predictions_parquet := fun agent =>
       if String.eqb agent "claude" then Some predictions else None |}.

(** every agent has both files; the join of "claude" is empty *)
Definition fs_empty_merge : FileSystem :=
  {| first_use_parquet := fun _ => Some first_use;
     predictions_parquet := fun agent =>
       if String.eqb agent "claude" then Some predictions_elsewhere else Some predictions |}.

(** the first-use table of "claude" is stored under labels the loader does
    not know; the other agents have both files in the canonical schema *)
Definition first_use_unknown_labels : Pandas.Frame FirstUse.t :=
{| Pandas.columns := ["repo"; "date"]; Pandas.rows := Pandas.rows first_use |}.

Definition fs_unknown_labels : FileSystem :=
{| first_use_parquet := fun agent =>
     if String.eqb agent "claude" then Some first_use_unknown_labels else Some first_use;
   predictions_parquet := fun _ => Some predictions |}.



(** every agent has both files; the join of "copilot" is empty *)
Definition fs_copilot_empty_merge : FileSystem :=
{| first_use_parquet := fun _ => Some first_use;
   predictions_parquet := fun agent =>
     if String.eqb agent "copilot" then Some predictions_elsewhere else Some predictions |}.

(** "claude" has no first-use file; the other agents have both files *)
Definition fs_claude_missing : FileSystem :=
{| first_use_parquet := fun agent =>
     if String.eqb agent "claude" then None else Some first_use;
   predictions_parquet := fun _ => Some predictions |}.

End Example.

(* ================================================================== *)
(** ** Vocabulary of the further properties *)

(** A first-use row has a prediction when some prediction row carries its
    identifier. *)
Definition has_prediction (predictions : list Prediction.t) (f : FirstUse.t) : bool :=
  existsb (fun p => String.eqb (Prediction.nwo p) (FirstUse.nwo f)) predictions.

(** The identifier and the instant of a joined row, and of a first-use
    row. *)
Definition joined_key (j : Joined.t) : string * Timestamp :=
  (Joined.nwo j, Joined.first_use_date j).

Definition first_use_key (f : FirstUse.t) : string * Timestamp :=
  (FirstUse.nwo f, FirstUse.first_use_date f).

(** The joined records of one month. *)
Definition records_of_month (m : Period) (df : list Joined.t) : list Joined.t :=
  filter (fun r => Z.eqb (Joined.year_month r) m) df.



(** What [export_web_data.main] prints and writes for one agent, read off
    the result of [generate_cumulative_data]. *)
Definition export_agent_events (fs : FileSystem) (a : string * string)
  : list ExportWebData.event :=
  [ ExportWebData.Print ExportWebData.Rule;
    ExportWebData.Print (ExportWebData.Processing (snd a));
    ExportWebData.Print ExportWebData.Rule ]
  ++ match ExportWebData.generate_cumulative_data fs (fst a) with
     | Ok out =>
         [ ExportWebData.JsonDump (ExportWebData.output_path (fst a)) out;
           ExportWebData.Print (ExportWebData.Exported (snd a) (ExportWebData.total_repos out));
           ExportWebData.Print
             (ExportWebData.Months (hd "" (ExportWebData.months out))
                                   (last (ExportWebData.months out) ""));
           ExportWebData.Print
             (ExportWebData.Industries (length (ExportWebData.industries out))) ]
     | Raise e => [ ExportWebData.Print (ExportWebData.ErrorProcessing (snd a) e) ]
     end.

(** What the monthly adoption loop of [generate_summary_stats.main] logs,
    prints and writes for one agent, given with its display name. *)
Definition monthly_adoption_events (fs : FileSystem) (a : string * string)
  : list SummaryStats.event :=
  [ SummaryStats.Info SummaryStats.Rule;
    SummaryStats.Info (SummaryStats.MonthlyAdoptionTitle (snd a));
    SummaryStats.Info SummaryStats.Rule ]
  ++ fst (SummaryStats.generate_monthly_adoption fs (fst a))
  ++ match snd (SummaryStats.generate_monthly_adoption fs (fst a)) with
     | Ok t =>
         [ SummaryStats.PrintTable (SummaryStats.tail12 t);
           SummaryStats.ToCsv ("output/monthly_adoption_" ++ fst a ++ ".csv")%string t ]
     | Raise e => [ SummaryStats.Warning (SummaryStats.ErrorMonthlyAdoption (fst a) e) ]
     end.


(** The place of an entry in a series (its length for an entry that is not
    there), as a rank of the entries. *)
Fixpoint position (l : Pandas.Series string) (e : string * nat) : nat :=
  match l with
  | [] => 0
  | x :: t =>
      if String.eqb (fst e) (fst x) && Nat.eqb (snd e) (snd x) then 0
      else S (position t e)
  end.

(** The input files with every first-use table rewritten into the
    canonical labels. *)
Definition canonical (fs : FileSystem) : FileSystem :=
  {| first_use_parquet := fun agent => option_map normalize_columns (first_use_parquet fs agent);
     predictions_parquet := predictions_parquet fs |}.

(** Strictly increasing lists of counts. *)
Definition increasing (l : list nat) : Prop :=
  forall i j, i < j -> j < length l -> nth i l 0 < nth j l 0.

(* ================================================================== *)
(** ** Facts about the list operations *)

Section SortBy.
Variable A : Type.
Variable leb : A -> A -> bool.

Lemma insert_by_perm (x : A) (l : list A) :
  Permutation (Pandas.insert_by leb x l) (x :: l).
Proof.
  induction l as [|y t IH]; simpl.
  - apply Permutation_refl.
  - destruct (leb x y).
    + apply Permutation_refl.
    + eapply perm_trans; [apply perm_skip, IH | apply perm_swap].
Qed.

Lemma sort_by_perm (l : list A) : Permutation (Pandas.sort_by leb l) l.
Proof.
  induction l as [|x t IH]; simpl.
  - constructor.
  - eapply perm_trans; [apply insert_by_perm | apply perm_skip, IH].
Qed.

Lemma sort_by_In (l : list A) (x : A) : In x (Pandas.sort_by leb l) <-> In x l.
Proof.
  split; apply Permutation_in;
    [apply sort_by_perm | apply Permutation_sym, sort_by_perm].
Qed.

Lemma sort_by_NoDup (l : list A) : NoDup l -> NoDup (Pandas.sort_by leb l).
Proof.
  intro H. eapply Permutation_NoDup; [apply Permutation_sym, sort_by_perm | exact H].
Qed.

Hypothesis leb_total : forall x y, leb x y = true \/ leb y x = true.
Hypothesis leb_trans : forall x y z, leb x y = true -> leb y z = true -> leb x z = true.

Lemma insert_by_sorted (x : A) (l : list A) :
  StronglySorted (before leb) l -> StronglySorted (before leb) (Pandas.insert_by leb x l).
Proof.
  induction 1 as [|y t Ht IH Hy]; simpl.
  - repeat constructor.
  - destruct (leb x y) eqn:E.
    + constructor; [constructor; assumption|].
      constructor; [exact E|].
      rewrite Forall_forall in *. intros z Hz. eapply leb_trans; [exact E | apply Hy, Hz].
    + constructor; [exact IH|].
      rewrite Forall_forall in *. intros z Hz.
      apply (Permutation_in _ (insert_by_perm x t)) in Hz.
      destruct Hz as [<- | Hz]; [|apply Hy, Hz].
      destruct (leb_total x y) as [C | C]; [congruence | exact C].
Qed.

Lemma sort_by_sorted (l : list A) : StronglySorted (before leb) (Pandas.sort_by leb l).
Proof.
  induction l as [|x t IH]; simpl; [constructor | apply insert_by_sorted, IH].
Qed.
End SortBy.

(** A list that is in order already is left as it is. *)
Lemma sort_by_sorted_id {A} (leb : A -> A -> bool) (l : list A) :
  Sorted (before leb) l -> Pandas.sort_by leb l = l.
Proof.
  induction 1 as [|x t Ht IH Hx]; simpl; [reflexivity|].
  rewrite IH. destruct Hx as [|y t' Hxy]; simpl; [reflexivity|].
  unfold before in Hxy. now rewrite Hxy.
Qed.

Lemma sorted_unique_In {A} dec leb (l : list A) (x : A) :
  In x (Pandas.sorted_unique dec leb l) <-> In x l.
Proof. unfold Pandas.sorted_unique. now rewrite sort_by_In, nodup_In. Qed.

Lemma sorted_unique_NoDup {A} dec leb (l : list A) :
  NoDup (Pandas.sorted_unique dec leb l).
Proof. apply sort_by_NoDup, NoDup_nodup. Qed.

Lemma sorted_unique_Z_ascending (l : list Z) :
  StronglySorted Z.lt (Pandas.sorted_unique Z.eq_dec Z.leb l).
Proof.
  assert (S : StronglySorted (before Z.leb) (Pandas.sorted_unique Z.eq_dec Z.leb l)).
  { apply sort_by_sorted; unfold before; intros; lia. }
  pose proof (sorted_unique_NoDup Z.eq_dec Z.leb l) as N.
  induction S as [|x t St IH Hx]; [constructor|].
  apply NoDup_cons_iff in N as [Nx Nt].
  constructor; [auto|].
  rewrite Forall_forall in *. intros y Hy.
  specialize (Hx y Hy). unfold before in Hx.
  assert (x <> y) by (intros ->; contradiction). lia.
Qed.

Section Counting.
Variable K : Type.
Variable dec : forall a b : K, {a = b} + {a <> b}.

Lemma list_sum_map_add {X} (f g : X -> nat) (l : list X) :
  list_sum (map (fun x => f x + g x) l) = list_sum (map f l) + list_sum (map g l).
Proof. induction l as [|x t IH]; simpl; lia. Qed.

Lemma sum_indicator_out (ks : list K) (k0 : K) :
  ~ In k0 ks -> list_sum (map (fun k => if dec k0 k then 1 else 0) ks) = 0.
Proof.
  induction ks as [|k t IH]; simpl; intro H; [reflexivity|].
  destruct (dec k0 k) as [->|]; [exfalso; auto|]. apply IH. tauto.
Qed.

Lemma sum_indicator_in (ks : list K) (k0 : K) :
  NoDup ks -> In k0 ks -> list_sum (map (fun k => if dec k0 k then 1 else 0) ks) = 1.
Proof.
  induction 1 as [|k t Hk Ht IH]; simpl; intro H; [contradiction|].
  destruct (dec k0 k) as [->|N].
  - now rewrite sum_indicator_out.
  - destruct H as [->|H]; [contradiction | auto].
Qed.

(** Counting a list key by key, over distinct keys that cover it, counts
    every element once. *)
Lemma sum_count_occ_cover (ks l : list K) :
  NoDup ks -> incl l ks -> list_sum (map (count_occ dec l) ks) = length l.
Proof.
  intros N. induction l as [|x t IH]; intro C.
  - simpl. clear. induction ks; simpl; auto.
  - rewrite (map_ext _ (fun k => (if dec x k then 1 else 0) + count_occ dec t k)).
    + rewrite list_sum_map_add, sum_indicator_in, IH; auto.
      * intros y Hy. apply C. now right.
      * apply C. now left.
    + intro k. simpl. destruct (dec x k); reflexivity.
Qed.
End Counting.

Section CountingPairs.
Variables K1 K2 : Type.
Variable dec1 : forall a b : K1, {a = b} + {a <> b}.
Variable dec2 : forall a b : K2, {a = b} + {a <> b}.
Variable dec12 : forall a b : K1 * K2, {a = b} + {a <> b}.

(** Summing the counts of the pairs [(k1, c)] over distinct first
    components that cover the list gives the count of [c]. *)
Lemma sum_count_occ_fst (ks : list K1) (l : list (K1 * K2)) (c : K2) :
  NoDup ks -> incl (map fst l) ks ->
  list_sum (map (fun k1 => count_occ dec12 l (k1, c)) ks) = count_occ dec2 (map snd l) c.
Proof.
  intros N. induction l as [|[a b] t IH]; intro C.
  - simpl. clear. induction ks; simpl; auto.
  - assert (Ct : incl (map fst t) ks) by (intros y Hy; apply C; now right).
    assert (Ia : In a ks) by (apply C; now left).
    simpl. destruct (dec2 b c) as [->|Nb].
    + rewrite (map_ext _ (fun k1 => (if dec1 a k1 then 1 else 0) + count_occ dec12 t (k1, c))).
      * rewrite list_sum_map_add, sum_indicator_in, IH; auto.
      * intro k. destruct (dec12 (a, c) (k, c)) as [E|E], (dec1 a k) as [E'|E'];
          try reflexivity; [inversion E; contradiction | subst; contradiction].
    + rewrite <- IH by assumption. apply f_equal, map_ext.
      intro k. destruct (dec12 (a, b) (k, c)) as [E|E]; [inversion E; contradiction | reflexivity].
Qed.

End CountingPairs.

(** A count over the key column is the size of the filtered table. *)
Lemma count_occ_filter {A K} (dec : forall a b : K, {a = b} + {a <> b})
  (key : A -> K) (test : A -> bool) (k0 : K) (l : list A) :
  (forall x, test x = true <-> key x = k0) ->
  count_occ dec (map key l) k0 = length (filter test l).
Proof.
  intro H. induction l as [|x t IH]; simpl; [reflexivity|].
  destruct (dec (key x) k0) as [E|E], (test x) eqn:T; simpl; try (rewrite IH; reflexivity).
  - apply H in E. congruence.
  - apply H in T. contradiction.
Qed.

Section Cumsum.
Lemma cumsum_from_length (a : nat) (l : list nat) :
  length (Pandas.cumsum_from a l) = length l.
Proof. revert a; induction l as [|x t IH]; intro a; simpl; auto. Qed.

Lemma cumsum_from_lower (a : nat) (l : list nat) :
  Forall (le a) (Pandas.cumsum_from a l).
Proof.
  revert a; induction l as [|x t IH]; intro a; simpl; constructor; [lia|].
  eapply Forall_impl; [|apply IH]. simpl. intros; lia.
Qed.

Lemma cumsum_from_sorted (a : nat) (l : list nat) :
  StronglySorted le (Pandas.cumsum_from a l).
Proof.
  revert a; induction l as [|x t IH]; intro a; simpl; constructor; auto.
  apply cumsum_from_lower.
Qed.

Lemma cumsum_from_last (a d : nat) (l : list nat) :
  l <> [] -> last (Pandas.cumsum_from a l) d = a + list_sum l.
Proof.
  revert a; induction l as [|x t IH]; intros a H; [contradiction|].
  destruct t as [|y t']; [simpl; lia|].
  change (last (Pandas.cumsum_from (a + x) (y :: t')) d = a + (x + list_sum (y :: t'))).
  rewrite IH by discriminate. lia.
Qed.

Lemma sorted_nondecreasing (l : list nat) : StronglySorted le l -> nondecreasing l.
Proof.
  induction 1 as [|x t Ht IH Hx]; intros i j Hij Hj; simpl in *; [lia|].
  destruct i as [|i], j as [|j]; try lia.
  - rewrite Forall_forall in Hx. apply Hx, nth_In. lia.
  - apply IH; lia.
Qed.

Lemma cumsum_from_nondecreasing (a : nat) (l : list nat) :
  nondecreasing (Pandas.cumsum_from a l).
Proof. apply sorted_nondecreasing, cumsum_from_sorted. Qed.
End Cumsum.

(** ** Facts about the pivot table of a joined table *)

Lemma map_fst_combine {A B} (l : list A) (l' : list B) :
  length l = length l' -> map fst (combine l l') = l.
Proof.
  revert l'; induction l as [|x t IH]; intros [|y t'] H; simpl in *; try discriminate; auto.
  f_equal. apply IH. lia.
Qed.

Lemma map_snd_combine {A B} (l : list A) (l' : list B) :
  length l = length l' -> map snd (combine l l') = l'.
Proof.
  revert l'; induction l as [|x t IH]; intros [|y t'] H; simpl in *; try discriminate; auto.
  f_equal. apply IH. lia.
Qed.

Lemma map_nth_seq (v : list nat) : map (fun i => nth i v 0) (seq 0 (length v)) = v.
Proof.
  induction v as [|x t IH]; simpl; [reflexivity|].
  f_equal. rewrite <- seq_shift, map_map. exact IH.
Qed.

Lemma combine_index_sorted (idx : list Z) :
  StronglySorted Z.lt idx ->
  forall js : list nat, Sorted (before (fun a b => (fst a <=? fst b)%Z)) (combine idx js).
Proof.
  induction 1 as [|x t Ht IH Hx]; intros [|j js]; simpl; try constructor.
  - apply IH.
  - destruct t as [|y t'], js as [|j' js']; simpl; constructor.
    unfold before; simpl. inversion Hx; subst. lia.
Qed.

(** Sorting by the index leaves a table with an ascending index as it is. *)
Lemma sort_index_sorted (p : Pandas.Pivot) :
  StronglySorted Z.lt (Pandas.index p) ->
  (forall e, In e (Pandas.data p) -> length (snd e) = length (Pandas.index p)) ->
  Pandas.sort_index p = p.
Proof.
  intros S L. destruct p as [idx d]; simpl in *. unfold Pandas.sort_index; simpl.
  rewrite (sort_by_sorted_id (combine_index_sorted S _)).
  rewrite map_fst_combine by now rewrite length_seq.
  f_equal. rewrite <- (map_id d) at 2. apply map_ext_in.
  intros [c v] H. simpl. f_equal.
  rewrite <- (map_map snd (fun i => nth i v 0)).
  rewrite map_snd_combine by now rewrite length_seq.
  rewrite <- (L _ H). apply map_nth_seq.
Qed.

Section Lookup.
Variable K : Type.
Variable eqb : K -> K -> bool.
Hypothesis eqb_eq : forall a b, eqb a b = true <-> a = b.

Lemma lookup_tabulate_in (f : K -> nat) (ks : list K) (k : K) (d : nat) :
  In k ks -> Pandas.lookup eqb k (map (fun k => (k, f k)) ks) d = f k.
Proof.
  unfold Pandas.lookup. induction ks as [|a t IH]; simpl; intro H; [contradiction|].
  destruct (eqb a k) eqn:E.
  - apply eqb_eq in E. now subst.
  - destruct H as [->|H]; [|auto].
    assert (eqb k k = true) by now apply eqb_eq. congruence.
Qed.

Lemma lookup_tabulate_out (f : K -> nat) (ks : list K) (k : K) (d : nat) :
  ~ In k ks -> Pandas.lookup eqb k (map (fun k => (k, f k)) ks) d = d.
Proof.
  unfold Pandas.lookup. induction ks as [|a t IH]; simpl; intro H; [reflexivity|].
  destruct (eqb a k) eqn:E.
  - apply eqb_eq in E. subst. tauto.
  - apply IH. tauto.
Qed.
End Lookup.

Lemma key_eqb_eq (a b : Period * string) : Pandas.key_eqb a b = true <-> a = b.
Proof. unfold Pandas.key_eqb. destruct (Pandas.key_dec a b); split; congruence. Qed.

(** The size of a group is the number of joined records of its month and
    industry; a pair without records reads as the fill value 0. *)
Lemma groupby_size_lookup (df : list Joined.t) (m : Period) (c : string) :
  Pandas.lookup Pandas.key_eqb (m, c) (Pandas.groupby_size df) 0
  = length (records_of_cell m c df).
Proof.
  unfold Pandas.groupby_size, records_of_cell.
  rewrite <- (@count_occ_filter _ _ Pandas.key_dec
                (fun r => (Joined.year_month r, Joined.predicted_naics r)) _ (m, c)).
  - fold (group_keys df). destruct (in_dec Pandas.key_dec (m, c) (group_keys df)) as [I|I].
    + apply (@lookup_tabulate_in _ _ key_eqb_eq). now apply sorted_unique_In.
    + rewrite (@lookup_tabulate_out _ _ key_eqb_eq).
      * symmetry. now apply count_occ_not_In.
      * now rewrite sorted_unique_In.
  - intro r. rewrite andb_true_iff, Z.eqb_eq, String.eqb_eq. split.
    + intros [-> ->]; reflexivity.
    + intro E; inversion E; auto.
Qed.

Lemma groupby_size_keys (df : list Joined.t) :
  map fst (Pandas.groupby_size df)
  = Pandas.sorted_unique Pandas.key_dec Pandas.key_leb (group_keys df).
Proof. unfold Pandas.groupby_size, group_keys. rewrite map_map. simpl. apply map_id. Qed.

Lemma monthly_table_index_In (df : list Joined.t) (m : Period) :
  In m (Pandas.index (monthly_table df)) <-> In m (map Joined.year_month df).
Proof.
  unfold monthly_table, Pandas.unstack; simpl.
  rewrite sorted_unique_In, <- (map_map fst fst), groupby_size_keys.
  rewrite !in_map_iff. split.
  - intros [k [<- H]]. apply sorted_unique_In in H. unfold group_keys in H.
    apply in_map_iff in H as [r [<- H]].
    exists r; auto.
  - intros [r [<- H]]. exists (Joined.year_month r, Joined.predicted_naics r). split; auto.
    apply sorted_unique_In. unfold group_keys. apply in_map_iff. exists r; auto.
Qed.

Lemma monthly_table_columns_eq (df : list Joined.t) :
  Pandas.pivot_columns (monthly_table df)
  = Pandas.sorted_unique string_dec String.leb
      (map (fun e => snd (fst e)) (Pandas.groupby_size df)).
Proof.
  unfold monthly_table, Pandas.unstack, Pandas.pivot_columns; simpl.
  rewrite map_map; simpl. apply map_id.
Qed.

Lemma monthly_table_columns_In (df : list Joined.t) (c : string) :
  In c (Pandas.pivot_columns (monthly_table df)) <-> In c (map Joined.predicted_naics df).
Proof.
  rewrite monthly_table_columns_eq.
  rewrite sorted_unique_In, <- (map_map fst snd), groupby_size_keys.
  rewrite !in_map_iff. split.
  - intros [k [<- H]]. apply sorted_unique_In in H. unfold group_keys in H.
    apply in_map_iff in H as [r [<- H]].
    exists r; auto.
  - intros [r [<- H]]. exists (Joined.year_month r, Joined.predicted_naics r). split; auto.
    apply sorted_unique_In. unfold group_keys. apply in_map_iff. exists r; auto.
Qed.

Lemma monthly_table_index_ascending (df : list Joined.t) :
  StronglySorted Z.lt (Pandas.index (monthly_table df)).
Proof. apply sorted_unique_Z_ascending. Qed.

Lemma monthly_table_columns_NoDup (df : list Joined.t) :
  NoDup (Pandas.pivot_columns (monthly_table df)).
Proof.
  rewrite monthly_table_columns_eq. apply sorted_unique_NoDup.
Qed.

(** Every column lists, month by month, the number of joined records of
    that month and industry. *)
Lemma monthly_table_data (df : list Joined.t) :
  Pandas.data (monthly_table df)
  = map (fun c => (c, map (fun m => length (records_of_cell m c df))
                          (Pandas.index (monthly_table df))))
        (Pandas.pivot_columns (monthly_table df)).
Proof.
  rewrite monthly_table_columns_eq.
  unfold monthly_table, Pandas.unstack; simpl.
  apply map_ext. intro c. f_equal. apply map_ext. intro m. apply groupby_size_lookup.
Qed.

Lemma monthly_table_sort_index (df : list Joined.t) :
  Pandas.sort_index (monthly_table df) = monthly_table df.
Proof.
  apply sort_index_sorted; [apply monthly_table_index_ascending|].
  intros e H. rewrite monthly_table_data in H. apply in_map_iff in H as [c [<- _]].
  simpl. apply length_map.
Qed.

(** ** Facts about the error monad *)

Lemma mapM_map {A B C} (f : B -> Res C) (h : A -> B) (g : A -> C) (l : list A) :
  (forall x, In x l -> f (h x) = Ok (g x)) -> mapM f (map h l) = Ok (map g l).
Proof.
  induction l as [|x t IH]; simpl; intro H; [reflexivity|].
  rewrite H by now left. simpl. rewrite IH by (intros; apply H; now right). reflexivity.
Qed.

Lemma item_last_nonempty {A} (l : list A) (d : A) : l <> [] -> item_last l = Ok (last l d).
Proof.
  induction l as [|x t IH]; intro H; [contradiction|].
  destruct t as [|y t']; [reflexivity|].
  change (item_last (y :: t') = Ok (last (y :: t') d)). apply IH. discriminate.
Qed.

Lemma column_In (p : Pandas.Pivot) (c : string) (v : list nat) :
  NoDup (Pandas.pivot_columns p) -> In (c, v) (Pandas.data p) -> Pandas.column p c = Ok v.
Proof.
  unfold Pandas.column, Pandas.pivot_columns. destruct p as [idx d]; simpl.
  induction d as [|[c' v'] t IH]; simpl; intros N H; [contradiction|].
  apply NoDup_cons_iff in N as [N1 N2].
  destruct (String.eqb_spec c' c) as [->|E]; simpl.
  - destruct H as [H|H]; [congruence|].
    exfalso. apply N1. apply in_map_iff. exists (c, v); auto.
  - destruct H as [H|H]; [congruence | auto].
Qed.

Lemma cumsum_columns (p : Pandas.Pivot) :
  Pandas.pivot_columns (Pandas.cumsum p) = Pandas.pivot_columns p.
Proof. unfold Pandas.pivot_columns, Pandas.cumsum; simpl. now rewrite map_map. Qed.

(** ** [generate_cumulative_data] after the load *)

(** The entry the loop of [generate_cumulative_data] builds for a column. *)
Lemma industries_of_table (p : Pandas.Pivot) :
  NoDup (Pandas.pivot_columns p) ->
  mapM (fun col =>
          (values <- Pandas.column (Pandas.cumsum p) col ;;
           monthly <- Pandas.column p col ;;
           Ok {| ExportWebData.code := col;
                 ExportWebData.name :=
                   (col ++ ": " ++ dict_get ExportWebData.NAICS_DESCRIPTIONS col col)%string;
                 ExportWebData.color := dict_get ExportWebData.INDUSTRY_COLORS col "#666666";
                 ExportWebData.values := values;
                 ExportWebData.monthly := monthly |})%res)
       (Pandas.pivot_columns (Pandas.cumsum p))
  = Ok (map (industry_entry) (Pandas.data p)).
Proof.
  intro N. rewrite cumsum_columns. unfold Pandas.pivot_columns. apply mapM_map.
  intros [c v] H. simpl.
  rewrite (@column_In (Pandas.cumsum p) c (Pandas.cumsum_from 0 v)).
  - simpl. rewrite (@column_In p c v N H). reflexivity.
  - now rewrite cumsum_columns.
  - unfold Pandas.cumsum; simpl. apply in_map_iff. exists (c, v); auto.
Qed.

Lemma combine_map_key {A} (k : A -> nat) (l : list A) :
  combine (map k l) l = map (fun x => (k x, x)) l.
Proof. induction l as [|x t IH]; simpl; congruence. Qed.

Lemma sorted_map_snd {A} (k : A -> nat) (s : list (nat * A)) :
  Forall (fun a => fst a = k (snd a)) s ->
  StronglySorted (before (fun a b => Nat.leb (fst b) (fst a))) s ->
  StronglySorted (fun a b => k b <= k a) (map snd s).
Proof.
  intros F S. induction S as [|a t St IH Ha]; simpl; [constructor|].
  inversion F as [|? ? Fa Ft]; subst.
  constructor; [auto|].
  rewrite Forall_forall in *. intros y Hy.
  apply in_map_iff in Hy as [b [<- Hb]].
  specialize (Ha b Hb). unfold before in Ha. apply Nat.leb_le in Ha.
  rewrite <- Fa, <- (Ft b Hb). exact Ha.
Qed.

(** [l.sort(key=..., reverse=True)] with keys that can all be computed:
    the same entries, by descending key. *)
Lemma sort_reverse_by_key_total {A} (key : A -> Res nat) (k : A -> nat) (l : list A) :
  (forall x, In x l -> key x = Ok (k x)) ->
  exists l',
    ExportWebData.sort_reverse_by_key key l = Ok l'
    /\ Permutation l' l
    /\ StronglySorted (fun a b => k b <= k a) l'.
Proof.
  intro H. unfold ExportWebData.sort_reverse_by_key.
  pose proof (mapM_map key (fun x => x) k l H) as M. rewrite map_id in M.
  rewrite M. simpl.
  eexists; split; [reflexivity|]. rewrite combine_map_key. split.
  - assert (E : map snd (map (fun x => (k x, x)) l) = l)
      by (rewrite map_map; apply map_id).
    rewrite <- E at 2. apply Permutation_map, sort_by_perm.
  - apply sorted_map_snd.
    + rewrite Forall_forall. intros a Ha.
      apply sort_by_In, in_map_iff in Ha as [x [<- _]]. reflexivity.
    + apply sort_by_sorted; unfold before; intros.
      * destruct (Nat.leb_spec (fst y) (fst x)), (Nat.leb_spec (fst x) (fst y)); auto; lia.
      * apply Nat.leb_le. apply Nat.leb_le in H0, H1. lia.
Qed.

(** ** Counts of the monthly table *)

Lemma records_of_cell_count (df : list Joined.t) (m : Period) (c : string) :
  length (records_of_cell m c df) = count_occ Pandas.key_dec (group_keys df) (m, c).
Proof.
  symmetry. apply count_occ_filter. intro r.
  rewrite andb_true_iff, Z.eqb_eq, String.eqb_eq. split.
  - intros [-> ->]; reflexivity.
  - intro E; inversion E; auto.
Qed.

Lemma records_of_industry_count (df : list Joined.t) (c : string) :
  length (records_of_industry c df) = count_occ string_dec (map Joined.predicted_naics df) c.
Proof. symmetry. apply count_occ_filter. intro r. apply String.eqb_eq. Qed.

(** A column of the monthly table adds up to the joined records of its
    industry. *)
Lemma monthly_table_column_sum (df : list Joined.t) (c : string) :
  list_sum (map (fun m => length (records_of_cell m c df)) (Pandas.index (monthly_table df)))
  = length (records_of_industry c df).
Proof.
  rewrite records_of_industry_count.
  rewrite (map_ext _ (fun m => count_occ Pandas.key_dec (group_keys df) (m, c)))
    by (intro; apply records_of_cell_count).
  replace (map Joined.predicted_naics df) with (map snd (group_keys df))
    by (unfold group_keys; rewrite map_map; reflexivity).
  apply (sum_count_occ_fst Z.eq_dec).
  - apply sorted_unique_NoDup.
  - intros m H. apply monthly_table_index_In.
    unfold group_keys in H. now rewrite map_map in H.
Qed.

(** The columns together hold every joined record once. *)
Lemma monthly_table_total (df : list Joined.t) :
  list_sum (map (fun c => length (records_of_industry c df))
                (Pandas.pivot_columns (monthly_table df)))
  = length df.
Proof.
  rewrite (map_ext _ (count_occ string_dec (map Joined.predicted_naics df)))
    by (intro; apply records_of_industry_count).
  rewrite sum_count_occ_cover.
  - apply length_map.
  - apply monthly_table_columns_NoDup.
  - intros c H. now apply monthly_table_columns_In.
Qed.

Lemma monthly_table_index_nonempty (df : list Joined.t) :
  df <> [] -> Pandas.index (monthly_table df) <> [].
Proof.
  destruct df as [|r t]; [contradiction|]. intros _ E.
  assert (I : In (Joined.year_month r) (Pandas.index (monthly_table (r :: t))))
    by (apply monthly_table_index_In; now left).
  rewrite E in I. exact I.
Qed.

(** The entries of a joined table, column by column. *)
Lemma industry_entry_values (df : list Joined.t) (e : string * list nat) :
  In e (Pandas.data (monthly_table df)) ->
  In (fst e) (map Joined.predicted_naics df)
  /\ snd e = map (fun m => length (records_of_cell m (fst e) df)) (Pandas.index (monthly_table df)).
Proof.
  intro H. pose proof H as H'. rewrite monthly_table_data in H.
  apply in_map_iff in H as [c [<- Hc]]. simpl. split; [|reflexivity].
  now apply monthly_table_columns_In.
Qed.

Lemma industry_entry_final (df : list Joined.t) (e : string * list nat) :
  In e (Pandas.data (monthly_table df)) ->
  final_value (industry_entry e) = length (records_of_industry (fst e) df).
Proof.
  intro H. destruct (industry_entry_values df e H) as [I V].
  unfold final_value, industry_entry; simpl. rewrite V.
  rewrite cumsum_from_last.
  - simpl. apply monthly_table_column_sum.
  - intro E. apply map_eq_nil in E. revert E. apply monthly_table_index_nonempty.
    destruct df; [contradiction | discriminate].
Qed.

(** ** The loaders *)

Lemma normalize_columns_rows {R} (df : Pandas.Frame R) :
  Pandas.rows (normalize_columns df) = Pandas.rows df.
Proof.
  unfold normalize_columns.
  destruct (Pandas.has_column "repo_nwo" df);
    [destruct (Pandas.has_column "first_claude_commit" (Pandas.rename "repo_nwo" "nwo" df))
    | destruct (Pandas.has_column "first_claude_commit" df)]; reflexivity.
Qed.

Lemma rbind_ok {A B} (m : Res A) (f : A -> Res B) (b : B) :
  rbind m f = Ok b -> exists a, m = Ok a /\ f a = Ok b.
Proof. destruct m as [a|e]; simpl; [eauto | discriminate]. Qed.

Lemma require_unique_column_ok {R} (label : string) (df : Pandas.Frame R) :
  require_unique_column label df = Ok tt <-> Pandas.label_count label df = 1.
Proof.
  unfold require_unique_column.
  destruct (Pandas.label_count label df) as [|[|n]]; split; intro H;
    try discriminate; reflexivity.
Qed.

Lemma require_unique_column_inv {R} (label : string) (df : Pandas.Frame R) (u : unit) :
  require_unique_column label df = Ok u -> Pandas.label_count label df = 1.
Proof. destruct u. apply require_unique_column_ok. Qed.

Lemma has_column_count {R} (label : string) (df : Pandas.Frame R) :
  Pandas.has_column label df = negb (Nat.eqb (Pandas.label_count label df) 0).
Proof.
  unfold Pandas.has_column, Pandas.label_count.
  induction (Pandas.columns df) as [|c t IH]; [reflexivity|]. simpl.
  destruct (string_dec c label) as [->|N].
  - now rewrite String.eqb_refl.
  - rewrite IH. destruct (String.eqb_spec label c) as [->|]; [contradiction | reflexivity].
Qed.

Lemma coerce_first_use_date_inv (df r : Pandas.Frame FirstUse.t) :
  coerce_first_use_date df = Ok r ->
  r = df /\ Pandas.label_count "first_use_date" df = 1.
Proof.
  unfold coerce_first_use_date. intro H. apply rbind_ok in H as [u [H E]].
  apply require_unique_column_inv in H. split; congruence.
Qed.

Lemma count_occ_filter_eqb (label l : string) (cols : list string) :
  count_occ string_dec (filter (fun c => String.eqb c l) cols) label
  = if String.eqb l label then count_occ string_dec cols label else 0.
Proof.
  induction cols as [|c t IH]; simpl; [now destruct (String.eqb l label)|].
  destruct (String.eqb_spec c l) as [->|N]; simpl.
  - destruct (string_dec l label) as [->|N'].
    + rewrite String.eqb_refl in *. now rewrite IH.
    + rewrite IH. now destruct (String.eqb_spec l label).
  - rewrite IH. destruct (String.eqb_spec l label) as [<-|]; [|reflexivity].
    destruct (string_dec c l) as [->|]; [contradiction | reflexivity].
Qed.

(** The projection of the predictions keeps the rows and as many columns
    [nwo] as there were. *)
Lemma project_predictions_inv (pr q : Pandas.Frame Prediction.t) :
  project_predictions pr = Ok q ->
  Pandas.rows q = Pandas.rows pr
  /\ Pandas.label_count "nwo" q = Pandas.label_count "nwo" pr
  /\ Pandas.has_column "nwo" pr = true
  /\ Pandas.has_column "predicted_naics" pr = true.
Proof.
  unfold project_predictions. cbn [filter].
  destruct (Pandas.has_column "nwo" pr), (Pandas.has_column "predicted_naics" pr);
    cbn [negb]; intro H; try discriminate.
  injection H as <-. cbn [Pandas.rows]. split; [reflexivity|]. split; [|auto].
  unfold Pandas.label_count. cbn [Pandas.columns flat_map].
  rewrite app_nil_r, count_occ_app, !count_occ_filter_eqb. cbn. lia.
Qed.


Lemma merge_on_nwo_inv (fu : Pandas.Frame FirstUse.t) (pr : Pandas.Frame Prediction.t)
  (m : list Joined.t) :
  merge_on_nwo fu pr = Ok m ->
  m = Pandas.merge (Pandas.rows fu) (Pandas.rows pr)
  /\ Pandas.label_count "nwo" fu = 1
  /\ Pandas.label_count "nwo" pr = 1.
Proof.
  unfold merge_on_nwo. intro H.
  apply rbind_ok in H as [u [H1 H]]. apply rbind_ok in H as [u' [H2 H]].
  apply require_unique_column_inv in H1, H2. split; [congruence | auto].
Qed.


(** What [load_and_process] returns is the inner join of the rows of the
    two files. *)
Lemma load_and_process_inv (fs : FileSystem) (agent : string) (df : list Joined.t) :
  ExportWebData.load_and_process fs agent = Ok df ->
  exists fu pr,
    first_use_parquet fs agent = Some fu
    /\ predictions_parquet fs agent = Some pr
    /\ df = Pandas.merge (Pandas.rows fu) (Pandas.rows pr).
Proof.
  unfold ExportWebData.load_and_process, read_parquet.
  destruct (first_use_parquet fs agent) as [fu|]; [|discriminate].
  destruct (predictions_parquet fs agent) as [pr|]; [|discriminate].
  cbn [rbind]. intro H. exists fu, pr. split; [reflexivity|]. split; [reflexivity|].
  apply rbind_ok in H as [fu' [C H]]. apply coerce_first_use_date_inv in C as [-> _].
  apply rbind_ok in H as [pr' [P H]]. apply project_predictions_inv in P as [P _].
  apply rbind_ok in H as [m [M H]]. apply merge_on_nwo_inv in M as [-> _].
  rewrite normalize_columns_rows, P in H. congruence.
Qed.

(** ** [generate_cumulative_data] on a loaded table *)

Lemma iloc_last_cumsum (p : Pandas.Pivot) :
  Pandas.index p <> [] ->
  Pandas.iloc_last (Pandas.cumsum p)
  = Ok (map (fun e => (fst e, final_value (industry_entry e))) (Pandas.data p)).
Proof.
  intro H. unfold Pandas.iloc_last, Pandas.cumsum; simpl.
  destruct (Pandas.index p); [contradiction|].
  now rewrite map_map.
Qed.

(** The last cumulative row adds up to the number of joined records. *)
Lemma last_row_total (df : list Joined.t) :
  df <> [] ->
  Pandas.series_sum
    (map (fun e => (fst e, final_value (industry_entry e))) (Pandas.data (monthly_table df)))
  = length df.
Proof.
  intro N. unfold Pandas.series_sum. rewrite map_map. cbn [snd].
  etransitivity; [|apply monthly_table_total].
  unfold Pandas.pivot_columns. rewrite map_map.
  f_equal. apply map_ext_in. intros e He. apply (industry_entry_final df e He).
Qed.

Lemma generate_cumulative_data_nonempty (fs : FileSystem) (agent : string)
  (df : list Joined.t) :
  ExportWebData.load_and_process fs agent = Ok df ->
  df <> [] ->
  exists industries,
    ExportWebData.generate_cumulative_data fs agent
    = Ok {| ExportWebData.months := map period_str (Pandas.index (monthly_table df));
            ExportWebData.industries := industries;
            ExportWebData.total_repos := length df |}
    /\ Permutation industries (map industry_entry (Pandas.data (monthly_table df)))
    /\ StronglySorted (fun a b => final_value b <= final_value a) industries.
Proof.
  intros L N. unfold ExportWebData.generate_cumulative_data. rewrite L. cbn [rbind].
  fold (monthly_table df). rewrite monthly_table_sort_index.
  rewrite (@industries_of_table (monthly_table df) (monthly_table_columns_NoDup df)).
  cbn [rbind].
  destruct (@sort_reverse_by_key_total _
              (fun x => item_last (ExportWebData.values x)) final_value
              (map industry_entry (Pandas.data (monthly_table df))))
    as [sorted [E [P S]]].
  { intros x Hx. apply in_map_iff in Hx as [e [<- He]].
    apply item_last_nonempty. unfold industry_entry; simpl.
    destruct (industry_entry_values df e He) as [_ V]. rewrite V.
    intro C. apply (f_equal (@length nat)) in C.
    rewrite cumsum_from_length, length_map in C. simpl in C.
    apply length_zero_iff_nil in C. revert C. now apply monthly_table_index_nonempty. }
  rewrite E. cbn [rbind].
  rewrite iloc_last_cumsum by now apply monthly_table_index_nonempty.
  cbn [rbind]. rewrite (last_row_total N).
  exists sorted. auto.
Qed.

Lemma generate_cumulative_data_empty (fs : FileSystem) (agent : string) :
  ExportWebData.load_and_process fs agent = Ok [] ->
  ExportWebData.generate_cumulative_data fs agent = Raise IndexError.
Proof.
  intro L. unfold ExportWebData.generate_cumulative_data. rewrite L. reflexivity.
Qed.

(* ================================================================== *)
(** ** The join *)

Lemma list_sum_le_length (l : list nat) : Forall (fun n => n <= 1) l -> list_sum l <= length l.
Proof. induction 1; simpl; lia. Qed.

Lemma sum_indicator_le (K : Type) (dec : forall a b : K, {a = b} + {a <> b})
  (ks : list K) (k0 : K) :
  NoDup ks -> list_sum (map (fun k => if dec k0 k then 1 else 0) ks) <= 1.
Proof.
  intro N. destruct (in_dec dec k0 ks).
  - now rewrite sum_indicator_in.
  - rewrite sum_indicator_out; auto.
Qed.

(** Counting a list by distinct keys counts no element twice. *)
Lemma sum_count_occ_le (K : Type) (dec : forall a b : K, {a = b} + {a <> b})
  (ks l : list K) :
  NoDup ks -> list_sum (map (count_occ dec l) ks) <= length l.
Proof.
  intro N. induction l as [|x t IH].
  - simpl. clear. induction ks; simpl; auto.
  - rewrite (map_ext _ (fun k => (if dec x k then 1 else 0) + count_occ dec t k)).
    + rewrite list_sum_map_add. pose proof (sum_indicator_le dec x N). simpl. lia.
    + intro k. simpl. destruct (dec x k); reflexivity.
Qed.

(** The rows of the join, counted by the left rows. *)
Lemma merge_length (first_use : list FirstUse.t) (predictions : list Prediction.t) :
  length (Pandas.merge first_use predictions)
  = list_sum (map (count_occ string_dec (map Prediction.nwo predictions))
                  (map FirstUse.nwo first_use)).
Proof.
  unfold Pandas.merge. rewrite length_flat_map, map_map. f_equal.
  apply map_ext. intro f. rewrite length_map. symmetry.
  apply count_occ_filter. intro p. apply String.eqb_eq.
Qed.

(** What [merge_with_predictions] returns is the inner join of the rows of
    the table it is given and of the predictions file. *)
Lemma merge_with_predictions_inv (fs : FileSystem) (fu : Pandas.Frame FirstUse.t)
  (agent_key : string) (merged : list Joined.t) :
  snd (PlotIndustryAdoption.merge_with_predictions fs fu agent_key) = Ok merged ->
  exists pr,
    predictions_parquet fs agent_key = Some pr
    /\ merged = Pandas.merge (Pandas.rows fu) (Pandas.rows pr).
Proof.
  unfold PlotIndustryAdoption.merge_with_predictions, read_parquet, lift.
  destruct (predictions_parquet fs agent_key) as [pr|]; [|discriminate].
  cbv zeta. cbn [io_bind emit app fst snd].
  destruct (project_predictions pr) as [q|e] eqn:P; [|discriminate].
  cbn [io_bind emit app fst snd].
  destruct (merge_on_nwo fu q) as [m|e] eqn:M; [|discriminate].
  cbn [io_bind emit io_ret app fst snd]. intros [= <-].
  exists pr. split; [reflexivity|].
  apply project_predictions_inv in P as [P _]. apply merge_on_nwo_inv in M as [-> _].
  now rewrite P.
Qed.

(** C3.  With repository identifiers unique within the first-use rows and
    within the prediction rows, the inner join on [nwo] has at most as many
    rows as the smaller of the two inputs; so has the table that
    [merge_with_predictions] returns for a first-use table and a predictions
    file with these rows. *)
Theorem merge_row_count_bound (first_use : list FirstUse.t) (predictions : list Prediction.t) :
  NoDup (map FirstUse.nwo first_use) ->
  NoDup (map Prediction.nwo predictions) ->
  length (Pandas.merge first_use predictions)
  <= Nat.min (length first_use) (length predictions)
  /\ forall fs fu agent_key pr merged,
       Pandas.rows fu = first_use ->
       predictions_parquet fs agent_key = Some pr ->
       Pandas.rows pr = predictions ->
       snd (PlotIndustryAdoption.merge_with_predictions fs fu agent_key) = Ok merged ->
       length merged <= Nat.min (length first_use) (length predictions).
Proof.
  intros Nl Nr.
  assert (B : length (Pandas.merge first_use predictions)
              <= Nat.min (length first_use) (length predictions)).
  { rewrite merge_length. apply Nat.min_glb.
    - rewrite <- (length_map FirstUse.nwo first_use).
      rewrite <- (length_map (count_occ string_dec (map Prediction.nwo predictions))).
      apply list_sum_le_length. rewrite Forall_forall. intros n Hn.
      apply in_map_iff in Hn as [k [<- _]].
      now apply NoDup_count_occ.
    - rewrite <- (length_map Prediction.nwo predictions).
      now apply sum_count_occ_le. }
  split; [exact B|].
  intros fs fu agent_key pr merged Hfu Hfile Hpr H.
  apply merge_with_predictions_inv in H as [pr' [Hfile' ->]].
  assert (pr' = pr) by congruence. subst pr'. now rewrite Hfu, Hpr.
Qed.

Lemma merge_row_count_bound_witness :
  length (Pandas.merge
            [FirstUse.mk "A" (mkTimestamp 2024 1 5 0); FirstUse.mk "B" (mkTimestamp 2024 1 9 0);
             FirstUse.mk "C" (mkTimestamp 2024 2 1 0); FirstUse.mk "D" (mkTimestamp 2024 3 1 0)]
            [Prediction.mk "A" "54"; Prediction.mk "B" "54"; Prediction.mk "C" "62"])
  <= Nat.min 4 3
  /\ forall merged,
       snd (PlotIndustryAdoption.merge_with_predictions Example.fs_with_D
              Example.first_use_with_D "claude") = Ok merged ->
       length merged <= Nat.min 4 3.
Proof.
  split.
  - apply (merge_row_count_bound
             [FirstUse.mk "A" (mkTimestamp 2024 1 5 0); FirstUse.mk "B" (mkTimestamp 2024 1 9 0);
              FirstUse.mk "C" (mkTimestamp 2024 2 1 0); FirstUse.mk "D" (mkTimestamp 2024 3 1 0)]
             [Prediction.mk "A" "54"; Prediction.mk "B" "54"; Prediction.mk "C" "62"]);
      simpl; repeat constructor; simpl; intuition discriminate.
  - intros merged H.
    apply (proj2 (merge_row_count_bound (Pandas.rows Example.first_use_with_D)
                    (Pandas.rows Example.predictions)
                    ltac:(simpl; repeat constructor; simpl; intuition discriminate)
                    ltac:(simpl; repeat constructor; simpl; intuition discriminate))
             Example.fs_with_D Example.first_use_with_D "claude" Example.predictions merged
             eq_refl eq_refl eq_refl H).
Defined.

(* ================================================================== *)
(** ** The column normalisation *)

(** The labels after a rename: the other labels stay, and the new label is
    there when the old one was. *)
Lemma has_column_rename {R} (label old new : string) (df : Pandas.Frame R) :
  Pandas.has_column label (Pandas.rename old new df)
  = (Pandas.has_column label df && negb (String.eqb label old))
    || (String.eqb label new && Pandas.has_column old df).
Proof.
  unfold Pandas.has_column, Pandas.rename; simpl.
  induction (Pandas.columns df) as [|c t IH]; simpl.
  - now rewrite andb_false_r.
  - rewrite IH.
    destruct (String.eqb_spec c old) as [Hc|Hc];
      destruct (String.eqb_spec label old) as [Hl|Hl];
      destruct (String.eqb_spec label new) as [Hn|Hn];
      destruct (String.eqb_spec old c) as [Ho|Ho];
      destruct (String.eqb_spec label c) as [Hlc|Hlc];
      try congruence; simpl;
      repeat rewrite ?andb_true_r, ?andb_false_r, ?orb_true_r, ?orb_false_r, ?String.eqb_refl;
      simpl; try reflexivity;
      destruct (existsb (String.eqb _) t); simpl; try reflexivity;
      destruct (existsb (String.eqb _) t); reflexivity.
Qed.

(** After the normalisation neither legacy label is left. *)
Lemma normalize_columns_no_legacy {R} (df : Pandas.Frame R) :
  Pandas.has_column "repo_nwo" (normalize_columns df) = false
  /\ Pandas.has_column "first_claude_commit" (normalize_columns df) = false.
Proof.
  unfold normalize_columns.
  destruct (Pandas.has_column "repo_nwo" df) eqn:A.
  - destruct (Pandas.has_column "first_claude_commit" (Pandas.rename "repo_nwo" "nwo" df)) eqn:B.
    + rewrite !has_column_rename. simpl. rewrite !andb_false_r. simpl. auto.
    + split; [|exact B]. rewrite has_column_rename. simpl. now rewrite andb_false_r.
  - destruct (Pandas.has_column "first_claude_commit" df) eqn:B.
    + rewrite !has_column_rename, A. simpl. now rewrite andb_false_r.
    + auto.
Qed.

(** C6.  The column normalisation of the loaders is idempotent: a second
    pass leaves the table, and so its column names, as the first pass made
    them. *)
Theorem normalize_columns_idempotent {R} (df : Pandas.Frame R) :
  normalize_columns (normalize_columns df) = normalize_columns df.
Proof.
  destruct (normalize_columns_no_legacy df) as [A B].
  unfold normalize_columns at 1. rewrite A, B. reflexivity.
Qed.

(* ================================================================== *)
(** ** The exported structure *)

(** A structure is returned only for a loaded table with rows, and then it
    is the one of [generate_cumulative_data_nonempty]. *)
Lemma generate_cumulative_data_inv (fs : FileSystem) (agent : string)
  (out : ExportWebData.WebData) :
  ExportWebData.generate_cumulative_data fs agent = Ok out ->
  exists df,
    ExportWebData.load_and_process fs agent = Ok df
    /\ df <> []
    /\ ExportWebData.months out = map period_str (Pandas.index (monthly_table df))
    /\ ExportWebData.total_repos out = length df
    /\ Permutation (ExportWebData.industries out)
         (map industry_entry (Pandas.data (monthly_table df)))
    /\ StronglySorted (fun a b => final_value b <= final_value a)
         (ExportWebData.industries out).
Proof.
  intro H.
  destruct (ExportWebData.load_and_process fs agent) as [df|e] eqn:L.
  - exists df. split; [reflexivity|].
    destruct df as [|r t].
    + rewrite (generate_cumulative_data_empty _ _ L) in H. discriminate.
    + assert (N : r :: t <> []) by discriminate.
      destruct (generate_cumulative_data_nonempty _ _ L N) as [ind [E [P S]]].
      rewrite E in H. injection H as <-. simpl. auto.
  - unfold ExportWebData.generate_cumulative_data in H. rewrite L in H. discriminate.
Qed.

Lemma in_map_naics (df : list Joined.t) (c : string) :
  In c (map Joined.predicted_naics df) <-> records_of_industry c df <> [].
Proof.
  unfold records_of_industry. split.
  - intros H E. apply in_map_iff in H as [r [<- H]].
    assert (I : In r (filter (fun r0 => String.eqb (Joined.predicted_naics r0)
                                          (Joined.predicted_naics r)) df))
      by (apply filter_In; split; [exact H | apply String.eqb_refl]).
    rewrite E in I. exact I.
  - intro H. destruct (filter _ df) as [|r t] eqn:E; [contradiction|].
    assert (I : In r (r :: t)) by now left.
    rewrite <- E in I. apply filter_In in I as [I1 I2].
    apply String.eqb_eq in I2. subst c. now apply in_map.
Qed.

(** C7.  The columns of the month-by-industry table are exactly the industry
    codes that occur in a joined record; a code without joined records is no
    column of the table, and no entry of the exported structure carries
    it. *)
Theorem industries_without_records_absent (df : list Joined.t) (c : string) :
  (In c (Pandas.pivot_columns (PlotIndustryAdoption.aggregate_by_month_industry df))
   <-> records_of_industry c df <> [])
  /\ (forall fs agent out,
        ExportWebData.load_and_process fs agent = Ok df ->
        ExportWebData.generate_cumulative_data fs agent = Ok out ->
        (In c (map ExportWebData.code (ExportWebData.industries out))
         <-> records_of_industry c df <> [])).
Proof.
  split.
  - unfold PlotIndustryAdoption.aggregate_by_month_industry.
    fold (monthly_table df). rewrite monthly_table_sort_index.
    rewrite monthly_table_columns_In. apply in_map_naics.
  - intros fs agent out L G.
    destruct (generate_cumulative_data_inv _ _ G) as [df' [L' [N [_ [_ [P _]]]]]].
    rewrite L in L'. injection L' as <-.
    rewrite <- in_map_naics, <- monthly_table_columns_In.
    unfold Pandas.pivot_columns.
    assert (E : map fst (Pandas.data (monthly_table df))
                = map ExportWebData.code (map industry_entry (Pandas.data (monthly_table df))))
      by (rewrite map_map; reflexivity).
    rewrite E. split; apply Permutation_in, Permutation_map;
      [exact P | apply Permutation_sym, P].
Qed.

Lemma industries_without_records_absent_witness :
  exists out,
    ExportWebData.generate_cumulative_data Example.fs "claude" = Ok out
    /\ (In "62" (map ExportWebData.code (ExportWebData.industries out))
        <-> records_of_industry "62" Example.joined <> []).
Proof.
  eexists. split.
  - vm_compute. reflexivity.
  - apply (proj2 (industries_without_records_absent Example.joined "62") Example.fs "claude");
      vm_compute; reflexivity.
Defined.

Lemma sorted_adjacent {A} (R : A -> A -> Prop) (l : list A) (d : A) :
  StronglySorted R l -> forall i, S i < length l -> R (nth i l d) (nth (S i) l d).
Proof.
  induction 1 as [|x t Ht IH Hx]; intros i Hi; simpl in Hi; [lia|].
  destruct i as [|i].
  - destruct t as [|y t']; simpl in *; [lia|]. now inversion Hx.
  - change (R (nth i t d) (nth (S i) t d)). apply IH. lia.
Qed.

(** Every entry has a last cumulative value. *)
Lemma industries_final_value (fs : FileSystem) (agent : string)
  (out : ExportWebData.WebData) (e : ExportWebData.Industry) :
  ExportWebData.generate_cumulative_data fs agent = Ok out ->
  In e (ExportWebData.industries out) ->
  exists df col,
    ExportWebData.load_and_process fs agent = Ok df
    /\ df <> []
    /\ In col (Pandas.data (monthly_table df))
    /\ e = industry_entry col
    /\ item_last (ExportWebData.values e) = Ok (final_value e).
Proof.
  intros G I.
  destruct (generate_cumulative_data_inv _ _ G) as [df [L [N [_ [_ [P _]]]]]].
  apply (Permutation_in _ P) in I. apply in_map_iff in I as [col [<- Hc]].
  exists df, col. repeat split; auto.
  apply item_last_nonempty. unfold industry_entry; simpl.
  destruct (industry_entry_values df col Hc) as [_ V]. rewrite V.
  intro C. apply (f_equal (@length nat)) in C.
  rewrite cumsum_from_length, length_map in C. simpl in C.
  apply length_zero_iff_nil in C. revert C. now apply monthly_table_index_nonempty.
Qed.

(** C8.  The entries of the exported structure stand in descending order of
    their final cumulative value, the last element of ["values"]: of two
    adjacent entries the earlier has the larger or an equal one. *)
Theorem industries_sorted_descending (fs : FileSystem) (agent : string)
  (out : ExportWebData.WebData) :
  ExportWebData.generate_cumulative_data fs agent = Ok out ->
  (forall e, In e (ExportWebData.industries out) ->
             item_last (ExportWebData.values e) = Ok (final_value e))
  /\ (forall d i, S i < length (ExportWebData.industries out) ->
        final_value (nth (S i) (ExportWebData.industries out) d)
        <= final_value (nth i (ExportWebData.industries out) d)).
Proof.
  intro G. split.
  - intros e I. destruct (industries_final_value _ _ _ G I) as [? [? [_ [_ [_ [_ H]]]]]].
    exact H.
  - intros d i Hi.
    destruct (generate_cumulative_data_inv _ _ G) as [df [_ [_ [_ [_ [_ Srt]]]]]].
    exact (@sorted_adjacent _ _ _ d Srt i Hi).
Qed.

Lemma industries_sorted_descending_witness :
  exists out,
    ExportWebData.generate_cumulative_data Example.fs "claude" = Ok out
    /\ map final_value (ExportWebData.industries out) = [2; 1]
    /\ (forall d i, S i < length (ExportWebData.industries out) ->
          final_value (nth (S i) (ExportWebData.industries out) d)
          <= final_value (nth i (ExportWebData.industries out) d)).
Proof.
  eexists. split; [vm_compute; reflexivity|]. split; [reflexivity|].
  apply (industries_sorted_descending Example.fs "claude"). vm_compute. reflexivity.
Defined.





(* ================================================================== *)
(** ** The monthly adoption table *)

Lemma io_bind_ok {E A B} (m : IO E A) (f : A -> IO E B) (b : B) :
  snd (io_bind m f) = Ok b ->
  exists a, snd m = Ok a /\ snd (f a) = Ok b.
Proof.
  destruct m as [t [a|e]]; simpl; [|discriminate].
  destruct (f a) as [t' r] eqn:F. simpl. intro H. exists a. rewrite F. auto.
Qed.

(** What [generate_monthly_adoption] returns is made of the month sizes of
    the inner join of the two files. *)
Lemma generate_monthly_adoption_inv (fs : FileSystem) (agent : string)
  (t : SummaryStats.MonthlyAdoption) :
  snd (SummaryStats.generate_monthly_adoption fs agent) = Ok t ->
  exists fu pr,
    first_use_parquet fs agent = Some fu
    /\ predictions_parquet fs agent = Some pr
    /\ let monthly :=
         Pandas.groupby_month_size (Pandas.merge (Pandas.rows fu) (Pandas.rows pr)) in
       t = {| SummaryStats.month := map (fun e => period_str (fst e)) monthly;
              SummaryStats.new_repos := map snd monthly;
              SummaryStats.cumulative_repos := Pandas.cumsum_from 0 (map snd monthly) |}.
Proof.
  unfold SummaryStats.generate_monthly_adoption, SummaryStats.load_predictions,
    SummaryStats.load_first_use, read_parquet.
  destruct (predictions_parquet fs agent) as [pr|]; [|discriminate].
  destruct (first_use_parquet fs agent) as [fu|]; [|discriminate].
  unfold lift. cbn [io_bind emit app fst snd].
  intro H. exists fu, pr. split; [reflexivity|]. split; [reflexivity|].
  destruct (coerce_first_use_date (normalize_columns fu)) as [fu'|e] eqn:C;
    [|discriminate].
  apply coerce_first_use_date_inv in C as [-> _]. cbn [io_bind app fst snd] in H.
  destruct (project_predictions pr) as [pr'|e] eqn:P; [|discriminate].
  apply project_predictions_inv in P as [P _]. cbn [io_bind app fst snd] in H.
  destruct (merge_on_nwo (normalize_columns fu) pr') as [m|e] eqn:M; [|discriminate].
  apply merge_on_nwo_inv in M as [-> _]. cbn [io_bind io_ret app fst snd] in H.
  rewrite normalize_columns_rows, P in H. cbv zeta. congruence.
Qed.

Lemma groupby_month_size_total (df : list Joined.t) :
  list_sum (map snd (Pandas.groupby_month_size df)) = length df.
Proof.
  unfold Pandas.groupby_month_size. rewrite map_map. simpl.
  rewrite sum_count_occ_cover.
  - apply length_map.
  - apply sorted_unique_NoDup.
  - intros m H. now apply sorted_unique_In.
Qed.

Lemma groupby_month_size_index (df : list Joined.t) :
  map fst (Pandas.groupby_month_size df)
  = Pandas.sorted_unique Z.eq_dec Z.leb (map Joined.year_month df).
Proof. unfold Pandas.groupby_month_size. rewrite map_map. simpl. apply map_id. Qed.

(** C1, as the code has it.  With [joined] the inner join of the two files
    of an agent: in the structure [generate_cumulative_data] returns, the
    months are in ascending order, and the ["values"] array of every
    industry has one element per month, never decreases, and ends with the
    number of joined records of that industry; in the table
    [generate_monthly_adoption] returns, [cumulative_repos], which is not
    split by industry, likewise has one element per month, in ascending
    order of the months, never decreases, and (when there is a joined record
    at all) ends with the number of all joined records. *)
Theorem cumulative_series_monotone (fs : FileSystem) (agent : string)
  (fu : Pandas.Frame FirstUse.t) (pr : Pandas.Frame Prediction.t) :
  first_use_parquet fs agent = Some fu ->
  predictions_parquet fs agent = Some pr ->
  let joined := Pandas.merge (Pandas.rows fu) (Pandas.rows pr) in
  (forall out,
     ExportWebData.generate_cumulative_data fs agent = Ok out ->
     exists idx,
       StronglySorted Z.lt idx
       /\ ExportWebData.months out = map period_str idx
       /\ forall e, In e (ExportWebData.industries out) ->
            length (ExportWebData.values e) = length idx
            /\ nondecreasing (ExportWebData.values e)
            /\ item_last (ExportWebData.values e)
               = Ok (length (records_of_industry (ExportWebData.code e) joined)))
  /\ (forall t,
        snd (SummaryStats.generate_monthly_adoption fs agent) = Ok t ->
        exists idx,
          StronglySorted Z.lt idx
          /\ SummaryStats.month t = map period_str idx
          /\ length (SummaryStats.cumulative_repos t) = length idx
          /\ nondecreasing (SummaryStats.cumulative_repos t)
          /\ (joined <> [] ->
              item_last (SummaryStats.cumulative_repos t) = Ok (length joined))).
Proof.
  intros Ffu Fpr joined. split.
  - intros out G.
    destruct (generate_cumulative_data_inv _ _ G) as [df [L [N [M [_ [P _]]]]]].
    destruct (load_and_process_inv _ _ L) as [fu' [pr' [Ffu' [Fpr' D]]]].
    assert (E : df = joined) by (unfold joined; congruence).
    clear fu' pr' Ffu' Fpr' D. rewrite E in *. clear E df.
    exists (Pandas.index (monthly_table joined)).
    split; [apply monthly_table_index_ascending|]. split; [exact M|].
    intros e I.
    destruct (industries_final_value _ _ _ G I) as [df [col [L' [_ [Hc [-> F]]]]]].
    assert (E : df = joined) by congruence. rewrite E in *. clear E df.
    destruct (industry_entry_values joined col Hc) as [_ V].
    split; [|split].
    + unfold industry_entry; simpl. now rewrite cumsum_from_length, V, length_map.
    + apply cumsum_from_nondecreasing.
    + rewrite F. f_equal. now apply industry_entry_final.
  - intros t G.
    destruct (generate_monthly_adoption_inv _ _ G) as [fu' [pr' [Ffu' [Fpr' D]]]].
    assert (fu' = fu) by congruence. assert (pr' = pr) by congruence. subst fu' pr'.
    simpl in D. fold joined in D. subst t. simpl.
    exists (Pandas.sorted_unique Z.eq_dec Z.leb (map Joined.year_month joined)).
    split; [apply sorted_unique_Z_ascending|].
    rewrite <- groupby_month_size_index. split; [now rewrite map_map|].
    split; [now rewrite cumsum_from_length, !length_map|].
    split; [apply cumsum_from_nondecreasing|].
    intro N.
    assert (NE : map snd (Pandas.groupby_month_size joined) <> []).
    { intro C. pose proof (groupby_month_size_total joined) as T.
      rewrite C in T. simpl in T. destruct joined; [contradiction | discriminate]. }
    rewrite (item_last_nonempty 0).
    + rewrite cumsum_from_last by exact NE. simpl. f_equal.
      apply groupby_month_size_total.
    + intro C. apply (f_equal (@length nat)) in C. rewrite cumsum_from_length in C.
      apply length_zero_iff_nil in C. contradiction.
Qed.

Lemma cumulative_series_monotone_witness :
  (exists out,
     ExportWebData.generate_cumulative_data Example.fs "claude" = Ok out
     /\ map ExportWebData.values (ExportWebData.industries out) = [[2; 2]; [0; 1]]
     /\ exists idx,
          StronglySorted Z.lt idx
          /\ ExportWebData.months out = map period_str idx
          /\ forall e, In e (ExportWebData.industries out) ->
               length (ExportWebData.values e) = length idx
               /\ nondecreasing (ExportWebData.values e)
               /\ item_last (ExportWebData.values e)
                  = Ok (length (records_of_industry (ExportWebData.code e) Example.joined)))
  /\ (exists t,
        snd (SummaryStats.generate_monthly_adoption Example.fs "claude") = Ok t
        /\ SummaryStats.cumulative_repos t = [2; 3]
        /\ exists idx,
             StronglySorted Z.lt idx
             /\ SummaryStats.month t = map period_str idx
             /\ length (SummaryStats.cumulative_repos t) = length idx
             /\ nondecreasing (SummaryStats.cumulative_repos t)
             /\ (Example.joined <> [] ->
                 item_last (SummaryStats.cumulative_repos t) = Ok (length Example.joined))).
Proof.
  pose proof (cumulative_series_monotone Example.fs "claude"
                (fu := Example.first_use) (pr := Example.predictions)
                eq_refl eq_refl) as [H1 H2].
  split.
  - eexists. split; [vm_compute; reflexivity|]. split; [reflexivity|].
    apply H1. vm_compute. reflexivity.
  - eexists. split; [vm_compute; reflexivity|]. split; [reflexivity|].
    apply H2. vm_compute. reflexivity.
Defined.

(** C1 as stated fails for [cumulative_repos]: the table of
    [generate_monthly_adoption] has one series for all industries together.
    On the example it is 2, 3 and ends with the three joined records, while
    no industry has more than two. *)
Lemma cumulative_repos_is_not_per_industry :
  exists t,
    snd (SummaryStats.generate_monthly_adoption Example.fs "claude") = Ok t
    /\ SummaryStats.cumulative_repos t = [2; 3]
    /\ item_last (SummaryStats.cumulative_repos t) = Ok 3
    /\ forall c, length (records_of_industry c Example.joined) <= 2.
Proof.
  eexists. split; [vm_compute; reflexivity|]. split; [reflexivity|].
  split; [reflexivity|]. intro c.
  assert (J : Example.joined
              = [ Joined.mk "A" (mkTimestamp 2024 1 5 0) "54";
                  Joined.mk "B" (mkTimestamp 2024 1 20 0) "54";
                  Joined.mk "C" (mkTimestamp 2024 2 11 0) "62" ])
    by (vm_compute; reflexivity).
  rewrite J. unfold records_of_industry. cbn [filter Joined.predicted_naics].
  destruct (String.eqb_spec "54" c) as [<-|N].
  - cbn. lia.
  - destruct (String.eqb "62" c); cbn; lia.
Qed.

(* ================================================================== *)
(** ** The worked example *)

(** C4.  For the first-use rows A, B, C dated 2024-01, 2024-01, 2024-02 and
    the predictions A -> "54", B -> "54", C -> "62", the group sizes are 2
    for ("2024-01", "54") and 1 for ("2024-02", "62") and nothing else, the
    cumulative row of "2024-02" is 2 for "54" and 1 for "62", and
    [generate_cumulative_data] returns these series with [total_repos] 3; a
    first-use row for D, which has no prediction, changes nothing. *)
Theorem example_cumulative_data :
  map (fun e => (period_str (fst (fst e)), snd (fst e), snd e))
      (Pandas.groupby_size Example.joined)
  = [ ("2024-01", "54", 2); ("2024-02", "62", 1) ]
  /\ Pandas.iloc_last (Pandas.cumsum (Pandas.sort_index (monthly_table Example.joined)))
     = Ok [ ("54", 2); ("62", 1) ]
  /\ ExportWebData.generate_cumulative_data Example.fs "claude"
     = Ok {| ExportWebData.months := ["2024-01"; "2024-02"];
             ExportWebData.industries :=
               [ {| ExportWebData.code := "54";
                    ExportWebData.name := "54: Professional Services";
                    ExportWebData.color := "#2E86AB";
                    ExportWebData.values := [2; 2];
                    ExportWebData.monthly := [2; 0] |};
                 {| ExportWebData.code := "62";
                    ExportWebData.name := "62: Healthcare";
                    ExportWebData.color := "#E36397";
                    ExportWebData.values := [0; 1];
                    ExportWebData.monthly := [0; 1] |} ];
             ExportWebData.total_repos := 3 |}
  /\ ExportWebData.generate_cumulative_data Example.fs_with_D "claude"
     = ExportWebData.generate_cumulative_data Example.fs "claude".
Proof. repeat split; vm_compute; reflexivity. Qed.

(* ================================================================== *)
(** ** The driver loops *)

Section DriverFacts.
Variable E : Type.

Lemma io_bind_fst_ok {A B} (m : IO E A) (f : A -> IO E B) (a : A) :
  snd m = Ok a -> fst (io_bind m f) = fst m ++ fst (f a).
Proof.
  destruct m as [t [a'|e]]; simpl; [|discriminate].
  intro H. injection H as ->. now destruct (f a).
Qed.

Lemma io_bind_snd_ok {A B} (m : IO E A) (f : A -> IO E B) (a : A) :
  snd m = Ok a -> snd (io_bind m f) = snd (f a).
Proof.
  destruct m as [t [a'|e]]; simpl; [|discriminate].
  intro H. injection H as ->. now destruct (f a).
Qed.

Lemma io_bind_raise {A B} (m : IO E A) (f : A -> IO E B) (e : exn) :
  snd m = Raise e -> io_bind m f = (fst m, Raise e).
Proof. destruct m as [t [a|e']]; simpl; [discriminate|]. now intros [= ->]. Qed.

(** An event of a later step is an event of the run. *)
Lemma in_io_bind_r {A B} (m : IO E A) (f : A -> IO E B) (a : A) (ev : E) :
  snd m = Ok a -> In ev (fst (f a)) -> In ev (fst (io_bind m f)).
Proof. intros H I. rewrite (io_bind_fst_ok _ _ H). apply in_or_app. now right. Qed.

(** An event of the first step is an event of the run, however it ends. *)
Lemma in_io_bind_l {A B} (m : IO E A) (f : A -> IO E B) (ev : E) :
  In ev (fst m) -> In ev (fst (io_bind m f)).
Proof.
  destruct m as [t [a|e]]; simpl; [|auto].
  destruct (f a). simpl. intro. apply in_or_app. now left.
Qed.

Lemma try_except_prefix (body : IO E unit) (catches : exn -> bool)
  (handler : exn -> IO E unit) (ev : E) :
  In ev (fst body) -> In ev (fst (try_except body catches handler)).
Proof.
  destruct body as [t [a|e]]; simpl; [auto|].
  destruct (catches e); [|auto]. destruct (handler e). simpl.
  intro. apply in_or_app. now left.
Qed.

Lemma try_except_caught (body : IO E unit) (catches : exn -> bool)
  (handler : exn -> IO E unit) (e : exn) :
  snd body = Raise e -> catches e = true ->
  try_except body catches handler = (fst body ++ fst (handler e), snd (handler e)).
Proof.
  destruct body as [t [a|e']]; simpl; [discriminate|].
  intros [= ->] ->. now destruct (handler e).
Qed.

Lemma try_except_uncaught (body : IO E unit) (catches : exn -> bool)
  (handler : exn -> IO E unit) (e : exn) :
  snd body = Raise e -> catches e = false ->
  try_except body catches handler = (fst body, Raise e).
Proof.
  destruct body as [t [a|e']]; simpl; [discriminate|].
  now intros [= ->] ->.
Qed.

(** A guarded body whose failures are all caught, by a handler that only
    logs, ends well. *)
Lemma try_except_total (body : IO E unit) (catches : exn -> bool) (log : exn -> E) :
  (forall e, snd body = Raise e -> catches e = true) ->
  snd (try_except body catches (fun e => emit (log e))) = Ok tt.
Proof.
  destruct body as [t [[]|e]]; simpl; [reflexivity|].
  intro H. now rewrite (H e eq_refl).
Qed.

(** A loop whose iterations all end well runs them all. *)
Lemma for_each_total {X} (l : list X) (f : X -> IO E unit) :
  (forall x, In x l -> snd (f x) = Ok tt) ->
  for_each l f = (concat (map (fun x => fst (f x)) l), Ok tt).
Proof.
  induction l as [|x t IH]; intro H; [reflexivity|].
  simpl. specialize (IH (fun y Hy => H y (or_intror Hy))).
  pose proof (H x (or_introl eq_refl)) as Hx.
  destruct (f x) as [tx [[]|e]]; simpl in *; [|discriminate].
  now rewrite IH.
Qed.

Lemma for_each_event {X} (l : list X) (f : X -> IO E unit) (x : X) (ev : E) :
  (forall y, In y l -> snd (f y) = Ok tt) ->
  In x l -> In ev (fst (f x)) -> In ev (fst (for_each l f)).
Proof.
  intros H Hx Hev. rewrite (for_each_total _ _ H). simpl.
  apply in_concat. exists (fst (f x)). split; [|exact Hev].
  apply in_map_iff. exists x. auto.
Qed.

(** A loop stops at the first iteration that raises: the iterations after
    it are not run. *)
Lemma for_each_stops {X} (pre : list X) (x : X) (post : list X) (f : X -> IO E unit)
  (e : exn) :
  (forall y, In y pre -> snd (f y) = Ok tt) ->
  snd (f x) = Raise e ->
  for_each (pre ++ x :: post) f
  = (concat (map (fun y => fst (f y)) pre) ++ fst (f x), Raise e).
Proof.
  induction pre as [|y t IH]; intros H Hx.
  - simpl. now rewrite (io_bind_raise _ _ Hx).
  - simpl. specialize (IH (fun z Hz => H z (or_intror Hz)) Hx).
    pose proof (H y (or_introl eq_refl)) as Hy.
    destruct (f y) as [ty [[]|e']]; simpl in *; [|discriminate].
    rewrite IH. now rewrite app_assoc.
Qed.

(** What holds of the events of every step holds of the events of the
    run. *)
Lemma io_bind_all {A B} (P : E -> Prop) (m : IO E A) (f : A -> IO E B) :
  Forall P (fst m) -> (forall a, Forall P (fst (f a))) -> Forall P (fst (io_bind m f)).
Proof.
  destruct m as [t [a|e]]; simpl; intros H K; [|exact H].
  specialize (K a). destruct (f a). simpl in *. apply Forall_app. auto.
Qed.

Lemma for_each_all {X} (P : E -> Prop) (l : list X) (f : X -> IO E unit) :
  (forall x, Forall P (fst (f x))) -> Forall P (fst (for_each l f)).
Proof.
  induction l as [|x t IH]; simpl; intro H; [constructor|].
  apply io_bind_all; auto.
Qed.

Lemma try_except_all (P : E -> Prop) (body : IO E unit) (catches : exn -> bool)
  (handler : exn -> IO E unit) :
  Forall P (fst body) -> (forall e, Forall P (fst (handler e))) ->
  Forall P (fst (try_except body catches handler)).
Proof.
  destruct body as [t [a|e]]; simpl; intros H K; [exact H|].
  destruct (catches e); [|exact H].
  specialize (K e). destruct (handler e). simpl in *. apply Forall_app. auto.
Qed.
End DriverFacts.

Lemma NoDup_app_disjoint {A} (l l' : list A) (x : A) :
  NoDup (l ++ l') -> In x l -> ~ In x l'.
Proof.
  induction l as [|y t IH]; simpl; intros N I; [contradiction|].
  inversion N as [|? ? Ny Nt]; subst. destruct I as [->|I]; [|auto].
  intro H. apply Ny, in_or_app. now right.
Qed.

(** *** export_web_data.main *)

Lemma export_agent_started (fs : FileSystem) (agent_key agent_name : string) :
  In (ExportWebData.Print (ExportWebData.Processing agent_name))
     (fst (ExportWebData.export_agent fs agent_key agent_name)).
Proof.
  unfold ExportWebData.export_agent.
  eapply in_io_bind_r; [reflexivity|]. apply in_io_bind_l. now left.
Qed.

Lemma export_agent_raises (fs : FileSystem) (agent_key agent_name : string) (e : exn) :
  ExportWebData.generate_cumulative_data fs agent_key = Raise e ->
  snd (ExportWebData.export_agent fs agent_key agent_name) = Raise e.
Proof.
  intro H. unfold ExportWebData.export_agent. rewrite H. reflexivity.
Qed.

Lemma export_agent_dumps (fs : FileSystem) (agent_key agent_name : string)
  (out : ExportWebData.WebData) :
  ExportWebData.generate_cumulative_data fs agent_key = Ok out ->
  In (ExportWebData.JsonDump (ExportWebData.output_path agent_key) out)
     (fst (ExportWebData.export_agent fs agent_key agent_name)).
Proof.
  intro H. unfold ExportWebData.export_agent. rewrite H.
  do 4 (eapply in_io_bind_r; [reflexivity|]). apply in_io_bind_l. now left.
Qed.

Lemma export_main_loop_total (fs : FileSystem) (a : string * string) :
  snd (try_except (ExportWebData.export_agent fs (fst a) (snd a)) (fun _ => true)
         (fun e => emit (ExportWebData.Print (ExportWebData.ErrorProcessing (snd a) e))))
  = Ok tt.
Proof. now apply try_except_total. Qed.

(** *** generate_summary_stats.main, monthly adoption *)

Lemma summary_main_loop_total (fs : FileSystem) (body : IO SummaryStats.event unit)
  (agent : string) :
  snd (try_except body (fun _ => true)
         (fun e => emit (SummaryStats.Warning (SummaryStats.ErrorMonthlyAdoption agent e))))
  = Ok tt.
Proof. now apply try_except_total. Qed.

(** *** plot_industry_adoption.main *)

Lemma process_agent_started (tie : Pandas.TieOrder string) (fs : FileSystem) (agent_name agent_key : string) :
  In (PlotIndustryAdoption.Info (PlotIndustryAdoption.ProcessingAgent agent_name))
     (fst (PlotIndustryAdoption.process_agent tie fs agent_name agent_key)).
Proof.
  unfold PlotIndustryAdoption.process_agent.
  eapply in_io_bind_r; [reflexivity|]. apply in_io_bind_l. now left.
Qed.

(** A first-use file that is not there ends the processing of the agent with
    [FileNotFoundError]. *)
Lemma process_agent_missing_first_use (tie : Pandas.TieOrder string) (fs : FileSystem) (agent_name agent_key : string) :
  first_use_parquet fs agent_key = None ->
  snd (PlotIndustryAdoption.process_agent tie fs agent_name agent_key)
  = Raise (FileNotFoundError (first_use_path agent_key)).
Proof.
  intro H. unfold PlotIndustryAdoption.process_agent, PlotIndustryAdoption.load_first_use.
  rewrite H. reflexivity.
Qed.

(** So does a predictions file that is not there, once the first-use table
    is loaded. *)
Lemma process_agent_missing_predictions (tie : Pandas.TieOrder string) (fs : FileSystem) (agent_name agent_key : string)
  (df : Pandas.Frame FirstUse.t) :
  snd (PlotIndustryAdoption.load_first_use fs agent_key) = Ok df ->
  predictions_parquet fs agent_key = None ->
  snd (PlotIndustryAdoption.process_agent tie fs agent_name agent_key)
  = Raise (FileNotFoundError (predictions_path agent_key)).
Proof.
  intros H1 H3. unfold PlotIndustryAdoption.process_agent.
  do 3 (rewrite (io_bind_snd_ok _ _ (a := tt)) by reflexivity).
  rewrite (io_bind_snd_ok _ _ H1).
  assert (M : snd (PlotIndustryAdoption.merge_with_predictions fs df agent_key)
              = Raise (FileNotFoundError (predictions_path agent_key))).
  { unfold PlotIndustryAdoption.merge_with_predictions. rewrite H3. reflexivity. }
  now rewrite (io_bind_raise _ _ M).
Qed.

(** The lines of the log of an agent: the agent it announces is the one
    that is processed, and the closing line of the run is not among them. *)
Lemma process_agent_events (tie : Pandas.TieOrder string) (fs : FileSystem) (agent_name agent_key : string) :
  Forall (fun ev =>
            match ev with
            | PlotIndustryAdoption.Info (PlotIndustryAdoption.ProcessingAgent n) =>
                n = agent_name
            | PlotIndustryAdoption.Info PlotIndustryAdoption.Done => False
            | _ => True
            end)
    (fst (PlotIndustryAdoption.process_agent tie fs agent_name agent_key)).
Proof.
  unfold PlotIndustryAdoption.process_agent, PlotIndustryAdoption.load_first_use,
    PlotIndustryAdoption.merge_with_predictions, PlotIndustryAdoption.plot_stacked_area.
  repeat (cbv zeta; first [apply io_bind_all | apply for_each_all | intro]);
    unfold emit, lift, io_ret; cbn [fst]; repeat constructor.
Qed.

(** A processed agent has its chart saved. *)
Lemma process_agent_saves (tie : Pandas.TieOrder string) (fs : FileSystem) (agent_name agent_key : string)
  (merged : list Joined.t) :
  snd (PlotIndustryAdoption.process_agent tie fs agent_name agent_key) = Ok merged ->
  exists chart,
    In (PlotIndustryAdoption.SaveFig
          ("figures/industry_adoption_" ++ agent_key ++ ".png")%string chart)
       (fst (PlotIndustryAdoption.process_agent tie fs agent_name agent_key)).
Proof.
  unfold PlotIndustryAdoption.process_agent. intro H.
  repeat (apply io_bind_ok in H as [?a [?Ha H]]).
  unfold PlotIndustryAdoption.plot_stacked_area in Ha8.
  apply io_bind_ok in Ha8 as [pd [Hpd Ha8]].
  apply io_bind_ok in Ha8 as [chart [Hchart Ha8]].
  exists chart.
  do 9 (eapply in_io_bind_r; [eassumption|]).
  apply in_io_bind_l. unfold PlotIndustryAdoption.plot_stacked_area.
  do 2 (eapply in_io_bind_r; [eassumption|]).
  apply in_io_bind_l. now left.
Qed.

(** C5, as the drivers have it.  The loops of [export_web_data.main] and of
    the monthly adoption in [generate_summary_stats.main] catch every
    exception: whatever fails for an agent (a missing input file and an
    empty merge included) is logged, every agent is processed, and the run
    ends well.  The loop of [plot_industry_adoption.main] catches
    [FileNotFoundError] only: a missing first-use file, and a missing
    predictions file once the first-use table is loaded, end the agent with
    that exception; another exception, of whichever agent is the first to
    raise one, ends the run with it: the agents after that one are not
    processed and the closing line is not logged; and when no agent fails in
    another way every agent is processed, each failure is logged, every
    other agent has its chart saved, and the run ends well. *)
Theorem driver_failure_isolation (tie : Pandas.TieOrder string) (fs : FileSystem) :
  (snd (ExportWebData.main fs) = Ok tt
   /\ forall a, In a ExportWebData.agents ->
        In (ExportWebData.Print (ExportWebData.Processing (snd a)))
           (fst (ExportWebData.main fs))
        /\ (forall e, ExportWebData.generate_cumulative_data fs (fst a) = Raise e ->
              In (ExportWebData.Print (ExportWebData.ErrorProcessing (snd a) e))
                 (fst (ExportWebData.main fs)))
        /\ (forall out, ExportWebData.generate_cumulative_data fs (fst a) = Ok out ->
              In (ExportWebData.JsonDump (ExportWebData.output_path (fst a)) out)
                 (fst (ExportWebData.main fs))))
  /\ (snd (SummaryStats.main_monthly_adoption fs) = Ok tt
      /\ forall agent, In agent SummaryStats.agents ->
           forall e, snd (SummaryStats.generate_monthly_adoption fs agent) = Raise e ->
             In (SummaryStats.Warning (SummaryStats.ErrorMonthlyAdoption agent e))
                (fst (SummaryStats.main_monthly_adoption fs)))
  /\ (forall a, In a PlotIndustryAdoption.agents ->
        first_use_parquet fs (snd a) = None ->
        snd (PlotIndustryAdoption.process_agent tie fs (fst a) (snd a))
        = Raise (FileNotFoundError (first_use_path (snd a))))
  /\ (forall a df, In a PlotIndustryAdoption.agents ->
        snd (PlotIndustryAdoption.load_first_use fs (snd a)) = Ok df ->
        predictions_parquet fs (snd a) = None ->
        snd (PlotIndustryAdoption.process_agent tie fs (fst a) (snd a))
        = Raise (FileNotFoundError (predictions_path (snd a))))
  /\ (forall pre a post e,
        PlotIndustryAdoption.agents = pre ++ a :: post ->
        (forall b e', In b pre ->
           snd (PlotIndustryAdoption.process_agent tie fs (fst b) (snd b)) = Raise e' ->
           is_FileNotFoundError e' = true) ->
        snd (PlotIndustryAdoption.process_agent tie fs (fst a) (snd a)) = Raise e ->
        is_FileNotFoundError e = false ->
        snd (PlotIndustryAdoption.main tie fs) = Raise e
        /\ (forall b, In b post ->
              ~ In (PlotIndustryAdoption.Info (PlotIndustryAdoption.ProcessingAgent (fst b)))
                   (fst (PlotIndustryAdoption.main tie fs)))
        /\ ~ In (PlotIndustryAdoption.Info PlotIndustryAdoption.Done)
                (fst (PlotIndustryAdoption.main tie fs)))
  /\ ((forall a e, In a PlotIndustryAdoption.agents ->
         snd (PlotIndustryAdoption.process_agent tie fs (fst a) (snd a)) = Raise e ->
         is_FileNotFoundError e = true) ->
      snd (PlotIndustryAdoption.main tie fs) = Ok tt
      /\ forall a, In a PlotIndustryAdoption.agents ->
           In (PlotIndustryAdoption.Info (PlotIndustryAdoption.ProcessingAgent (fst a)))
              (fst (PlotIndustryAdoption.main tie fs))
           /\ (forall e,
                 snd (PlotIndustryAdoption.process_agent tie fs (fst a) (snd a)) = Raise e ->
                 In (PlotIndustryAdoption.Warning (PlotIndustryAdoption.DataNotFound (fst a) e))
                    (fst (PlotIndustryAdoption.main tie fs)))
           /\ (forall merged,
                 snd (PlotIndustryAdoption.process_agent tie fs (fst a) (snd a)) = Ok merged ->
                 exists chart,
                   In (PlotIndustryAdoption.SaveFig
                         ("figures/industry_adoption_" ++ snd a ++ ".png")%string chart)
                      (fst (PlotIndustryAdoption.main tie fs)))).
Proof.
  split; [|split; [|split; [|split; [|split]]]].
  - (* export_web_data *)
    pose proof (for_each_total ExportWebData.agents _
                  (fun a _ => export_main_loop_total fs a)) as L.
    unfold ExportWebData.main. split.
    + rewrite (io_bind_snd_ok _ _ (f_equal snd L)). reflexivity.
    + intros a Ha.
      assert (I : forall ev,
                 In ev (fst (try_except (ExportWebData.export_agent fs (fst a) (snd a))
                               (fun _ => true)
                               (fun e => emit (ExportWebData.Print
                                                 (ExportWebData.ErrorProcessing (snd a) e))))) ->
                 In ev (fst (io_bind (for_each ExportWebData.agents
                    (fun a => try_except (ExportWebData.export_agent fs (fst a) (snd a))
                                (fun _ => true)
                                (fun e => emit (ExportWebData.Print
                                                  (ExportWebData.ErrorProcessing (snd a) e)))))
                    (fun _ => (emit (ExportWebData.Print ExportWebData.Rule) ;;;
                               emit (ExportWebData.Print ExportWebData.AllExported) ;;;
                               emit (ExportWebData.Print ExportWebData.Rule))%io)))).
      { intros ev Hev. apply in_io_bind_l.
        eapply for_each_event; [|exact Ha|exact Hev].
        intros y _. apply export_main_loop_total. }
      split; [|split].
      * apply I, try_except_prefix, export_agent_started.
      * intros e G. apply I.
        erewrite try_except_caught;
          [simpl; apply in_or_app; right; now left
          | now apply export_agent_raises | reflexivity].
      * intros out G. apply I, try_except_prefix. now apply export_agent_dumps.
  - (* generate_summary_stats, monthly adoption *)
    assert (T : forall agent, In agent SummaryStats.agents ->
                snd ((fun agent =>
                  try_except
                    (emit (SummaryStats.Info SummaryStats.Rule) ;;;
                     display <- lift (dict_item SummaryStats.display_names agent) ;;
                     emit (SummaryStats.Info (SummaryStats.MonthlyAdoptionTitle display)) ;;;
                     emit (SummaryStats.Info SummaryStats.Rule) ;;;
                     monthly <- SummaryStats.generate_monthly_adoption fs agent ;;
                     emit (SummaryStats.PrintTable (SummaryStats.tail12 monthly)) ;;;
                     emit (SummaryStats.ToCsv
                             ("output/monthly_adoption_" ++ agent ++ ".csv")%string monthly))%io
                    (fun _ => true)
                    (fun e => emit (SummaryStats.Warning
                                      (SummaryStats.ErrorMonthlyAdoption agent e)))) agent)
                = Ok tt).
    { intros agent _. apply summary_main_loop_total. exact fs. }
    unfold SummaryStats.main_monthly_adoption. split.
    + rewrite (for_each_total _ _ T). reflexivity.
    + intros agent Ha e G.
      eapply for_each_event; [exact T | exact Ha |].
      assert (D : exists display, dict_item SummaryStats.display_names agent = Ok display).
      { simpl in Ha. destruct Ha as [<-|[<-|[<-|[]]]]; eexists; reflexivity. }
      destruct D as [display D].
      erewrite try_except_caught; [simpl; apply in_or_app; right; now left | | reflexivity].
      rewrite (io_bind_snd_ok _ _ (a := tt)) by reflexivity.
      rewrite (io_bind_snd_ok _ _ (a := display)) by (rewrite D; reflexivity).
      do 2 (rewrite (io_bind_snd_ok _ _ (a := tt)) by reflexivity).
      now rewrite (io_bind_raise _ _ G).
  - (* plot_industry_adoption: a missing first-use file *)
    intros a _ H. now apply process_agent_missing_first_use.
  - (* plot_industry_adoption: a missing predictions file *)
    intros a df _ H1 H3. now apply process_agent_missing_predictions with df.
  - (* plot_industry_adoption: another exception, of whichever agent *)
    intros pre a post e Split Pre G NF.
    set (body := fun a : string * string =>
           try_except
             (_ <- PlotIndustryAdoption.process_agent tie fs (fst a) (snd a) ;; io_ret tt)%io
             is_FileNotFoundError
             (fun e => emit (PlotIndustryAdoption.Warning
                               (PlotIndustryAdoption.DataNotFound (fst a) e)))).
    assert (Ba : body a = (fst (PlotIndustryAdoption.process_agent tie fs (fst a) (snd a)),
                           Raise e)).
    { unfold body. rewrite (io_bind_raise _ _ G). cbn [try_except]. now rewrite NF. }
    assert (Bpre : forall b, In b pre -> snd (body b) = Ok tt).
    { intros b Hb. unfold body. apply try_except_total. intros e' He'.
      apply (Pre b e' Hb).
      destruct (PlotIndustryAdoption.process_agent tie fs (fst b) (snd b)) as [t [m|e'']];
        simpl in *; congruence. }
    assert (L : for_each (pre ++ a :: post) body
                = (concat (map (fun y => fst (body y)) pre) ++ fst (body a), Raise e))
      by (apply for_each_stops; [exact Bpre | now rewrite Ba]).
    assert (M : PlotIndustryAdoption.main tie fs
                = (PlotIndustryAdoption.Info PlotIndustryAdoption.Starting
                   :: concat (map (fun y => fst (body y)) pre) ++ fst (body a), Raise e)).
    { unfold PlotIndustryAdoption.main. rewrite Split. fold body. rewrite L.
      reflexivity. }
    assert (Ev : forall c,
               Forall (fun ev =>
                         match ev with
                         | PlotIndustryAdoption.Info (PlotIndustryAdoption.ProcessingAgent n) =>
                             n = fst c
                         | PlotIndustryAdoption.Info PlotIndustryAdoption.Done => False
                         | _ => True
                         end) (fst (body c))).
    { intro c. unfold body. apply try_except_all.
      - apply io_bind_all; [apply process_agent_events | intro; constructor].
      - intro e'. repeat constructor. }
    assert (Names : NoDup (map fst (pre ++ [a]) ++ map fst post)).
    { rewrite <- map_app, <- app_assoc. cbn [app]. rewrite <- Split.
      repeat constructor; simpl; intuition discriminate. }
    assert (Where : forall ev,
               In ev (fst (PlotIndustryAdoption.main tie fs)) ->
               ev = PlotIndustryAdoption.Info PlotIndustryAdoption.Starting
               \/ exists c, In c (pre ++ [a]) /\ In ev (fst (body c))).
    { intros ev H. rewrite M in H. cbn [fst] in H. destruct H as [<-|H]; [now left|].
      right. apply in_app_or in H as [H|H].
      - apply in_concat in H as [t [Ht H]]. apply in_map_iff in Ht as [c [<- Hc]].
        exists c. split; [apply in_or_app; now left | exact H].
      - exists a. split; [apply in_or_app; right; now left | exact H]. }
    split; [now rewrite M|]. split.
    + intros b Hb H. apply Where in H as [H|[c [Hc H]]]; [discriminate|].
      pose proof (Ev c) as F. rewrite Forall_forall in F. specialize (F _ H).
      cbn in F. apply (NoDup_app_disjoint _ _ (fst b) Names).
      * rewrite F. now apply in_map.
      * now apply in_map.
    + intro H. apply Where in H as [H|[c [Hc H]]]; [discriminate|].
      pose proof (Ev c) as F. rewrite Forall_forall in F. exact (F _ H).
  - (* plot_industry_adoption: the loop *)
    intro H.
    assert (T : forall a, In a PlotIndustryAdoption.agents ->
                snd ((fun a =>
                  try_except
                    (_ <- PlotIndustryAdoption.process_agent tie fs (fst a) (snd a) ;; io_ret tt)%io
                    is_FileNotFoundError
                    (fun e => emit (PlotIndustryAdoption.Warning
                                      (PlotIndustryAdoption.DataNotFound (fst a) e)))) a)
                = Ok tt).
    { intros a Ha. apply try_except_total. intros e He.
      apply (H a e Ha).
      destruct (PlotIndustryAdoption.process_agent tie fs (fst a) (snd a)) as [t [m|e']];
        simpl in *; congruence. }
    unfold PlotIndustryAdoption.main. split.
    + rewrite (io_bind_snd_ok _ _ (a := tt)) by reflexivity.
      rewrite (io_bind_snd_ok _ _ (f_equal snd (for_each_total _ _ T))). reflexivity.
    + intros a Ha.
      assert (I : forall ev,
                 In ev (fst (try_except
                    (_ <- PlotIndustryAdoption.process_agent tie fs (fst a) (snd a) ;; io_ret tt)%io
                    is_FileNotFoundError
                    (fun e => emit (PlotIndustryAdoption.Warning
                                      (PlotIndustryAdoption.DataNotFound (fst a) e))))) ->
                 In ev (fst (PlotIndustryAdoption.main tie fs))).
      { intros ev Hev. unfold PlotIndustryAdoption.main.
        eapply in_io_bind_r; [reflexivity|]. apply in_io_bind_l.
        eapply for_each_event; [exact T | exact Ha | exact Hev]. }
      split; [|split].
      * apply I, try_except_prefix, in_io_bind_l, process_agent_started.
      * intros e G. apply I.
        erewrite try_except_caught;
          [simpl; apply in_or_app; right; now left | | exact (H a e Ha G)].
        now rewrite (io_bind_raise _ _ G).
      * intros merged G. destruct (process_agent_saves _ _ _ _ G) as [chart C].
        exists chart. apply I, try_except_prefix, in_io_bind_l, C.
Qed.

Lemma driver_failure_isolation_witness :
  (snd (PlotIndustryAdoption.main Pandas.stable_order Example.fs_claude_missing) = Ok tt
   /\ forall a, In a PlotIndustryAdoption.agents ->
        In (PlotIndustryAdoption.Info (PlotIndustryAdoption.ProcessingAgent (fst a)))
           (fst (PlotIndustryAdoption.main Pandas.stable_order Example.fs_claude_missing))
        /\ (forall e,
              snd (PlotIndustryAdoption.process_agent Pandas.stable_order Example.fs_claude_missing (fst a) (snd a))
              = Raise e ->
              In (PlotIndustryAdoption.Warning (PlotIndustryAdoption.DataNotFound (fst a) e))
                 (fst (PlotIndustryAdoption.main Pandas.stable_order Example.fs_claude_missing)))
        /\ (forall merged,
              snd (PlotIndustryAdoption.process_agent Pandas.stable_order Example.fs_claude_missing (fst a) (snd a))
              = Ok merged ->
              exists chart,
                In (PlotIndustryAdoption.SaveFig
                      ("figures/industry_adoption_" ++ snd a ++ ".png")%string chart)
                   (fst (PlotIndustryAdoption.main Pandas.stable_order Example.fs_claude_missing))))
  /\ (snd (PlotIndustryAdoption.main Pandas.stable_order Example.fs_copilot_empty_merge) = Raise TypeError
      /\ (forall b, In b [("OpenAI Codex", "codex")] ->
            ~ In (PlotIndustryAdoption.Info (PlotIndustryAdoption.ProcessingAgent (fst b)))
                 (fst (PlotIndustryAdoption.main Pandas.stable_order Example.fs_copilot_empty_merge)))
      /\ ~ In (PlotIndustryAdoption.Info PlotIndustryAdoption.Done)
              (fst (PlotIndustryAdoption.main Pandas.stable_order Example.fs_copilot_empty_merge))).
Proof.
  split.
  - apply (driver_failure_isolation Pandas.stable_order Example.fs_claude_missing).
    intros a e [<-|[<-|[<-|[]]]]; vm_compute; intro H; inversion H; reflexivity.
  - apply (proj1 (proj2 (proj2 (proj2 (proj2
             (driver_failure_isolation Pandas.stable_order Example.fs_copilot_empty_merge)))))
             [("Claude Code", "claude")] ("GitHub Copilot", "copilot")
             [("OpenAI Codex", "codex")] TypeError).
    + reflexivity.
    + intros b e' [<-|[]]. vm_compute. discriminate.
    + vm_compute. reflexivity.
    + reflexivity.
Defined.

(** C5 as stated fails for [plot_industry_adoption.main]: with files for every
    agent and an empty merge for the first one, the [TypeError] of plotting a
    table without columns is not caught, the run ends with it, and the agents
    after it are not processed although their data are fine.  The same
    happens with the [KeyError] of a first-use table that has no
    [first_use_date] column under any known label. *)
Lemma plot_main_aborts_on_empty_merge :
  Pandas.merge (Pandas.rows Example.first_use) (Pandas.rows Example.predictions_elsewhere) = []
  /\ snd (PlotIndustryAdoption.main Pandas.stable_order Example.fs_unknown_labels)
     = Raise (KeyError "first_use_date")
  /\ ~ In (PlotIndustryAdoption.Info (PlotIndustryAdoption.ProcessingAgent "GitHub Copilot"))
          (fst (PlotIndustryAdoption.main Pandas.stable_order Example.fs_unknown_labels))
  /\ snd (PlotIndustryAdoption.process_agent Pandas.stable_order Example.fs_empty_merge "Claude Code" "claude")
     = Raise TypeError
  /\ snd (PlotIndustryAdoption.main Pandas.stable_order Example.fs_empty_merge) = Raise TypeError
  /\ ~ In (PlotIndustryAdoption.Info (PlotIndustryAdoption.ProcessingAgent "GitHub Copilot"))
          (fst (PlotIndustryAdoption.main Pandas.stable_order Example.fs_empty_merge))
  /\ ~ In (PlotIndustryAdoption.Info (PlotIndustryAdoption.ProcessingAgent "OpenAI Codex"))
          (fst (PlotIndustryAdoption.main Pandas.stable_order Example.fs_empty_merge))
  /\ snd (PlotIndustryAdoption.process_agent Pandas.stable_order Example.fs_empty_merge "GitHub Copilot" "copilot")
     = Ok Example.joined
  /\ snd (PlotIndustryAdoption.process_agent Pandas.stable_order Example.fs_empty_merge "OpenAI Codex" "codex")
     = Ok Example.joined.
Proof.
  repeat split; try (vm_compute; reflexivity);
    vm_compute; intuition discriminate.
Qed.

(* ================================================================== *)
(** ** The chart data of [plot_stacked_area] *)

Lemma column_some (p : Pandas.Pivot) (c : string) :
  In c (Pandas.pivot_columns p) -> Pandas.column p c = Ok (column_values p c).
Proof.
  unfold column_values, Pandas.column, Pandas.pivot_columns. intro H.
  destruct (find (fun e => String.eqb (fst e) c) (Pandas.data p)) eqn:F; [reflexivity|].
  exfalso. apply in_map_iff in H as [e [<- He]].
  pose proof (find_none _ _ F e He) as N. simpl in N.
  now rewrite String.eqb_refl in N.
Qed.

Lemma column_values_In (p : Pandas.Pivot) (c : string) (v : list nat) :
  NoDup (Pandas.pivot_columns p) -> In (c, v) (Pandas.data p) -> column_values p c = v.
Proof. intros N H. unfold column_values. now rewrite (@column_In p c v N H). Qed.

(** A table with distinct labels is its columns, label by label. *)
Lemma data_as_columns (p : Pandas.Pivot) :
  NoDup (Pandas.pivot_columns p) ->
  Pandas.data p = map (fun c => (c, column_values p c)) (Pandas.pivot_columns p).
Proof.
  intro N. unfold Pandas.pivot_columns. rewrite map_map.
  rewrite <- (map_id (Pandas.data p)) at 1. apply map_ext_in.
  intros [c v] H. simpl. now rewrite (@column_values_In p c v N H).
Qed.

Lemma select_ok (p : Pandas.Pivot) (labels : list string) :
  incl labels (Pandas.pivot_columns p) ->
  Pandas.select p labels
  = Ok {| Pandas.index := Pandas.index p;
          Pandas.data := map (fun c => (c, column_values p c)) labels |}.
Proof.
  intro H. unfold Pandas.select.
  pose proof (mapM_map (fun c => (v <- Pandas.column p c ;; Ok (c, v))%res)
                (fun c => c) (fun c => (c, column_values p c)) labels) as M.
  rewrite map_id in M. rewrite M; [reflexivity|].
  intros c Hc. now rewrite (column_some p c (H c Hc)).
Qed.

Lemma add_rows_nth (a b : list nat) :
  length a = length b ->
  length (Pandas.add_rows a b) = length b
  /\ forall i, nth i (Pandas.add_rows a b) 0 = nth i a 0 + nth i b 0.
Proof.
  revert b; induction a as [|x a IH]; intros [|y b] H; simpl in *; try discriminate.
  - split; [reflexivity|]. now intros [|i].
  - destruct (IH b) as [L N]; [lia|]. split; [now rewrite L|].
    intros [|i]; [reflexivity | apply N].
Qed.

Lemma nth_repeat_zero (n i : nat) : nth i (repeat 0 n) 0 = 0.
Proof. revert i; induction n as [|n IH]; intros [|i]; simpl; auto. Qed.

(** The row totals of a rectangular table, row by row. *)
Lemma row_totals_nth (p : Pandas.Pivot) :
  Forall (fun e => length (snd e) = length (Pandas.index p)) (Pandas.data p) ->
  length (Pandas.row_totals p) = length (Pandas.index p)
  /\ forall i, nth i (Pandas.row_totals p) 0 = month_total p i.
Proof.
  unfold Pandas.row_totals, month_total.
  induction 1 as [|e t He Ht IH]; simpl.
  - split; [apply repeat_length | intro; apply nth_repeat_zero].
  - destruct IH as [L N].
    destruct (@add_rows_nth (snd e)
                (fold_right (fun e acc => Pandas.add_rows (snd e) acc)
                   (repeat 0 (length (Pandas.index p))) t)) as [L' N'].
    { now rewrite L. }
    split; [now rewrite L'|]. intro i. now rewrite N', N.
Qed.

Lemma set_column_in_new (label : string) (values : list nat) (d : list (string * list nat)) :
  ~ In label (map fst d) -> Pandas.set_column_in label values d = d ++ [(label, values)].
Proof.
  induction d as [|e t IH]; simpl; intro H; [reflexivity|].
  destruct (String.eqb_spec (fst e) label) as [E|E]; [tauto|].
  rewrite IH; tauto.
Qed.

Lemma month_total_columns (q : Pandas.Pivot) (idx : list Period) (labels : list string) (i : nat) :
  month_total {| Pandas.index := idx;
                 Pandas.data := map (fun c => (c, column_values q c)) labels |} i
  = list_sum (map (fun c => cell q c i) labels).
Proof. unfold month_total; simpl. now rewrite map_map. Qed.

Lemma month_total_as_cells (p : Pandas.Pivot) (i : nat) :
  NoDup (Pandas.pivot_columns p) ->
  month_total p i = list_sum (map (fun c => cell p c i) (Pandas.pivot_columns p)).
Proof.
  intro N. unfold month_total. rewrite (data_as_columns p N) at 1.
  now rewrite map_map.
Qed.


Lemma other_industries_In (p : Pandas.Pivot) (top : list string) (c : string) :
  In c (other_industries p top) <-> In c (Pandas.pivot_columns p) /\ ~ In c top.
Proof.
  unfold other_industries. rewrite filter_In, negb_true_iff.
  split; intros [H1 H2]; split; auto.
  - intro I. assert (E : existsb (String.eqb c) top = true).
    { apply existsb_exists. exists c. split; [exact I | apply String.eqb_refl]. }
    congruence.
  - destruct (existsb (String.eqb c) top) eqn:E; [|reflexivity].
    apply existsb_exists in E as [x [Hx E]]. apply String.eqb_eq in E. subst. contradiction.
Qed.

(** The kept columns and the others are the columns of the table. *)
Lemma top_and_others_perm (p : Pandas.Pivot) (top : list string) :
  NoDup (Pandas.pivot_columns p) -> NoDup top -> incl top (Pandas.pivot_columns p) ->
  Permutation (top ++ other_industries p top) (Pandas.pivot_columns p).
Proof.
  intros N Nt I. apply NoDup_Permutation; [|exact N|].
  - apply NoDup_app; [exact Nt | now apply NoDup_filter |].
    intros c H1 H2. apply other_industries_In in H2. tauto.
  - intro c. rewrite in_app_iff, other_industries_In. split.
    + intros [H|[H _]]; auto.
    + intro H. destruct (in_dec string_dec c top); auto.
Qed.

Lemma column_totals_labels (p : Pandas.Pivot) :
  map fst (Pandas.column_totals p) = Pandas.pivot_columns p.
Proof. unfold Pandas.column_totals, Pandas.pivot_columns. now rewrite map_map. Qed.

Lemma column_totals_In (p : Pandas.Pivot) (c : string) (t : nat) :
  NoDup (Pandas.pivot_columns p) ->
  In (c, t) (Pandas.column_totals p) -> t = column_total p c.
Proof.
  intros N H. apply in_map_iff in H as [[c' v] [E H]]. simpl in E.
  injection E as -> <-. unfold column_total.
  now rewrite (@column_values_In p c v N H).
Qed.

Lemma sort_values_desc_perm {K} (tie : Pandas.TieOrder K) (s : Pandas.Series K) :
  Permutation (Pandas.sort_values_desc tie s) s.
Proof. apply sort_by_perm. Qed.

(** Whatever the order of equal values, the values come out descending. *)
Lemma sort_values_desc_sorted {K} (tie : Pandas.TieOrder K) (s : Pandas.Series K) :
  StronglySorted (fun a b => snd b <= snd a) (Pandas.sort_values_desc tie s).
Proof.
  assert (S : StronglySorted (before (Pandas.desc_leb (tie s)))
                (Pandas.sort_values_desc tie s)).
  { apply sort_by_sorted; unfold before, Pandas.desc_leb; intros.
    - destruct (Nat.eqb_spec (snd x) (snd y)) as [E|E].
      + rewrite E, Nat.eqb_refl.
        destruct (Nat.leb_spec (tie s x) (tie s y)), (Nat.leb_spec (tie s y) (tie s x));
          auto; lia.
      + destruct (Nat.eqb_spec (snd y) (snd x)); [congruence|].
        destruct (Nat.ltb_spec (snd y) (snd x)), (Nat.ltb_spec (snd x) (snd y));
          auto; lia.
    - destruct (Nat.eqb_spec (snd x) (snd y)) as [E1|E1],
               (Nat.eqb_spec (snd y) (snd z)) as [E2|E2],
               (Nat.eqb_spec (snd x) (snd z)) as [E3|E3];
        repeat match goal with
               | H : Nat.leb _ _ = true |- _ => apply Nat.leb_le in H
               | H : Nat.ltb _ _ = true |- _ => apply Nat.ltb_lt in H
               end;
        first [apply Nat.leb_le | apply Nat.ltb_lt]; lia. }
  induction S as [|a t St IH Ha]; constructor; auto.
  eapply Forall_impl; [|exact Ha]. intros b Hb. unfold before, Pandas.desc_leb in Hb.
  destruct (Nat.eqb_spec (snd a) (snd b)); [lia|]. apply Nat.ltb_lt in Hb. lia.
Qed.

Lemma head_nonneg {A} (n : Z) (l : list A) :
  (0 <= n)%Z -> Pandas.head n l = firstn (Z.to_nat n) l.
Proof. intro H. unfold Pandas.head. apply Z.leb_le in H. now rewrite H. Qed.

Section TopIndustries.
Variable tie : Pandas.TieOrder string.
Variable data : Pandas.Pivot.
Variable top_n : Z.
Hypothesis labels_distinct : NoDup (Pandas.pivot_columns data).
Hypothesis top_n_nonneg : (0 <= top_n)%Z.

Let sorted := Pandas.sort_values_desc tie (Pandas.column_totals data).
Let top := top_industries tie data top_n.

Lemma sorted_labels_perm : Permutation (map fst sorted) (Pandas.pivot_columns data).
Proof.
  rewrite <- column_totals_labels. apply Permutation_map, sort_values_desc_perm.
Qed.

Lemma top_industries_split :
  map fst sorted = top ++ map fst (skipn (Z.to_nat top_n) sorted).
Proof.
  unfold top, top_industries. fold sorted. rewrite head_nonneg by assumption.
  now rewrite <- map_app, firstn_skipn.
Qed.

Lemma top_industries_incl : incl top (Pandas.pivot_columns data).
Proof.
  intros c H. apply (Permutation_in _ sorted_labels_perm).
  rewrite top_industries_split. apply in_or_app. now left.
Qed.

Lemma top_industries_NoDup : NoDup top.
Proof.
  assert (N : NoDup (map fst sorted)).
  { eapply Permutation_NoDup; [apply Permutation_sym, sorted_labels_perm | assumption]. }
  rewrite top_industries_split in N. now apply NoDup_app_remove_r in N.
Qed.

Lemma top_industries_length :
  length top = Nat.min (Z.to_nat top_n) (length (Pandas.pivot_columns data)).
Proof.
  unfold top, top_industries. fold sorted. rewrite head_nonneg by assumption.
  rewrite length_map, length_firstn. f_equal.
  rewrite <- (length_map fst sorted). apply Permutation_length, sorted_labels_perm.
Qed.


(** What [plot_data] returns. *)
Lemma plot_data_eq :
  PlotIndustryAdoption.plot_data tie data top_n
  = Ok match other_industries data top with
       | [] => selection data top
       | _ =>
           Pandas.set_column "Other"
             (Pandas.row_totals (selection data (other_industries data top)))
             (selection data top)
       end.
Proof.
  unfold PlotIndustryAdoption.plot_data.
  fold (top_industries tie data top_n). fold top.
  rewrite (@select_ok data top top_industries_incl). cbn [rbind].
  fold (other_industries data top). fold (selection data top).
  destruct (other_industries data top) as [|c l] eqn:E; [reflexivity|].
  rewrite (@select_ok data (c :: l)).
  - reflexivity.
  - intros x Hx. rewrite <- E in Hx. now apply other_industries_In in Hx.
Qed.
End TopIndustries.

Lemma selection_columns (p : Pandas.Pivot) (labels : list string) :
  Pandas.pivot_columns (selection p labels) = labels.
Proof. unfold selection, Pandas.pivot_columns; simpl. rewrite map_map. apply map_id. Qed.

Lemma column_values_data (p : Pandas.Pivot) (c : string) :
  NoDup (Pandas.pivot_columns p) -> In c (Pandas.pivot_columns p) ->
  In (c, column_values p c) (Pandas.data p).
Proof.
  intros N H. rewrite (data_as_columns p N). apply in_map_iff. exists c. auto.
Qed.

Lemma selection_rectangular (p : Pandas.Pivot) (labels : list string) :
  well_formed p -> incl labels (Pandas.pivot_columns p) ->
  Forall (fun e => length (snd e) = length (Pandas.index (selection p labels)))
         (Pandas.data (selection p labels)).
Proof.
  intros [N F] I. unfold selection; simpl. rewrite Forall_forall in *.
  intros e He. apply in_map_iff in He as [c [<- Hc]]. simpl.
  apply (F (c, column_values p c)). apply column_values_data; auto.
Qed.

Lemma list_sum_cells_perm (p : Pandas.Pivot) (i : nat) (l l' : list string) :
  Permutation l l' ->
  list_sum (map (fun c => cell p c i) l) = list_sum (map (fun c => cell p c i) l').
Proof. intro P. apply Permutation_list_sum, Permutation_map, P. Qed.


(** The table [process_agent] hands to [plot_stacked_area] is of that kind. *)
Lemma aggregate_well_formed (df : list Joined.t) :
  well_formed (PlotIndustryAdoption.aggregate_by_month_industry df).
Proof.
  unfold PlotIndustryAdoption.aggregate_by_month_industry.
  fold (monthly_table df). rewrite monthly_table_sort_index. split.
  - apply monthly_table_columns_NoDup.
  - rewrite Forall_forall. intros e H.
    destruct (industry_entry_values df e H) as [_ V]. rewrite V. apply length_map.
Qed.



(* ================================================================== *)
(** ** Further properties: the join *)

Unset Implicit Arguments.

Lemma filter_nil_existsb {A} (test : A -> bool) (l : list A) :
  filter test l = [] <-> existsb test l = false.
Proof.
  induction l as [|x t IH]; simpl; [tauto|].
  destruct (test x); simpl; [split; discriminate | exact IH].
Qed.

Lemma filter_key_unique {A} (key : A -> string) (k : string) (l : list A) :
  NoDup (map key l) -> length (filter (fun x => String.eqb (key x) k) l) <= 1.
Proof.
  intro N.
  rewrite <- (@count_occ_filter A string string_dec key
                (fun x => String.eqb (key x) k) k l).
  - now apply NoDup_count_occ.
  - intro x. apply String.eqb_eq.
Qed.

(** One first-use row gives one joined row when it has a prediction, and
    none otherwise. *)
Lemma merge_one_row (f : FirstUse.t) (predictions : list Prediction.t) :
  NoDup (map Prediction.nwo predictions) ->
  map joined_key
      (map (fun p => Joined.mk (FirstUse.nwo f) (FirstUse.first_use_date f)
                       (Prediction.predicted_naics p))
           (filter (fun p => String.eqb (Prediction.nwo p) (FirstUse.nwo f)) predictions))
  = if has_prediction predictions f then [first_use_key f] else [].
Proof.
  intro N. unfold has_prediction.
  pose proof (filter_key_unique Prediction.nwo (FirstUse.nwo f) predictions N) as L.
  pose proof (filter_nil_existsb
                (fun p => String.eqb (Prediction.nwo p) (FirstUse.nwo f)) predictions) as E.
  destruct (filter (fun p => String.eqb (Prediction.nwo p) (FirstUse.nwo f)) predictions)
    as [|p [|q rest]]; simpl in L.
  - rewrite (proj1 E eq_refl). reflexivity.
  - destruct (existsb _ predictions); [reflexivity|].
    destruct E as [_ E]. discriminate (E eq_refl).
  - lia.
Qed.

Lemma merge_cons (f : FirstUse.t) (t : list FirstUse.t) (predictions : list Prediction.t) :
  Pandas.merge (f :: t) predictions
  = map (fun p => Joined.mk (FirstUse.nwo f) (FirstUse.first_use_date f)
                    (Prediction.predicted_naics p))
        (filter (fun p => String.eqb (Prediction.nwo p) (FirstUse.nwo f)) predictions)
    ++ Pandas.merge t predictions.
Proof. reflexivity. Qed.

Lemma merge_identifiers_In (first_use : list FirstUse.t) (predictions : list Prediction.t)
  (k : string) :
  In k (map Joined.nwo (Pandas.merge first_use predictions)) ->
  In k (map FirstUse.nwo first_use).
Proof.
  intro H. apply in_map_iff in H as [j [<- H]]. unfold Pandas.merge in H.
  apply in_flat_map in H as [f [Hf H]]. apply in_map_iff in H as [p [<- _]].
  simpl. now apply in_map.
Qed.

(** X2.  With at most one prediction per identifier, the join keeps the
    first-use rows that have a prediction, once each and in their order,
    and drops the others; so does the table [load_and_process] returns for
    files with these rows. *)
Theorem merge_keeps_rows_with_prediction (first_use : list FirstUse.t)
  (predictions : list Prediction.t) :
  NoDup (map Prediction.nwo predictions) ->
  map joined_key (Pandas.merge first_use predictions)
  = map first_use_key (filter (has_prediction predictions) first_use)
  /\ forall fs agent fu pr df,
       first_use_parquet fs agent = Some fu ->
       predictions_parquet fs agent = Some pr ->
       Pandas.rows fu = first_use ->
       Pandas.rows pr = predictions ->
       ExportWebData.load_and_process fs agent = Ok df ->
       map joined_key df
       = map first_use_key (filter (has_prediction predictions) first_use).
Proof.
  intro N.
  assert (J : map joined_key (Pandas.merge first_use predictions)
              = map first_use_key (filter (has_prediction predictions) first_use)).
  { induction first_use as [|f t IH]; [reflexivity|].
    rewrite merge_cons, map_app, IH, (merge_one_row f predictions N). simpl filter.
    destruct (has_prediction predictions f); reflexivity. }
  split; [exact J|].
  intros fs agent fu pr df F1 F2 R1 R2 L.
  destruct (@load_and_process_inv fs agent df L) as [fu' [pr' [F1' [F2' ->]]]].
  assert (fu' = fu) by congruence. assert (pr' = pr) by congruence. subst fu' pr'.
  now rewrite R1, R2.
Qed.

Lemma merge_keeps_rows_with_prediction_witness :
  map joined_key
      (Pandas.merge (Pandas.rows Example.first_use_with_D) (Pandas.rows Example.predictions))
  = map first_use_key (Pandas.rows Example.first_use)
  /\ forall df,
       ExportWebData.load_and_process Example.fs_with_D "claude" = Ok df ->
       map joined_key df = map first_use_key (Pandas.rows Example.first_use).
Proof.
  destruct (merge_keeps_rows_with_prediction (Pandas.rows Example.first_use_with_D)
              (Pandas.rows Example.predictions)) as [A B].
  - simpl; repeat constructor; simpl; intuition discriminate.
  - split; [exact A|]. intros df L.
    exact (B Example.fs_with_D "claude" Example.first_use_with_D Example.predictions df
             eq_refl eq_refl eq_refl eq_refl L).
Defined.

Lemma NoDup_map_filter {A B} (f : A -> B) (test : A -> bool) (l : list A) :
  NoDup (map f l) -> NoDup (map f (filter test l)).
Proof.
  induction l as [|x t IH]; simpl; intro N; [constructor|].
  apply NoDup_cons_iff in N as [N1 N2].
  destruct (test x); simpl; [|auto].
  constructor; [|auto]. intro H. apply N1.
  apply in_map_iff in H as [y [E Hy]]. apply filter_In in Hy as [Hy _].
  rewrite <- E. now apply in_map.
Qed.

(** X3.  Identifiers that are unique in both inputs are unique in the
    join, and so in the table [load_and_process] returns for files with
    these rows. *)
Theorem merge_identifiers_unique (first_use : list FirstUse.t)
  (predictions : list Prediction.t) :
  NoDup (map FirstUse.nwo first_use) ->
  NoDup (map Prediction.nwo predictions) ->
  NoDup (map Joined.nwo (Pandas.merge first_use predictions))
  /\ forall fs agent fu pr df,
       first_use_parquet fs agent = Some fu ->
       predictions_parquet fs agent = Some pr ->
       Pandas.rows fu = first_use ->
       Pandas.rows pr = predictions ->
       ExportWebData.load_and_process fs agent = Ok df ->
       NoDup (map Joined.nwo df).
Proof.
  intros Nl Nr.
  assert (J : NoDup (map Joined.nwo (Pandas.merge first_use predictions))).
  { induction first_use as [|f t IH]; [constructor|].
    simpl in Nl. apply NoDup_cons_iff in Nl as [Nf Nt].
    rewrite merge_cons, map_app. apply NoDup_app; [| now apply IH |].
    - rewrite <- (map_map joined_key fst), (merge_one_row f predictions Nr).
      destruct (has_prediction predictions f); repeat constructor. simpl; tauto.
    - intros k H1 H2. apply Nf.
      rewrite <- (map_map joined_key fst), (merge_one_row f predictions Nr) in H1.
      destruct (has_prediction predictions f); simpl in H1; [|contradiction].
      destruct H1 as [<-|[]]. simpl. now apply merge_identifiers_In with predictions. }
  split; [exact J|].
  intros fs agent fu pr df F1 F2 R1 R2 L.
  destruct (@load_and_process_inv fs agent df L) as [fu' [pr' [F1' [F2' ->]]]].
  assert (fu' = fu) by congruence. assert (pr' = pr) by congruence. subst fu' pr'.
  now rewrite R1, R2.
Qed.

Lemma merge_identifiers_unique_witness :
  NoDup (map Joined.nwo
           (Pandas.merge (Pandas.rows Example.first_use_with_D)
                         (Pandas.rows Example.predictions)))
  /\ forall df,
       ExportWebData.load_and_process Example.fs_with_D "claude" = Ok df ->
       NoDup (map Joined.nwo df).
Proof.
  destruct (merge_identifiers_unique (Pandas.rows Example.first_use_with_D)
              (Pandas.rows Example.predictions)) as [A B].
  - simpl; repeat constructor; simpl; intuition discriminate.
  - simpl; repeat constructor; simpl; intuition discriminate.
  - split; [exact A|]. intros df L.
    exact (B Example.fs_with_D "claude" Example.first_use_with_D Example.predictions df
             eq_refl eq_refl eq_refl eq_refl L).
Defined.

(* ================================================================== *)
(** ** Further properties: the loaders *)

(** The labels after the normalisation, in closed form. *)
Lemma normalize_columns_labels {R} (df : Pandas.Frame R) :
  Pandas.columns (normalize_columns df)
  = map (fun c => if String.eqb c "repo_nwo" then "nwo"
                  else if String.eqb c "first_claude_commit" then "first_use_date"
                  else c)
        (Pandas.columns df).
Proof.
  assert (Absent : forall (old new : string) (cols : list string),
             existsb (String.eqb old) cols = false ->
             map (fun c => if String.eqb c old then new else c) cols = cols).
  { intros old new cols. induction cols as [|c t IH]; simpl; intro H; [reflexivity|].
    apply orb_false_iff in H as [H1 H2]. rewrite String.eqb_sym in H1.
    now rewrite H1, IH. }
  assert (Two : forall cols : list string,
             map (fun c => if String.eqb c "first_claude_commit" then "first_use_date" else c)
                 (map (fun c => if String.eqb c "repo_nwo" then "nwo" else c) cols)
             = map (fun c => if String.eqb c "repo_nwo" then "nwo"
                             else if String.eqb c "first_claude_commit"
                                  then "first_use_date"
                                  else c) cols).
  { intro cols. rewrite map_map. apply map_ext. intro c.
    destruct (String.eqb c "repo_nwo"); reflexivity. }
  rewrite <- Two. unfold normalize_columns, Pandas.has_column.
  destruct (existsb (String.eqb "repo_nwo") (Pandas.columns df)) eqn:A.
  - destruct (existsb (String.eqb "first_claude_commit")
                (Pandas.columns (Pandas.rename "repo_nwo" "nwo" df))) eqn:B.
    + reflexivity.
    + cbn [Pandas.columns Pandas.rename] in B |- *.
      now rewrite (Absent "first_claude_commit" "first_use_date" _ B).
  - rewrite (Absent "repo_nwo" "nwo" _ A).
    destruct (existsb (String.eqb "first_claude_commit") (Pandas.columns df)) eqn:B.
    + reflexivity.
    + now rewrite (Absent "first_claude_commit" "first_use_date" _ B).
Qed.


Lemma normalize_columns_count_date {R} (df : Pandas.Frame R) :
  Pandas.label_count "first_use_date" (normalize_columns df)
  = Pandas.label_count "first_use_date" df + Pandas.label_count "first_claude_commit" df.
Proof.
  unfold Pandas.label_count. rewrite normalize_columns_labels.
  induction (Pandas.columns df) as [|c t IH]; [reflexivity|].
  cbn [map count_occ]. rewrite IH.
  destruct (String.eqb_spec c "repo_nwo") as [->|N1];
    [|destruct (String.eqb_spec c "first_claude_commit") as [->|N2]];
    repeat match goal with
           | |- context [string_dec ?a ?b] => destruct (string_dec a b)
           end; try discriminate; try congruence; lia.
Qed.






(** X5.  The order of the failures of [load_and_process]: a missing
    first-use file is reported first; then a missing predictions file, also
    when the first-use table has no usable schema; then a first-use table
    without a date column under either label. *)
Theorem load_and_process_failures (fs : FileSystem) (agent : string) :
  (first_use_parquet fs agent = None ->
   ExportWebData.load_and_process fs agent = Raise (FileNotFoundError (first_use_path agent)))
  /\ (first_use_parquet fs agent <> None ->
      predictions_parquet fs agent = None ->
      ExportWebData.load_and_process fs agent
      = Raise (FileNotFoundError (predictions_path agent)))
  /\ (forall fu,
        first_use_parquet fs agent = Some fu ->
        predictions_parquet fs agent <> None ->
        Pandas.has_column "first_use_date" fu = false ->
        Pandas.has_column "first_claude_commit" fu = false ->
        ExportWebData.load_and_process fs agent = Raise (KeyError "first_use_date")).
Proof.
  unfold ExportWebData.load_and_process, read_parquet. repeat split.
  - intros ->. reflexivity.
  - intros H1 ->. destruct (first_use_parquet fs agent); [reflexivity | contradiction].
  - intros fu -> H2 H3 H4.
    destruct (predictions_parquet fs agent) as [pr|]; [|contradiction].
    cbn [rbind]. unfold coerce_first_use_date, require_unique_column.
    rewrite has_column_count in H3, H4. apply negb_false_iff, Nat.eqb_eq in H3, H4.
    now rewrite normalize_columns_count_date, H3, H4.
Qed.

Lemma load_and_process_failures_witness :
  ExportWebData.load_and_process Example.fs "copilot"
  = Raise (FileNotFoundError (first_use_path "copilot"))
  /\ ExportWebData.load_and_process Example.fs_unknown_labels "claude"
     = Raise (KeyError "first_use_date").
Proof.
  split.
  - apply (load_and_process_failures Example.fs "copilot"). reflexivity.
  - apply (proj2 (proj2 (load_and_process_failures Example.fs_unknown_labels "claude"))
             Example.first_use_unknown_labels); try reflexivity. discriminate.
Defined.

Lemma normalize_columns_fixed {R} (df : Pandas.Frame R) :
  Pandas.has_column "repo_nwo" df = false ->
  Pandas.has_column "first_claude_commit" df = false ->
  normalize_columns df = df.
Proof. intros A B. unfold normalize_columns. now rewrite A, B. Qed.

Lemma io_bind_ext {E A B} (m : IO E A) (f g : A -> IO E B) :
  (forall a, f a = g a) -> io_bind m f = io_bind m g.
Proof. intro H. destruct m as [t [a|e]]; simpl; [now rewrite H | reflexivity]. Qed.

(** X6.  A first-use file rewritten once into the canonical labels is read
    as the legacy file was: with the predictions unchanged, the export, the
    monthly adoption table and the processing of the agent for the chart
    give the same results and the same log. *)
Theorem canonical_file_reads_as_legacy (tie : Pandas.TieOrder string) (legacy : FileSystem) (agent agent_name : string) :
  ExportWebData.generate_cumulative_data (canonical legacy) agent
  = ExportWebData.generate_cumulative_data legacy agent
  /\ SummaryStats.generate_monthly_adoption (canonical legacy) agent
     = SummaryStats.generate_monthly_adoption legacy agent
  /\ PlotIndustryAdoption.process_agent tie (canonical legacy) agent_name agent
     = PlotIndustryAdoption.process_agent tie legacy agent_name agent.
Proof.
  assert (H1 : first_use_parquet (canonical legacy) agent
               = option_map normalize_columns (first_use_parquet legacy agent))
    by reflexivity.
  assert (H2 : predictions_parquet (canonical legacy) agent
               = predictions_parquet legacy agent) by reflexivity.
  revert H1 H2. generalize (canonical legacy). intros fs H1 H2.
  assert (N : forall fu : Pandas.Frame FirstUse.t,
            normalize_columns (normalize_columns fu) = normalize_columns fu).
  { intro fu. destruct (normalize_columns_no_legacy fu).
    now apply normalize_columns_fixed. }
  split; [|split].
  - unfold ExportWebData.generate_cumulative_data, ExportWebData.load_and_process.
    rewrite H1, H2. destruct (first_use_parquet legacy agent) as [fu|]; [|reflexivity].
    simpl option_map. unfold read_parquet at 1 3. cbn [rbind].
    destruct (read_parquet (predictions_parquet legacy agent) (predictions_path agent));
      cbn [rbind]; [|reflexivity].
    now rewrite N.
  - unfold SummaryStats.generate_monthly_adoption, SummaryStats.load_predictions,
      SummaryStats.load_first_use.
    rewrite H1, H2. apply io_bind_ext. intro preds.
    destruct (first_use_parquet legacy agent) as [fu|]; [|reflexivity].
    simpl option_map. unfold read_parquet. unfold lift at 1 5. cbn [io_bind app].
    now rewrite N.
  - unfold PlotIndustryAdoption.process_agent, PlotIndustryAdoption.load_first_use,
      PlotIndustryAdoption.merge_with_predictions.
    rewrite H1, H2. do 3 (apply io_bind_ext; intros _).
    destruct (first_use_parquet legacy agent) as [fu|]; [|reflexivity].
    simpl option_map. unfold read_parquet at 1 3. unfold lift at 1 6. cbn [io_bind app].
    now rewrite N.
Qed.

(* ================================================================== *)
(** ** Further properties: the month-by-industry table *)

Lemma aggregate_is_monthly_table (df : list Joined.t) :
  PlotIndustryAdoption.aggregate_by_month_industry df = monthly_table df.
Proof.
  unfold PlotIndustryAdoption.aggregate_by_month_industry.
  fold (monthly_table df). apply monthly_table_sort_index.
Qed.

Lemma nth_map_in_range {A} (f : A -> nat) (l : list A) (d : A) (i : nat) :
  i < length l -> nth i (map f l) 0 = f (nth i l d).
Proof.
  revert i; induction l as [|x t IH]; intros [|i] H; simpl in *; try lia; auto.
  apply IH. lia.
Qed.

Lemma monthly_table_column_values (df : list Joined.t) (c : string) :
  In c (Pandas.pivot_columns (monthly_table df)) ->
  column_values (monthly_table df) c
  = map (fun m => length (records_of_cell m c df)) (Pandas.index (monthly_table df)).
Proof.
  intro H. apply column_values_In; [apply monthly_table_columns_NoDup|].
  rewrite monthly_table_data. apply in_map_iff. exists c. auto.
Qed.

(** Summing the counts of the pairs [(m, c)] over distinct codes that cover
    the list gives the count of the month [m]. *)
Lemma sum_count_occ_over_codes (cols : list string) (l : list (Period * string)) (m : Period) :
  NoDup cols -> incl (map snd l) cols ->
  list_sum (map (fun c => count_occ Pandas.key_dec l (m, c)) cols)
  = count_occ Z.eq_dec (map fst l) m.
Proof.
  intros N. induction l as [|[a b] t IH]; intro C.
  - simpl. clear. induction cols; simpl; auto.
  - assert (Ct : incl (map snd t) cols) by (intros y Hy; apply C; now right).
    assert (Ib : In b cols) by (apply C; now left).
    simpl. destruct (Z.eq_dec a m) as [->|Na].
    + rewrite (map_ext _ (fun c => (if string_dec b c then 1 else 0)
                                   + count_occ Pandas.key_dec t (m, c))).
      * rewrite list_sum_map_add, sum_indicator_in, IH; auto.
      * intro c. destruct (Pandas.key_dec (m, b) (m, c)) as [E|E], (string_dec b c) as [E'|E'];
          first [reflexivity | exfalso; congruence].
    + rewrite <- IH by assumption. apply f_equal, map_ext.
      intro c. destruct (Pandas.key_dec (a, b) (m, c)) as [E|E];
        first [reflexivity | exfalso; congruence].
Qed.

Lemma records_of_month_length (df : list Joined.t) (m : Period) :
  length (records_of_month m df) = count_occ Z.eq_dec (map Joined.year_month df) m.
Proof. symmetry. apply count_occ_filter. intro r. apply Z.eqb_eq. Qed.

(** A row of the monthly table adds up to the joined records of its
    month. *)
Lemma monthly_table_row_sum (df : list Joined.t) (m : Period) :
  list_sum (map (fun c => length (records_of_cell m c df))
                (Pandas.pivot_columns (monthly_table df)))
  = length (records_of_month m df).
Proof.
  rewrite records_of_month_length.
  rewrite (map_ext _ (fun c => count_occ Pandas.key_dec (group_keys df) (m, c)))
    by (intro; apply records_of_cell_count).
  replace (map Joined.year_month df) with (map fst (group_keys df))
    by (unfold group_keys; rewrite map_map; reflexivity).
  apply sum_count_occ_over_codes.
  - apply monthly_table_columns_NoDup.
  - intros c H. apply monthly_table_columns_In.
    unfold group_keys in H. now rewrite map_map in H.
Qed.

Lemma monthly_table_month_total (df : list Joined.t) (i : nat) :
  i < length (Pandas.index (monthly_table df)) ->
  month_total (monthly_table df) i
  = length (records_of_month (nth i (Pandas.index (monthly_table df)) 0%Z) df).
Proof.
  intro Hi. rewrite (month_total_as_cells _ i (monthly_table_columns_NoDup df)).
  rewrite <- monthly_table_row_sum. f_equal. apply map_ext_in.
  intros c Hc. unfold cell. rewrite (monthly_table_column_values df c Hc).
  now apply (nth_map_in_range (fun m => length (records_of_cell m c df))).
Qed.

Lemma monthly_table_column_total (df : list Joined.t) (c : string) :
  In c (Pandas.pivot_columns (monthly_table df)) ->
  column_total (monthly_table df) c = length (records_of_industry c df).
Proof.
  intro Hc. unfold column_total. rewrite (monthly_table_column_values df c Hc).
  apply monthly_table_column_sum.
Qed.

(** X7.  In the table [aggregate_by_month_industry] makes of the joined
    records, the cell of a month and an industry is the number of joined
    records of that month and industry, a row adds up to the records of its
    month, and a column to the records of its industry. *)
Theorem aggregate_counts (df : list Joined.t) :
  let p := PlotIndustryAdoption.aggregate_by_month_industry df in
  (forall i c, i < length (Pandas.index p) -> In c (Pandas.pivot_columns p) ->
     cell p c i = length (records_of_cell (nth i (Pandas.index p) 0%Z) c df))
  /\ (forall i, i < length (Pandas.index p) ->
        month_total p i = length (records_of_month (nth i (Pandas.index p) 0%Z) df))
  /\ (forall c, In c (Pandas.pivot_columns p) ->
        column_total p c = length (records_of_industry c df)).
Proof.
  intro p. unfold p. rewrite aggregate_is_monthly_table. clear p.
  assert (C : forall i c, i < length (Pandas.index (monthly_table df)) ->
              In c (Pandas.pivot_columns (monthly_table df)) ->
              cell (monthly_table df) c i
              = length (records_of_cell (nth i (Pandas.index (monthly_table df)) 0%Z) c df)).
  { intros i c Hi Hc. unfold cell. rewrite (monthly_table_column_values df c Hc).
    now apply (nth_map_in_range (fun m => length (records_of_cell m c df))). }
  split; [exact C|]. split.
  - intros i Hi. rewrite (month_total_as_cells _ i (monthly_table_columns_NoDup df)).
    rewrite <- monthly_table_row_sum. f_equal. apply map_ext_in.
    intros c Hc. now apply C.
  - intros c Hc. unfold column_total. rewrite (monthly_table_column_values df c Hc).
    apply monthly_table_column_sum.
Qed.

Lemma aggregate_counts_witness :
  let p := PlotIndustryAdoption.aggregate_by_month_industry Example.joined in
  cell p "54" 0 = 2 /\ month_total p 1 = 1 /\ column_total p "62" = 1.
Proof.
  destruct (aggregate_counts Example.joined) as [C [R T]].
  split; [|split].
  - rewrite (C 0 "54"); [reflexivity | vm_compute; lia | vm_compute; tauto].
  - rewrite (R 1); [reflexivity | vm_compute; lia].
  - rewrite (T "62"); [reflexivity | vm_compute; tauto].
Defined.

(** X8.  The table has no row and no column without a joined record: every
    month of the index and every industry of the columns has at least one,
    months are listed once in ascending order, and the table is empty
    exactly when there is no joined record. *)
Theorem aggregate_has_no_empty_row_or_column (df : list Joined.t) :
  let p := PlotIndustryAdoption.aggregate_by_month_industry df in
  StronglySorted Z.lt (Pandas.index p)
  /\ (forall i, i < length (Pandas.index p) -> 1 <= month_total p i)
  /\ (forall c, In c (Pandas.pivot_columns p) -> 1 <= column_total p c)
  /\ (Pandas.index p = [] <-> df = [])
  /\ (Pandas.pivot_columns p = [] <-> df = []).
Proof.
  intro p.
  assert (E : p = monthly_table df) by apply aggregate_is_monthly_table.
  assert (R : forall i, i < length (Pandas.index p) ->
              month_total p i = length (records_of_month (nth i (Pandas.index p) 0%Z) df))
    by (rewrite E; apply monthly_table_month_total).
  assert (T : forall c, In c (Pandas.pivot_columns p) ->
              column_total p c = length (records_of_industry c df))
    by (rewrite E; apply monthly_table_column_total).
  split; [rewrite E; apply monthly_table_index_ascending|].
  split; [|split; [|split]].
  - intros i Hi. rewrite (R i Hi).
    assert (I : In (nth i (Pandas.index p) 0%Z) (map Joined.year_month df)).
    { rewrite E. apply monthly_table_index_In. rewrite <- E. now apply nth_In. }
    apply in_map_iff in I as [r [Er Hr]].
    assert (F : In r (records_of_month (nth i (Pandas.index p) 0%Z) df)).
    { apply filter_In. split; [exact Hr | now apply Z.eqb_eq]. }
    destruct (records_of_month _ df); [contradiction | simpl; lia].
  - intros c Hc. rewrite (T c Hc).
    assert (N : records_of_industry c df <> []).
    { apply in_map_naics. apply monthly_table_columns_In. now rewrite <- E. }
    destruct (records_of_industry c df); [contradiction | simpl; lia].
  - rewrite E. split.
    + intro H. destruct df as [|r t]; [reflexivity|].
      exfalso. revert H. apply monthly_table_index_nonempty. discriminate.
    + intros ->. reflexivity.
  - rewrite E. split.
    + intro H. destruct df as [|r t]; [reflexivity|].
      assert (I : In (Joined.predicted_naics r) (Pandas.pivot_columns (monthly_table (r :: t))))
        by (apply monthly_table_columns_In; now left).
      rewrite H in I. contradiction.
    + intros ->. reflexivity.
Qed.

Lemma aggregate_has_no_empty_row_or_column_witness :
  let p := PlotIndustryAdoption.aggregate_by_month_industry Example.joined in
  1 <= month_total p 0 /\ 1 <= column_total p "62".
Proof.
  destruct (aggregate_has_no_empty_row_or_column Example.joined) as [_ [R [C _]]].
  split; [apply R; vm_compute; lia | apply C; vm_compute; tauto].
Defined.

(* ================================================================== *)
(** ** Further properties: the processing of an agent for the chart *)

(** The counts of the table add up to the joined records. *)
Lemma aggregate_total (df : list Joined.t) :
  Pandas.series_sum
    (Pandas.column_totals (PlotIndustryAdoption.aggregate_by_month_industry df))
  = length df.
Proof.
  rewrite aggregate_is_monthly_table.
  unfold Pandas.series_sum, Pandas.column_totals. rewrite map_map. cbn [snd].
  etransitivity; [|apply monthly_table_total].
  unfold Pandas.pivot_columns. rewrite map_map. f_equal. apply map_ext_in.
  intros e He. destruct (industry_entry_values df e He) as [_ V]. rewrite V.
  apply monthly_table_column_sum.
Qed.

Lemma fold_min_spec (t : list Z) (x : Z) :
  In (fold_left Z.min t x) (x :: t)
  /\ forall y, In y (x :: t) -> (fold_left Z.min t x <= y)%Z.
Proof.
  revert x; induction t as [|a t IH]; intro x; simpl.
  - split; [now left | intros y [<-|[]]; lia].
  - destruct (IH (Z.min x a)) as [I L]. split.
    + destruct I as [I|I]; [|now right; right].
      rewrite <- I. destruct (Z.min_spec x a) as [[_ ->]|[_ ->]]; auto.
    + intros y Hy. assert (M : (fold_left Z.min t (Z.min x a) <= Z.min x a)%Z)
        by (apply L; now left).
      destruct Hy as [<-|[<-|Hy]]; [lia | lia | apply L; now right].
Qed.

Lemma fold_max_spec (t : list Z) (x : Z) :
  In (fold_left Z.max t x) (x :: t)
  /\ forall y, In y (x :: t) -> (y <= fold_left Z.max t x)%Z.
Proof.
  revert x; induction t as [|a t IH]; intro x; simpl.
  - split; [now left | intros y [<-|[]]; lia].
  - destruct (IH (Z.max x a)) as [I L]. split.
    + destruct I as [I|I]; [|now right; right].
      rewrite <- I. destruct (Z.max_spec x a) as [[_ ->]|[_ ->]]; auto.
    + intros y Hy. assert (M : (Z.max x a <= fold_left Z.max t (Z.max x a))%Z)
        by (apply L; now left).
      destruct Hy as [<-|[<-|Hy]]; [lia | lia | apply L; now right].
Qed.

Lemma merge_with_predictions_logs (fs : FileSystem) (fu : Pandas.Frame FirstUse.t)
  (agent_key : string) (merged : list Joined.t) :
  snd (PlotIndustryAdoption.merge_with_predictions fs fu agent_key) = Ok merged ->
  In (PlotIndustryAdoption.Info (PlotIndustryAdoption.Merged (length merged)))
     (fst (PlotIndustryAdoption.merge_with_predictions fs fu agent_key)).
Proof.
  unfold PlotIndustryAdoption.merge_with_predictions. intro H.
  repeat (apply io_bind_ok in H as [?a [?Ha H]]).
  simpl in H. injection H as <-.
  do 4 (eapply in_io_bind_r; [eassumption|]).
  apply in_io_bind_l. now left.
Qed.

(** X9.  When an agent is processed, the log is consistent with the table
    that is returned: the number of merged rows and the total of the table
    are both its number of rows, and the date range runs from its earliest
    to its latest month. *)
Theorem process_agent_log_is_consistent (tie : Pandas.TieOrder string) (fs : FileSystem) (agent_name agent_key : string)
  (merged : list Joined.t) :
  snd (PlotIndustryAdoption.process_agent tie fs agent_name agent_key) = Ok merged ->
  let log := fst (PlotIndustryAdoption.process_agent tie fs agent_name agent_key) in
  In (PlotIndustryAdoption.Info (PlotIndustryAdoption.Merged (length merged))) log
  /\ In (PlotIndustryAdoption.Info (PlotIndustryAdoption.TotalRepos (length merged))) log
  /\ exists first last,
       In (PlotIndustryAdoption.Info
             (PlotIndustryAdoption.DateRange (Some first) (Some last))) log
       /\ In first (map Joined.year_month merged)
       /\ In last (map Joined.year_month merged)
       /\ forall r, In r merged -> (first <= Joined.year_month r <= last)%Z.
Proof.
  intro H. cbv zeta. unfold PlotIndustryAdoption.process_agent in *.
  repeat (apply io_bind_ok in H as [?a [?Ha H]]).
  simpl in H. injection H as ->.
  split; [|split].
  - do 4 (eapply in_io_bind_r; [eassumption|]). apply in_io_bind_l.
    now apply merge_with_predictions_logs.
  - do 6 (eapply in_io_bind_r; [eassumption|]). apply in_io_bind_l.
    rewrite aggregate_total. now left.
  - assert (NE : Pandas.index (PlotIndustryAdoption.aggregate_by_month_industry merged) <> []).
    { destruct merged as [|r t]; [simpl in Ha8; discriminate|].
      rewrite aggregate_is_monthly_table. apply monthly_table_index_nonempty. discriminate. }
    assert (IN : forall m,
               In m (Pandas.index (PlotIndustryAdoption.aggregate_by_month_industry merged))
               <-> In m (map Joined.year_month merged)).
    { intro m. rewrite aggregate_is_monthly_table. apply monthly_table_index_In. }
    destruct (Pandas.index (PlotIndustryAdoption.aggregate_by_month_industry merged))
      as [|x l] eqn:EI; [contradiction|].
    destruct (fold_min_spec l x) as [I1 L1]. destruct (fold_max_spec l x) as [I2 L2].
    exists (fold_left Z.min l x), (fold_left Z.max l x).
    split; [|split; [now apply IN | split; [now apply IN|]]].
    + do 5 (eapply in_io_bind_r; [eassumption|]). apply in_io_bind_l.
      rewrite EI. now left.
    + intros r Hr. assert (Hm : In (Joined.year_month r) (x :: l))
        by (apply IN; now apply in_map).
      split; [now apply L1 | now apply L2].
Qed.

Lemma process_agent_log_is_consistent_witness :
  In (PlotIndustryAdoption.Info (PlotIndustryAdoption.TotalRepos 3))
     (fst (PlotIndustryAdoption.process_agent Pandas.stable_order Example.fs_with_D "Claude Code" "claude")).
Proof.
  apply (process_agent_log_is_consistent Pandas.stable_order Example.fs_with_D "Claude Code" "claude"
           Example.joined).
  vm_compute. reflexivity.
Defined.

Lemma io_bind_emit {E B} (ev : E) (k : unit -> IO E B) :
  io_bind (emit ev) k = (ev :: fst (k tt), snd (k tt)).
Proof. unfold emit; simpl. now destruct (k tt). Qed.

Lemma io_bind_value {E A B} (m : IO E A) (k : A -> IO E B) (t : list E) (a : A) :
  m = (t, Ok a) -> io_bind m k = (t ++ fst (k a), snd (k a)).
Proof. intros ->. simpl. now destruct (k a). Qed.








(* ================================================================== *)
(** ** Further properties: the exported structure *)

Lemma cumsum_from_nth (a : nat) (l : list nat) (i : nat) :
  i < length l -> nth i (Pandas.cumsum_from a l) 0 = a + list_sum (firstn (S i) l).
Proof.
  revert a i; induction l as [|x t IH]; intros a i H; simpl in H; [lia|].
  destruct i as [|i].
  - simpl. destruct t; simpl; lia.
  - change (nth i (Pandas.cumsum_from (a + x) t) 0 = a + (x + list_sum (firstn (S i) t))).
    rewrite IH by lia. lia.
Qed.

Lemma cumsum_from_step (a : nat) (l : list nat) (i : nat) :
  S i < length l ->
  nth (S i) (Pandas.cumsum_from a l) 0
  = nth i (Pandas.cumsum_from a l) 0 + nth (S i) l 0.
Proof.
  revert a i; induction l as [|x t IH]; intros a i H; simpl in H; [lia|].
  destruct i as [|i].
  - destruct t as [|y t']; simpl in *; [lia | reflexivity].
  - change (nth (S i) (Pandas.cumsum_from (a + x) t) 0
            = nth i (Pandas.cumsum_from (a + x) t) 0 + nth (S i) t 0).
    apply IH. lia.
Qed.

(** X11.  In the exported structure the two arrays of an industry belong
    together: ["values"] holds the running sums of ["monthly"], so the first
    values agree, every later monthly count is the difference of two
    neighbouring values, and the monthly counts add up to the final value. *)
Theorem values_are_running_sums_of_monthly (fs : FileSystem) (agent : string)
  (out : ExportWebData.WebData) (e : ExportWebData.Industry) :
  ExportWebData.generate_cumulative_data fs agent = Ok out ->
  In e (ExportWebData.industries out) ->
  length (ExportWebData.values e) = length (ExportWebData.monthly e)
  /\ nth 0 (ExportWebData.values e) 0 = nth 0 (ExportWebData.monthly e) 0
  /\ (forall i, S i < length (ExportWebData.monthly e) ->
        nth (S i) (ExportWebData.monthly e) 0
        = nth (S i) (ExportWebData.values e) 0 - nth i (ExportWebData.values e) 0)
  /\ (forall i, i < length (ExportWebData.monthly e) ->
        nth i (ExportWebData.values e) 0 = list_sum (firstn (S i) (ExportWebData.monthly e)))
  /\ list_sum (ExportWebData.monthly e) = final_value e.
Proof.
  intros G I.
  destruct (@industries_final_value fs agent out e G I) as [df [col [_ [N [Hc [-> F]]]]]].
  unfold final_value, industry_entry; simpl.
  assert (NE : snd col <> []).
  { destruct (industry_entry_values df col Hc) as [_ V]. rewrite V. intro C.
    apply map_eq_nil in C. revert C. now apply monthly_table_index_nonempty. }
  split; [apply cumsum_from_length|]. split; [|split; [|split]].
  - destruct (snd col) as [|x t]; [contradiction|]. reflexivity.
  - intros i Hi. rewrite (cumsum_from_step 0 (snd col) i Hi). lia.
  - intros i Hi. now rewrite cumsum_from_nth.
  - now rewrite (@cumsum_from_last 0 0 (snd col) NE).
Qed.

Lemma values_are_running_sums_of_monthly_witness :
  exists out e,
    ExportWebData.generate_cumulative_data Example.fs "claude" = Ok out
    /\ ExportWebData.values e = [2; 2] /\ ExportWebData.monthly e = [2; 0]
    /\ list_sum (ExportWebData.monthly e) = final_value e.
Proof.
  eexists. eexists. split; [vm_compute; reflexivity|]. split; [|split].
  3:{ eapply (values_are_running_sums_of_monthly Example.fs "claude");
      [vm_compute; reflexivity | left; reflexivity]. }
  - reflexivity.
  - reflexivity.
Defined.

Lemma length_le_list_sum (l : list nat) :
  Forall (fun n => 1 <= n) l -> length l <= list_sum l.
Proof. induction 1; simpl; lia. Qed.

Lemma monthly_table_index_le (df : list Joined.t) :
  length (Pandas.index (monthly_table df)) <= length df.
Proof.
  assert (T : list_sum (map (count_occ Z.eq_dec (map Joined.year_month df))
                            (Pandas.index (monthly_table df)))
              = length df).
  { rewrite sum_count_occ_cover.
    - apply length_map.
    - apply sorted_unique_NoDup.
    - intros m H. now apply monthly_table_index_In. }
  apply Nat.le_trans with
    (list_sum (map (count_occ Z.eq_dec (map Joined.year_month df))
                   (Pandas.index (monthly_table df)))); [|rewrite T; lia].
  rewrite <- (length_map (count_occ Z.eq_dec (map Joined.year_month df))).
  apply length_le_list_sum. rewrite Forall_forall. intros n Hn.
  apply in_map_iff in Hn as [m [<- Hm]].
  apply monthly_table_index_In in Hm. now apply count_occ_In.
Qed.

Lemma monthly_table_columns_le (df : list Joined.t) :
  length (Pandas.pivot_columns (monthly_table df)) <= length df.
Proof.
  apply Nat.le_trans with
    (list_sum (map (fun c => length (records_of_industry c df))
                   (Pandas.pivot_columns (monthly_table df))));
    [|rewrite monthly_table_total; lia].
  rewrite <- (length_map (fun c => length (records_of_industry c df))).
  apply length_le_list_sum. rewrite Forall_forall. intros n Hn.
  apply in_map_iff in Hn as [c [<- Hc]].
  apply monthly_table_columns_In, in_map_naics in Hc.
  destruct (records_of_industry c df); [contradiction | simpl; lia].
Qed.

(** X12.  The exported structure lists every industry once and none with a
    final value of zero; it has at least one industry and one month, and no
    more of either than there are joined records. *)
Theorem exported_industries_distinct_and_counted (fs : FileSystem) (agent : string)
  (out : ExportWebData.WebData) :
  ExportWebData.generate_cumulative_data fs agent = Ok out ->
  NoDup (map ExportWebData.code (ExportWebData.industries out))
  /\ (forall e, In e (ExportWebData.industries out) -> 1 <= final_value e)
  /\ 1 <= length (ExportWebData.industries out) <= ExportWebData.total_repos out
  /\ 1 <= length (ExportWebData.months out) <= ExportWebData.total_repos out.
Proof.
  intro G.
  destruct (@generate_cumulative_data_inv fs agent out G) as [df [L [N [M [T [P S]]]]]].
  assert (C : map ExportWebData.code (map industry_entry (Pandas.data (monthly_table df)))
              = Pandas.pivot_columns (monthly_table df))
    by (rewrite map_map; reflexivity).
  assert (Len : length (ExportWebData.industries out)
                = length (Pandas.pivot_columns (monthly_table df))).
  { rewrite (Permutation_length P), <- C. now rewrite !length_map. }
  split; [|split; [|split]].
  - eapply Permutation_NoDup; [apply Permutation_sym, Permutation_map, P|].
    rewrite C. apply monthly_table_columns_NoDup.
  - intros e I. apply (Permutation_in _ P) in I. apply in_map_iff in I as [col [<- Hc]].
    rewrite (industry_entry_final df col Hc).
    destruct (industry_entry_values df col Hc) as [I _]. apply in_map_naics in I.
    destruct (records_of_industry (fst col) df); [contradiction | simpl; lia].
  - rewrite Len, T. split; [|apply monthly_table_columns_le].
    destruct df as [|r t]; [contradiction|].
    assert (X : In (Joined.predicted_naics r) (Pandas.pivot_columns (monthly_table (r :: t))))
      by (apply monthly_table_columns_In; now left).
    destruct (Pandas.pivot_columns (monthly_table (r :: t))); [contradiction | simpl; lia].
  - rewrite M, T, length_map. split; [|apply monthly_table_index_le].
    pose proof (monthly_table_index_nonempty N) as X.
    destruct (Pandas.index (monthly_table df)); [contradiction | simpl; lia].
Qed.

Lemma exported_industries_distinct_and_counted_witness :
  exists out,
    ExportWebData.generate_cumulative_data Example.fs "claude" = Ok out
    /\ NoDup (map ExportWebData.code (ExportWebData.industries out))
    /\ 1 <= length (ExportWebData.months out) <= ExportWebData.total_repos out.
Proof.
  eexists. split; [vm_compute; reflexivity|].
  destruct (exported_industries_distinct_and_counted Example.fs "claude" _
              ltac:(vm_compute; reflexivity)) as [A [_ [_ B]]].
  split; [exact A | exact B].
Defined.

(* ================================================================== *)
(** ** Further properties: the run of export_web_data *)

Lemma export_agent_loop_body (fs : FileSystem) (a : string * string) :
  try_except (ExportWebData.export_agent fs (fst a) (snd a)) (fun _ => true)
    (fun e => emit (ExportWebData.Print (ExportWebData.ErrorProcessing (snd a) e)))
  = (export_agent_events fs a, Ok tt).
Proof.
  unfold export_agent_events, ExportWebData.export_agent.
  rewrite !io_bind_emit. cbv beta.
  destruct (ExportWebData.generate_cumulative_data fs (fst a)) as [out|e] eqn:G.
  - destruct (@generate_cumulative_data_inv fs (fst a) out G) as [df [_ [N [M _]]]].
    assert (NE : ExportWebData.months out <> []).
    { rewrite M. intro C. apply map_eq_nil in C. revert C.
      now apply monthly_table_index_nonempty. }
    assert (F : item_first (ExportWebData.months out) = Ok (hd "" (ExportWebData.months out)))
      by (destruct (ExportWebData.months out); [contradiction | reflexivity]).
    unfold lift. cbn [io_bind app fst snd].
    rewrite !io_bind_emit. cbv beta.
    rewrite F, (item_last_nonempty "" NE). reflexivity.
  - reflexivity.
Qed.

(** X13.  A run of [export_web_data.main] always ends well, and its output
    is, agent by agent and in the order of the agents, the heading followed
    either by the written file with its three summary lines (the first and
    the last month among them) or by the one error line, and at the end the
    closing lines; in particular no file is written for an agent with an error
    line, and no summary line is lost after a file is written. *)
Theorem export_main_output (fs : FileSystem) :
  ExportWebData.main fs
  = (flat_map (export_agent_events fs) ExportWebData.agents
     ++ [ ExportWebData.Print ExportWebData.Rule;
          ExportWebData.Print ExportWebData.AllExported;
          ExportWebData.Print ExportWebData.Rule ],
     Ok tt).
Proof.
  unfold ExportWebData.main.
  assert (L : for_each ExportWebData.agents
                (fun a =>
                   try_except (ExportWebData.export_agent fs (fst a) (snd a)) (fun _ => true)
                     (fun e => emit (ExportWebData.Print
                                       (ExportWebData.ErrorProcessing (snd a) e))))
              = (flat_map (export_agent_events fs) ExportWebData.agents, Ok tt)).
  { rewrite for_each_total.
    - rewrite flat_map_concat_map. do 2 f_equal. apply map_ext.
      intro a. now rewrite export_agent_loop_body.
    - intros a _. now rewrite export_agent_loop_body. }
  rewrite (io_bind_value _ _ _ _ L). reflexivity.
Qed.

(* ================================================================== *)
(** ** Further properties: the monthly adoption table *)

(** How [generate_monthly_adoption] ends, step by step. *)
Lemma monthly_adoption_pipeline (fs : FileSystem) (agent : string) :
  snd (SummaryStats.generate_monthly_adoption fs agent)
  = (preds <- read_parquet (predictions_parquet fs agent) (predictions_path agent) ;;
     first_use <- read_parquet (first_use_parquet fs agent) (first_use_path agent) ;;
     first_use <- coerce_first_use_date (normalize_columns first_use) ;;
     preds <- project_predictions preds ;;
     merged <- merge_on_nwo first_use preds ;;
     let monthly := Pandas.groupby_month_size merged in
     Ok {| SummaryStats.month := map (fun e => period_str (fst e)) monthly;
           SummaryStats.new_repos := map snd monthly;
           SummaryStats.cumulative_repos := Pandas.cumsum_from 0 (map snd monthly) |})%res.
Proof.
  unfold SummaryStats.generate_monthly_adoption, SummaryStats.load_predictions,
    SummaryStats.load_first_use, lift.
  destruct (read_parquet (predictions_parquet fs agent) (predictions_path agent))
    as [pr|e]; [|reflexivity].
  destruct (read_parquet (first_use_parquet fs agent) (first_use_path agent))
    as [fu|e]; [|reflexivity].
  cbn [io_bind emit app fst snd rbind].
  destruct (coerce_first_use_date (normalize_columns fu)) as [fu'|e]; [|reflexivity].
  cbn [io_bind emit app fst snd rbind].
  destruct (project_predictions pr) as [pr'|e]; [|reflexivity].
  cbn [io_bind emit app fst snd rbind].
  destruct (merge_on_nwo fu' pr') as [m|e]; reflexivity.
Qed.

Lemma monthly_adoption_of_loaded (fs : FileSystem) (agent : string) (df : list Joined.t) :
  ExportWebData.load_and_process fs agent = Ok df ->
  snd (SummaryStats.generate_monthly_adoption fs agent)
  = Ok {| SummaryStats.month :=
            map (fun e => period_str (fst e)) (Pandas.groupby_month_size df);
          SummaryStats.new_repos := map snd (Pandas.groupby_month_size df);
          SummaryStats.cumulative_repos :=
            Pandas.cumsum_from 0 (map snd (Pandas.groupby_month_size df)) |}.
Proof.
  rewrite monthly_adoption_pipeline.
  unfold ExportWebData.load_and_process.
  destruct (read_parquet (first_use_parquet fs agent) (first_use_path agent))
    as [fu|e]; [|discriminate].
  destruct (read_parquet (predictions_parquet fs agent) (predictions_path agent))
    as [pr|e]; [|discriminate].
  cbn [rbind].
  destruct (coerce_first_use_date (normalize_columns fu)) as [fu'|e]; [|discriminate].
  cbn [rbind].
  destruct (project_predictions pr) as [pr'|e]; [|discriminate].
  cbn [rbind].
  destruct (merge_on_nwo fu' pr') as [m|e]; [|discriminate].
  cbn [rbind]. now intros [= ->].
Qed.

Lemma cumsum_from_above (a : nat) (l : list nat) :
  Forall (fun n => 1 <= n) l -> Forall (lt a) (Pandas.cumsum_from a l).
Proof.
  intro F. revert a; induction F as [|x t Hx Ft IH]; intro a; simpl; constructor; [lia|].
  eapply Forall_impl; [|apply IH]. simpl. intros; lia.
Qed.

Lemma cumsum_from_strictly_sorted (a : nat) (l : list nat) :
  Forall (fun n => 1 <= n) l -> StronglySorted lt (Pandas.cumsum_from a l).
Proof.
  intro F. revert a; induction F as [|x t Hx Ft IH]; intro a; simpl; constructor; auto.
  now apply cumsum_from_above.
Qed.

Lemma strictly_sorted_increasing (l : list nat) : StronglySorted lt l -> increasing l.
Proof.
  induction 1 as [|x t Ht IH Hx]; intros i j Hij Hj; simpl in *; [lia|].
  destruct j as [|j]; [lia|]. destruct i as [|i].
  - rewrite Forall_forall in Hx. apply Hx, nth_In. lia.
  - apply IH; lia.
Qed.

Lemma groupby_month_size_counts (df : list Joined.t) :
  map snd (Pandas.groupby_month_size df)
  = map (fun m => length (records_of_month m df))
        (Pandas.sorted_unique Z.eq_dec Z.leb (map Joined.year_month df)).
Proof.
  unfold Pandas.groupby_month_size. rewrite map_map. cbn [snd].
  apply map_ext. intro m. symmetry. apply records_of_month_length.
Qed.

(** X14.  In the table [generate_monthly_adoption] returns, with [joined]
    the inner join of the two files: the months are listed once, in
    ascending order; [new_repos] holds for every month the number of joined
    records of that month, which is never zero; [cumulative_repos] grows
    strictly from row to row; and the new repositories add up to the number
    of joined records. *)
Theorem monthly_adoption_rows (fs : FileSystem) (agent : string)
  (t : SummaryStats.MonthlyAdoption) :
  snd (SummaryStats.generate_monthly_adoption fs agent) = Ok t ->
  exists fu pr idx,
    first_use_parquet fs agent = Some fu
    /\ predictions_parquet fs agent = Some pr
    /\ let joined := Pandas.merge (Pandas.rows fu) (Pandas.rows pr) in
       StronglySorted Z.lt idx
       /\ (forall m, In m idx <-> In m (map Joined.year_month joined))
       /\ SummaryStats.month t = map period_str idx
       /\ SummaryStats.new_repos t = map (fun m => length (records_of_month m joined)) idx
       /\ Forall (fun n => 1 <= n) (SummaryStats.new_repos t)
       /\ increasing (SummaryStats.cumulative_repos t)
       /\ list_sum (SummaryStats.new_repos t) = length joined.
Proof.
  intro G.
  destruct (@generate_monthly_adoption_inv fs agent t G) as [fu [pr [F1 [F2 D]]]].
  exists fu, pr,
    (Pandas.sorted_unique Z.eq_dec Z.leb
       (map Joined.year_month (Pandas.merge (Pandas.rows fu) (Pandas.rows pr)))).
  split; [exact F1|]. split; [exact F2|]. cbv zeta in D |- *.
  set (joined := Pandas.merge (Pandas.rows fu) (Pandas.rows pr)) in *.
  assert (P : Forall (fun n => 1 <= n) (map snd (Pandas.groupby_month_size joined))).
  { rewrite groupby_month_size_counts, Forall_forall. intros n Hn.
    apply in_map_iff in Hn as [m [<- Hm]]. apply sorted_unique_In in Hm.
    rewrite records_of_month_length. now apply count_occ_In. }
  subst t. cbn [SummaryStats.month SummaryStats.new_repos SummaryStats.cumulative_repos].
  split; [apply sorted_unique_Z_ascending|].
  split; [intro m; apply sorted_unique_In|].
  split; [rewrite <- groupby_month_size_index; now rewrite map_map|].
  split; [apply groupby_month_size_counts|].
  split; [exact P|].
  split; [now apply strictly_sorted_increasing, cumsum_from_strictly_sorted|].
  apply groupby_month_size_total.
Qed.

Lemma monthly_adoption_rows_witness :
  exists t,
    snd (SummaryStats.generate_monthly_adoption Example.fs_with_D "claude") = Ok t
    /\ SummaryStats.new_repos t = [2; 1]
    /\ increasing (SummaryStats.cumulative_repos t).
Proof.
  eexists. split; [vm_compute; reflexivity|]. split; [reflexivity|].
  destruct (monthly_adoption_rows Example.fs_with_D "claude" _
              ltac:(vm_compute; reflexivity))
    as [fu [pr [idx [_ [_ [_ [_ [_ [_ [_ [H _]]]]]]]]]]].
  exact H.
Defined.



(* ================================================================== *)
(** ** Further properties: the chart data *)

Lemma sorted_firstn {A} (R : A -> A -> Prop) (n : nat) (l : list A) :
  StronglySorted R l -> StronglySorted R (firstn n l).
Proof.
  intro S. revert n; induction S as [|x t St IH Hx]; intros [|n]; simpl; try constructor.
  - apply IH.
  - rewrite Forall_forall in *. intros y Hy. apply Hx.
    rewrite <- (firstn_skipn n t). apply in_or_app. now left.
Qed.

Lemma others_empty_iff_all_kept (tie : Pandas.TieOrder string) (data : Pandas.Pivot) (top_n : Z) :
  NoDup (Pandas.pivot_columns data) ->
  (0 <= top_n)%Z ->
  (other_industries data (top_industries tie data top_n) = []
   <-> length (Pandas.pivot_columns data) <= Z.to_nat top_n).
Proof.
  intros N Hn.
  pose proof (@top_industries_incl tie data top_n Hn) as I.
  pose proof (@top_industries_NoDup tie data top_n N Hn) as Nt.
  pose proof (@top_and_others_perm data _ N Nt I) as P.
  pose proof (@top_industries_length tie data top_n Hn) as L.
  apply Permutation_length in P. rewrite length_app in P.
  split.
  - intro E. rewrite E in P. simpl in P. lia.
  - intro H. apply length_zero_iff_nil. lia.
Qed.

(** X16.  The number of series of the chart: all the columns of the table
    when there are at most [top_n], and otherwise [top_n] columns and the
    series "Other". *)
Theorem plot_data_series_count (tie : Pandas.TieOrder string) (data : Pandas.Pivot) (top_n : Z) :
  NoDup (Pandas.pivot_columns data) ->
  ~ In "Other" (Pandas.pivot_columns data) ->
  (0 <= top_n)%Z ->
  exists pd,
    PlotIndustryAdoption.plot_data tie data top_n = Ok pd
    /\ length (Pandas.pivot_columns pd)
       = (if length (Pandas.pivot_columns data) <=? Z.to_nat top_n
          then length (Pandas.pivot_columns data)
          else Z.to_nat top_n + 1)%nat
    /\ (In "Other" (Pandas.pivot_columns pd)
        <-> Z.to_nat top_n < length (Pandas.pivot_columns data)).
Proof.
  intros N HO Hn.
  pose proof (@top_industries_incl tie data top_n Hn) as I.
  pose proof (@top_industries_length tie data top_n Hn) as L.
  pose proof (others_empty_iff_all_kept tie data top_n N Hn) as O.
  rewrite (@plot_data_eq tie data top_n Hn). eexists. split; [reflexivity|].
  assert (NT : ~ In "Other" (top_industries tie data top_n)) by (intro H; apply HO, I, H).
  destruct (other_industries data (top_industries tie data top_n)) as [|c l] eqn:E.
  - assert (Le : length (Pandas.pivot_columns data) <= Z.to_nat top_n) by now apply O.
    rewrite selection_columns. apply Nat.leb_le in Le as Le'. rewrite Le'.
    split; [lia|]. split; [contradiction | lia].
  - assert (Gt : Z.to_nat top_n < length (Pandas.pivot_columns data)).
    { destruct (Nat.le_gt_cases (length (Pandas.pivot_columns data)) (Z.to_nat top_n))
        as [C|C]; [apply O in C; discriminate | exact C]. }
    assert (Lb : (length (Pandas.pivot_columns data) <=? Z.to_nat top_n)%nat = false)
      by (apply Nat.leb_gt; exact Gt).
    rewrite Lb. unfold Pandas.set_column, Pandas.pivot_columns. cbn [Pandas.data].
    rewrite set_column_in_new.
    + fold (Pandas.pivot_columns (selection data (top_industries tie data top_n))).
      rewrite map_app. fold (Pandas.pivot_columns (selection data (top_industries tie data top_n))).
      rewrite selection_columns, length_app. simpl. split; [lia|].
      split; [intros _; exact Gt | intros _; apply in_or_app; right; now left].
    + fold (Pandas.pivot_columns (selection data (top_industries tie data top_n))).
      now rewrite selection_columns.
Qed.

Lemma plot_data_series_count_witness :
  exists pd,
    PlotIndustryAdoption.plot_data Pandas.stable_order
      (PlotIndustryAdoption.aggregate_by_month_industry Example.joined) 1 = Ok pd
    /\ length (Pandas.pivot_columns pd) = 2
    /\ (In "Other" (Pandas.pivot_columns pd) <-> 1 < 2).
Proof.
  apply (plot_data_series_count Pandas.stable_order
           (PlotIndustryAdoption.aggregate_by_month_industry Example.joined) 1).
  - vm_compute. repeat constructor; simpl; intuition discriminate.
  - vm_compute. intuition discriminate.
  - lia.
Defined.

Lemma set_column_in_labels (label : string) (values : list nat)
  (d : list (string * list nat)) :
  map fst (Pandas.set_column_in label values d) = map fst d
  \/ map fst (Pandas.set_column_in label values d) = map fst d ++ [label].
Proof.
  induction d as [|e t IH]; [now right|]. simpl.
  destruct (String.eqb_spec (fst e) label) as [E|E].
  - left. simpl. now rewrite E.
  - destruct IH as [IH|IH]; simpl; rewrite IH; auto.
Qed.

(** The columns of the chart data: the kept ones, and at most "Other"
    behind them. *)
Lemma plot_data_columns (tie : Pandas.TieOrder string) (data : Pandas.Pivot) (top_n : Z) :
  (0 <= top_n)%Z ->
  exists pd,
    PlotIndustryAdoption.plot_data tie data top_n = Ok pd
    /\ (Pandas.pivot_columns pd = top_industries tie data top_n
        \/ Pandas.pivot_columns pd = top_industries tie data top_n ++ ["Other"]).
Proof.
  intro Hn. rewrite (@plot_data_eq tie data top_n Hn). eexists. split; [reflexivity|].
  destruct (other_industries data (top_industries tie data top_n)) as [|c l].
  - left. apply selection_columns.
  - unfold Pandas.set_column, Pandas.pivot_columns. cbn [Pandas.data].
    pose proof (selection_columns data (top_industries tie data top_n)) as Sel.
    unfold Pandas.pivot_columns in Sel.
    destruct (set_column_in_labels "Other"
                (Pandas.row_totals (selection data (c :: l)))
                (Pandas.data (selection data (top_industries tie data top_n)))) as [Q|Q];
      rewrite Q, Sel; auto.
Qed.

Lemma top_industries_descending (tie : Pandas.TieOrder string) (data : Pandas.Pivot) (top_n : Z) (i : nat) :
  NoDup (Pandas.pivot_columns data) ->
  (0 <= top_n)%Z ->
  S i < length (top_industries tie data top_n) ->
  column_total data (nth (S i) (top_industries tie data top_n) "")
  <= column_total data (nth i (top_industries tie data top_n) "").
Proof.
  intros N Hn Hi. unfold top_industries in *. rewrite head_nonneg in * by assumption.
  set (sorted := Pandas.sort_values_desc tie (Pandas.column_totals data)) in *.
  assert (S : StronglySorted (fun a b : string * nat => snd b <= snd a)
                (firstn (Z.to_nat top_n) sorted))
    by apply sorted_firstn, sort_values_desc_sorted.
  rewrite length_map in Hi.
  pose proof (@sorted_adjacent _ _ (firstn (Z.to_nat top_n) sorted) ("", 0) S i Hi) as A.
  cbv beta in A.
  assert (T : forall j, j < length (firstn (Z.to_nat top_n) sorted) ->
              column_total data (nth j (map fst (firstn (Z.to_nat top_n) sorted)) "")
              = snd (nth j (firstn (Z.to_nat top_n) sorted) ("", 0))).
  { intros j Hj. change "" with (fst ("", 0)). rewrite map_nth.
    symmetry.
    apply (column_totals_In data (fst (nth j (firstn (Z.to_nat top_n) sorted) ("", 0)))
             (snd (nth j (firstn (Z.to_nat top_n) sorted) ("", 0))) N).
    apply (Permutation_in _ (sort_values_desc_perm tie _)). fold sorted.
    rewrite <- surjective_pairing.
    assert (X : In (nth j (firstn (Z.to_nat top_n) sorted) ("", 0))
                   (firstn (Z.to_nat top_n) sorted ++ skipn (Z.to_nat top_n) sorted))
      by (apply in_or_app; left; now apply nth_In).
    now rewrite firstn_skipn in X. }
  rewrite !T by lia. exact A.
Qed.

(** X17.  The kept series stand first in the chart data, in descending
    order of their totals over all months: of a table with distinct labels
    the first [min top_n (number of columns)] columns of the chart data are
    columns of the table, each with a total that is at most the total of the
    one before it, and behind them stands at most the column "Other".  (The
    order of columns of equal total is left open.) *)
Theorem plot_data_kept_in_descending_order (tie : Pandas.TieOrder string) (data : Pandas.Pivot) (top_n : Z) :
  NoDup (Pandas.pivot_columns data) ->
  (0 <= top_n)%Z ->
  exists pd,
    PlotIndustryAdoption.plot_data tie data top_n = Ok pd
    /\ let k := Nat.min (Z.to_nat top_n) (length (Pandas.pivot_columns data)) in
       let kept := firstn k (Pandas.pivot_columns pd) in
       length kept = k
       /\ incl kept (Pandas.pivot_columns data)
       /\ (skipn k (Pandas.pivot_columns pd) = []
           \/ skipn k (Pandas.pivot_columns pd) = ["Other"])
       /\ forall i, S i < k ->
            column_total data (nth (S i) kept "") <= column_total data (nth i kept "").
Proof.
  intros N Hn. destruct (plot_data_columns tie data top_n Hn) as [pd [E C]].
  exists pd. split; [exact E|]. intros k kept.
  pose proof (@top_industries_length tie data top_n Hn) as L. fold k in L.
  assert (K : kept = top_industries tie data top_n).
  { unfold kept. rewrite <- L.
    destruct C as [-> | ->]; [apply firstn_all|].
    rewrite firstn_app, Nat.sub_diag, firstn_all. cbn [firstn]. apply app_nil_r. }
  rewrite K. split; [exact L|]. split; [apply (@top_industries_incl tie data top_n Hn)|].
  split.
  - rewrite <- L. destruct C as [-> | ->].
    + left. apply skipn_all.
    + right. rewrite skipn_app, Nat.sub_diag, skipn_all. reflexivity.
  - intros i Hi. apply top_industries_descending; [exact N | exact Hn | now rewrite L].
Qed.

Lemma plot_data_kept_in_descending_order_witness :
  exists pd,
    PlotIndustryAdoption.plot_data Pandas.stable_order
      (PlotIndustryAdoption.aggregate_by_month_industry Example.joined) 2 = Ok pd
    /\ Pandas.pivot_columns pd = ["54"; "62"]
    /\ column_total (PlotIndustryAdoption.aggregate_by_month_industry Example.joined)
         (nth 1 (firstn 2 (Pandas.pivot_columns pd)) "")
       <= column_total (PlotIndustryAdoption.aggregate_by_month_industry Example.joined)
            (nth 0 (firstn 2 (Pandas.pivot_columns pd)) "").
Proof.
  destruct (plot_data_kept_in_descending_order Pandas.stable_order
              (PlotIndustryAdoption.aggregate_by_month_industry Example.joined) 2)
    as [pd [E [_ [_ [_ H]]]]].
  - vm_compute. repeat constructor; simpl; intuition discriminate.
  - lia.
  - exists pd. split; [exact E|]. split.
    + vm_compute in E. injection E as <-. reflexivity.
    + apply (H 0). vm_compute. lia.
Defined.

(** [head] takes a prefix, whatever its argument. *)
Lemma head_is_prefix {A} (n : Z) (l : list A) : exists k, Pandas.head n l = firstn k l.
Proof. unfold Pandas.head. destruct (0 <=? n)%Z; eexists; reflexivity. Qed.

Lemma top_industries_prefix (tie : Pandas.TieOrder string) (data : Pandas.Pivot) (top_n : Z) :
  exists rest,
    Permutation (top_industries tie data top_n ++ rest) (Pandas.pivot_columns data).
Proof.
  unfold top_industries.
  destruct (head_is_prefix top_n (Pandas.sort_values_desc tie (Pandas.column_totals data)))
    as [k ->].
  exists (map fst (skipn k (Pandas.sort_values_desc tie (Pandas.column_totals data)))).
  rewrite <- map_app, firstn_skipn, <- column_totals_labels.
  apply Permutation_map, sort_values_desc_perm.
Qed.

Lemma top_industries_incl_any (tie : Pandas.TieOrder string) (data : Pandas.Pivot) (top_n : Z) :
  incl (top_industries tie data top_n) (Pandas.pivot_columns data).
Proof.
  destruct (top_industries_prefix tie data top_n) as [rest P].
  intros c H. apply (Permutation_in _ P). apply in_or_app. now left.
Qed.

Lemma top_industries_NoDup_any (tie : Pandas.TieOrder string) (data : Pandas.Pivot) (top_n : Z) :
  NoDup (Pandas.pivot_columns data) -> NoDup (top_industries tie data top_n).
Proof.
  intro N. destruct (top_industries_prefix tie data top_n) as [rest P].
  apply (Permutation_NoDup (Permutation_sym P)) in N.
  now apply NoDup_app_remove_r in N.
Qed.

Lemma plot_data_eq_any (tie : Pandas.TieOrder string) (data : Pandas.Pivot) (top_n : Z) :
  PlotIndustryAdoption.plot_data tie data top_n
  = Ok match other_industries data (top_industries tie data top_n) with
       | [] => selection data (top_industries tie data top_n)
       | _ =>
           Pandas.set_column "Other"
             (Pandas.row_totals
                (selection data (other_industries data (top_industries tie data top_n))))
             (selection data (top_industries tie data top_n))
       end.
Proof.
  unfold PlotIndustryAdoption.plot_data.
  fold (top_industries tie data top_n).
  rewrite (@select_ok data (top_industries tie data top_n) (top_industries_incl_any tie data top_n)).
  cbn [rbind].
  fold (other_industries data (top_industries tie data top_n)).
  fold (selection data (top_industries tie data top_n)).
  destruct (other_industries data (top_industries tie data top_n)) as [|c l] eqn:E;
    [reflexivity|].
  rewrite (@select_ok data (c :: l)).
  - reflexivity.
  - intros x Hx. rewrite <- E in Hx. now apply other_industries_In in Hx.
Qed.

(** X18.  Whatever [top_n] is, a negative number included, the chart data
    are made without an error and lose no count: for a table with distinct
    labels none of which is "Other", every month has the same total in the
    chart data as in the table. *)
Theorem plot_data_preserves_month_totals (tie : Pandas.TieOrder string) (data : Pandas.Pivot) (top_n : Z) :
  well_formed data ->
  ~ In "Other" (Pandas.pivot_columns data) ->
  exists pd,
    PlotIndustryAdoption.plot_data tie data top_n = Ok pd
    /\ Pandas.index pd = Pandas.index data
    /\ forall i, month_total pd i = month_total data i.
Proof.
  intros WF HO. pose proof WF as [N F].
  pose proof (top_industries_incl_any tie data top_n) as I.
  pose proof (top_industries_NoDup_any tie data top_n N) as Nt.
  pose proof (@top_and_others_perm data _ N Nt I) as P.
  rewrite plot_data_eq_any. eexists. split; [reflexivity|].
  destruct (other_industries data (top_industries tie data top_n)) as [|c0 l] eqn:EO.
  - split; [reflexivity|]. intro i. unfold selection. rewrite month_total_columns.
    rewrite (month_total_as_cells data i N). apply list_sum_cells_perm.
    now rewrite app_nil_r in P.
  - assert (NO : ~ In "Other" (map fst (Pandas.data (selection data (top_industries tie data top_n))))).
    { fold (Pandas.pivot_columns (selection data (top_industries tie data top_n))).
      rewrite selection_columns. intro H. apply HO, I, H. }
    assert (IO : incl (c0 :: l) (Pandas.pivot_columns data)).
    { intros x Hx. rewrite <- EO in Hx. now apply other_industries_In in Hx. }
    destruct (@row_totals_nth (selection data (c0 :: l))
                (@selection_rectangular data (c0 :: l) WF IO)) as [_ RT].
    unfold Pandas.set_column. rewrite (set_column_in_new "Other" _ _ NO).
    split; [reflexivity|]. intro i.
    unfold month_total at 1. cbn [Pandas.data].
    rewrite map_app, list_sum_app. simpl. rewrite RT.
    unfold selection. rewrite map_map, month_total_columns, Nat.add_0_r. cbn [snd].
    change (fun x : string => nth i (column_values data x) 0)
      with (fun c : string => cell data c i).
    rewrite <- list_sum_app, <- map_app.
    rewrite (month_total_as_cells data i N). now apply list_sum_cells_perm.
Qed.

Lemma plot_data_preserves_month_totals_witness :
  exists pd,
    PlotIndustryAdoption.plot_data Pandas.stable_order
      (PlotIndustryAdoption.aggregate_by_month_industry Example.joined) (-1) = Ok pd
    /\ Pandas.data pd = [("54", [2; 0]); ("Other", [0; 1])]
    /\ forall i, month_total pd i
                 = month_total
                     (PlotIndustryAdoption.aggregate_by_month_industry Example.joined) i.
Proof.
  destruct (plot_data_preserves_month_totals Pandas.stable_order
              (PlotIndustryAdoption.aggregate_by_month_industry Example.joined) (-1))
    as [pd [E [_ H]]].
  - vm_compute. split; repeat constructor; simpl; intuition discriminate.
  - vm_compute. intuition discriminate.
  - exists pd. split; [exact E|]. split; [|exact H].
    vm_compute in E. injection E as <-. reflexivity.
Defined.

Lemma set_column_in_existing (label : string) (values : list nat)
  (f : string -> list nat) (l : list string) :
  NoDup l -> In label l ->
  Pandas.set_column_in label values (map (fun c => (c, f c)) l)
  = map (fun c => (c, if String.eqb c label then values else f c)) l.
Proof.
  induction l as [|c t IH]; intros N I; [contradiction|].
  inversion N as [|? ? Nc Nt]; subst. cbn [map Pandas.set_column_in fst].
  destruct (String.eqb_spec c label) as [E|E].
  - subst c. f_equal. apply map_ext_in. intros x Hx.
    destruct (String.eqb_spec x label) as [X|X]; [subst; contradiction | reflexivity].
  - f_equal. apply IH; [exact Nt|]. destruct I as [I|I]; [contradiction | exact I].
Qed.

Lemma list_sum_replaced (g : string -> nat) (label : string) (a : nat) (l : list string) :
  NoDup l -> In label l ->
  list_sum (map (fun c => if String.eqb c label then a else g c) l) + g label
  = list_sum (map g l) + a.
Proof.
  induction l as [|c t IH]; intros N I; [contradiction|].
  inversion N as [|? ? Nc Nt]; subst. simpl.
  destruct (String.eqb_spec c label) as [E|E].
  - subst c.
    rewrite (map_ext_in (fun c => if String.eqb c label then a else g c) g); [lia|].
    intros x Hx. destruct (String.eqb_spec x label) as [X|X]; [subst; contradiction|reflexivity].
  - destruct I as [I|I]; [contradiction|]. specialize (IH Nt I). lia.
Qed.

(** X19.  A table with a column that is itself labelled "Other": when that
    column is among the kept ones and some column is left out, the
    assignment of the summed rest replaces it where it stands.  The chart
    data then have the kept labels and no further column, and every month
    falls short of the table's total by the count the column "Other" had. *)
Theorem plot_data_overwrites_other_column (tie : Pandas.TieOrder string) (data : Pandas.Pivot) (top_n : Z) :
  well_formed data ->
  In "Other" (top_industries tie data top_n) ->
  other_industries data (top_industries tie data top_n) <> [] ->
  exists pd,
    PlotIndustryAdoption.plot_data tie data top_n = Ok pd
    /\ Pandas.pivot_columns pd = top_industries tie data top_n
    /\ forall i, month_total pd i + cell data "Other" i = month_total data i.
Proof.
  intros WF IO NE. pose proof WF as [N F].
  pose proof (top_industries_incl_any tie data top_n) as I.
  pose proof (top_industries_NoDup_any tie data top_n N) as Nt.
  pose proof (@top_and_others_perm data _ N Nt I) as P.
  rewrite plot_data_eq_any. eexists. split; [reflexivity|].
  destruct (other_industries data (top_industries tie data top_n)) as [|c0 l] eqn:EO;
    [contradiction|].
  assert (IOc : incl (c0 :: l) (Pandas.pivot_columns data)).
  { intros x Hx. rewrite <- EO in Hx. now apply other_industries_In in Hx. }
  destruct (@row_totals_nth (selection data (c0 :: l))
              (@selection_rectangular data (c0 :: l) WF IOc)) as [_ RT].
  unfold Pandas.set_column.
  change (Pandas.data (selection data (top_industries tie data top_n)))
    with (map (fun c => (c, column_values data c)) (top_industries tie data top_n)).
  rewrite (set_column_in_existing "Other" _ (column_values data) _ Nt IO).
  split.
  - unfold Pandas.pivot_columns. cbn [Pandas.data]. rewrite map_map. cbn [fst]. apply map_id.
  - intro i. unfold month_total at 1. cbn [Pandas.data]. rewrite map_map. cbn [snd].
    rewrite (map_ext _ (fun c => if String.eqb c "Other"
                                 then nth i (Pandas.row_totals (selection data (c0 :: l))) 0
                                 else cell data c i))
      by (intro c; unfold cell; now destruct (String.eqb c "Other")).
    rewrite (list_sum_replaced (fun c => cell data c i) "Other" _ _ Nt IO).
    rewrite RT. unfold selection. rewrite month_total_columns.
    change (fun x : string => nth i (column_values data x) 0)
      with (fun c : string => cell data c i).
    rewrite <- list_sum_app, <- map_app.
    rewrite (month_total_as_cells data i N). now apply list_sum_cells_perm.
Qed.

Lemma plot_data_overwrites_other_column_witness :
  let data := {| Pandas.index := [648; 649]%Z;
                 Pandas.data := [("54", [2; 0]); ("62", [0; 1]); ("Other", [1; 1])] |} in
  exists pd,
    PlotIndustryAdoption.plot_data Pandas.stable_order data 2 = Ok pd
    /\ Pandas.data pd = [("54", [2; 0]); ("Other", [0; 1])]
    /\ forall i, month_total pd i + cell data "Other" i = month_total data i.
Proof.
  intro data.
  destruct (plot_data_overwrites_other_column Pandas.stable_order data 2) as [pd [E [_ H]]].
  - vm_compute. split; repeat constructor; simpl; intuition discriminate.
  - vm_compute. tauto.
  - vm_compute. discriminate.
  - exists pd. split; [exact E|]. split; [|exact H].
    vm_compute in E. injection E as <-. reflexivity.
Defined.

Lemma plot_data_has_series (tie : Pandas.TieOrder string) (data : Pandas.Pivot) (top_n : Z) :
  exists pd,
    PlotIndustryAdoption.plot_data tie data top_n = Ok pd
    /\ Pandas.index pd = Pandas.index data
    /\ (Pandas.data pd = [] <-> Pandas.pivot_columns data = []).
Proof.
  rewrite plot_data_eq_any. eexists. split; [reflexivity|].
  destruct (other_industries data (top_industries tie data top_n)) as [|c l] eqn:O.
  - split; [reflexivity|]. unfold selection. cbn [Pandas.data]. split.
    + intro H. apply map_eq_nil in H.
      destruct (Pandas.pivot_columns data) as [|c0 l0] eqn:C; [reflexivity|].
      assert (X : In c0 (other_industries data (top_industries tie data top_n))).
      { apply other_industries_In. rewrite C, H. split; [now left | intros []]. }
      rewrite O in X. contradiction.
    + intro H. pose proof (top_industries_incl_any tie data top_n) as I. rewrite H in I.
      destruct (top_industries tie data top_n) as [|x t]; [reflexivity|].
      destruct (I x (or_introl eq_refl)).
  - split; [reflexivity|]. split.
    + unfold Pandas.set_column. cbn [Pandas.data].
      destruct (Pandas.data (selection data (top_industries tie data top_n))) as [|e t];
        simpl; [discriminate|].
      destruct (String.eqb (fst e) "Other"); discriminate.
    + intro H.
      assert (X : In c (other_industries data (top_industries tie data top_n)))
        by (rewrite O; now left).
      apply other_industries_In in X as [X _]. rewrite H in X. contradiction.
Qed.

(** X20.  [plot_stacked_area] on a table that has a month needs a column,
    and nothing else: whatever [top_n] is, for a table with at least one
    column it saves one chart, with the given title and one instant per
    month of the table, and reports the file; for a table without columns it
    saves nothing and raises the [TypeError] of the plotting call.  (A table
    without a month is left aside: pandas plots none, and
    [aggregate_by_month_industry] makes none that has a column.) *)
Theorem plot_stacked_area_needs_columns (tie : Pandas.TieOrder string) (data : Pandas.Pivot) (title output_path : string)
  (top_n : Z) :
  Pandas.index data <> [] ->
  (Pandas.pivot_columns data <> [] <->
   exists chart,
     PlotIndustryAdoption.plot_stacked_area tie data title output_path top_n
     = ([ PlotIndustryAdoption.SaveFig output_path chart;
          PlotIndustryAdoption.Info (PlotIndustryAdoption.SavedChart output_path) ], Ok tt)
     /\ PlotIndustryAdoption.chart_title chart = title
     /\ PlotIndustryAdoption.chart_index chart
        = map PlotIndustryAdoption.to_timestamp (Pandas.index data)
     /\ PlotIndustryAdoption.chart_series chart <> [])
  /\ (Pandas.pivot_columns data = [] <->
      PlotIndustryAdoption.plot_stacked_area tie data title output_path top_n
      = ([], Raise TypeError)).
Proof.
  intros _.
  destruct (plot_data_has_series tie data top_n) as [pd [E [Ix D]]].
  destruct (Pandas.data pd) as [|e t] eqn:Dp.
  - assert (C : Pandas.pivot_columns data = []) by now apply D.
    assert (S : PlotIndustryAdoption.plot_stacked_area tie data title output_path top_n
                = ([], Raise TypeError)).
    { unfold PlotIndustryAdoption.plot_stacked_area. rewrite E.
      unfold lift at 1. cbn [io_bind app]. unfold Pandas.pivot_columns.
      rewrite Dp. reflexivity. }
    rewrite S. split; split.
    + intro H. contradiction.
    + intros [chart [H _]]. discriminate.
    + reflexivity.
    + intros _. exact C.
  - assert (C : Pandas.pivot_columns data <> []).
    { intro H. apply D in H. discriminate. }
    assert (S : exists chart,
              PlotIndustryAdoption.plot_stacked_area tie data title output_path top_n
              = ([ PlotIndustryAdoption.SaveFig output_path chart;
                   PlotIndustryAdoption.Info (PlotIndustryAdoption.SavedChart output_path) ],
                 Ok tt)
              /\ PlotIndustryAdoption.chart_title chart = title
              /\ PlotIndustryAdoption.chart_index chart
                 = map PlotIndustryAdoption.to_timestamp (Pandas.index data)
              /\ PlotIndustryAdoption.chart_series chart <> []).
    { unfold PlotIndustryAdoption.plot_stacked_area. rewrite E.
      unfold lift at 1. cbn [io_bind app]. unfold Pandas.pivot_columns.
      rewrite Dp, Ix. eexists. split; [reflexivity|]. cbn.
      split; [reflexivity|]. split; [reflexivity | discriminate]. }
    split; split.
    + intros _. exact S.
    + intros _. exact C.
    + intro H. contradiction.
    + destruct S as [chart [S _]]. rewrite S. discriminate.
Qed.

Lemma plot_stacked_area_needs_columns_witness :
  exists chart,
    PlotIndustryAdoption.plot_stacked_area Pandas.stable_order
      (PlotIndustryAdoption.aggregate_by_month_industry Example.joined)
      "Monthly Industry Adoption - Claude Code" "figures/industry_adoption_claude.png" 1
    = ([ PlotIndustryAdoption.SaveFig "figures/industry_adoption_claude.png" chart;
         PlotIndustryAdoption.Info
           (PlotIndustryAdoption.SavedChart "figures/industry_adoption_claude.png") ],
       Ok tt)
    /\ PlotIndustryAdoption.chart_series chart <> [].
Proof.
  destruct (proj1 (proj1 (plot_stacked_area_needs_columns Pandas.stable_order
                            (PlotIndustryAdoption.aggregate_by_month_industry Example.joined)
                            "Monthly Industry Adoption - Claude Code"
                            "figures/industry_adoption_claude.png" 1
                            ltac:(vm_compute; discriminate)))
              ltac:(vm_compute; discriminate)) as [chart [A [_ [_ B]]]].
  exists chart. split; [exact A | exact B].
Defined.

(** X21.  The month of a record: two instants (with a calendar month from
    1 to 12) are counted in the same row of the monthly tables exactly when
    they have the same calendar year and month, rows are in calendar order,
    and the instant the chart shows for a row is the first instant of that
    calendar month, from which the row is recovered. *)
Theorem records_are_counted_by_calendar_month (r s : Joined.t) :
  (1 <= ts_month (Joined.first_use_date r) <= 12)%Z ->
  (1 <= ts_month (Joined.first_use_date s) <= 12)%Z ->
  (Joined.year_month r = Joined.year_month s <->
   ts_year (Joined.first_use_date r) = ts_year (Joined.first_use_date s)
   /\ ts_month (Joined.first_use_date r) = ts_month (Joined.first_use_date s))
  /\ ((Joined.year_month r < Joined.year_month s)%Z <->
      (ts_year (Joined.first_use_date r) < ts_year (Joined.first_use_date s))%Z
      \/ (ts_year (Joined.first_use_date r) = ts_year (Joined.first_use_date s)
          /\ (ts_month (Joined.first_use_date r) < ts_month (Joined.first_use_date s))%Z))
  /\ PlotIndustryAdoption.to_timestamp (Joined.year_month r)
     = {| ts_year := ts_year (Joined.first_use_date r);
          ts_month := ts_month (Joined.first_use_date r);
          ts_day := 1; ts_nanos := 0 |}
  /\ to_period_M (PlotIndustryAdoption.to_timestamp (Joined.year_month r))
     = Joined.year_month r.
Proof.
  unfold Joined.year_month, to_period_M, PlotIndustryAdoption.to_timestamp.
  destruct (Joined.first_use_date r) as [y m d n], (Joined.first_use_date s) as [y' m' d' n'].
  cbn [ts_year ts_month]. intros Hm Hm'.
  assert (Q : (((y - 1970) * 12 + (m - 1)) / 12 = y - 1970)%Z).
  { rewrite Z.div_add_l by lia. rewrite Z.div_small by lia. lia. }
  assert (R : (((y - 1970) * 12 + (m - 1)) mod 12 = m - 1)%Z).
  { rewrite Z.add_comm, Z.mod_add by lia. apply Z.mod_small. lia. }
  split; [|split; [|split]].
  - split; [intro H | intros [-> ->]; reflexivity]. lia.
  - lia.
  - rewrite Q, R. f_equal; lia.
  - rewrite Q, R. lia.
Qed.

Lemma records_are_counted_by_calendar_month_witness :
  Joined.year_month (Joined.mk "A" (mkTimestamp 2024 1 5 0) "54")
  = Joined.year_month (Joined.mk "B" (mkTimestamp 2024 1 20 0) "54")
  /\ PlotIndustryAdoption.to_timestamp
       (Joined.year_month (Joined.mk "A" (mkTimestamp 2024 1 5 0) "54"))
     = mkTimestamp 2024 1 1 0.
Proof.
  destruct (records_are_counted_by_calendar_month
              (Joined.mk "A" (mkTimestamp 2024 1 5 0) "54")
              (Joined.mk "B" (mkTimestamp 2024 1 20 0) "54")) as [A [_ [B _]]].
  - simpl. lia.
  - simpl. lia.
  - split; [apply A; split; reflexivity | exact B].
Defined.

(* ================================================================== *)
(** ** Further properties: the exported structure and the monthly adoption
    table of one agent *)

Lemma strictly_sorted_ext (l l' : list Z) :
  StronglySorted Z.lt l -> StronglySorted Z.lt l' ->
  (forall x, In x l <-> In x l') -> l = l'.
Proof.
  revert l'; induction l as [|a t IH]; intros [|b t'] S S' H.
  - reflexivity.
  - destruct (proj2 (H b) (or_introl eq_refl)).
  - destruct (proj1 (H a) (or_introl eq_refl)).
  - apply StronglySorted_inv in S as [St Fa]. apply StronglySorted_inv in S' as [St' Fb].
    rewrite Forall_forall in Fa, Fb.
    assert (E : a = b).
    { destruct (proj1 (H a) (or_introl eq_refl)) as [E|I]; [now symmetry|].
      destruct (proj2 (H b) (or_introl eq_refl)) as [E|I']; [exact E|].
      specialize (Fa _ I'). specialize (Fb _ I). lia. }
    subst b. f_equal. apply IH; [exact St | exact St'|].
    intro x. split; intro I.
    + destruct (proj1 (H x) (or_intror I)) as [E|I']; [|exact I'].
      specialize (Fa _ I). lia.
    + destruct (proj2 (H x) (or_intror I)) as [E|I']; [|exact I'].
      specialize (Fb _ I). lia.
Qed.

Lemma monthly_table_index_months (df : list Joined.t) :
  Pandas.index (monthly_table df)
  = Pandas.sorted_unique Z.eq_dec Z.leb (map Joined.year_month df).
Proof.
  apply strictly_sorted_ext.
  - apply monthly_table_index_ascending.
  - apply sorted_unique_Z_ascending.
  - intro m. rewrite monthly_table_index_In. symmetry. apply sorted_unique_In.
Qed.

Lemma cumsum_from_nth_0 (l : list nat) : nth 0 (Pandas.cumsum_from 0 l) 0 = nth 0 l 0.
Proof. destruct l as [|x t]; [reflexivity|]. destruct t; reflexivity. Qed.

(** Running sums commute with adding columns of one length. *)
Lemma cumsum_of_column_sums (total : list nat) (cols : list (list nat)) :
  Forall (fun c => length c = length total) cols ->
  (forall i, i < length total -> nth i total 0 = list_sum (map (fun c => nth i c 0) cols)) ->
  forall i, i < length total ->
    nth i (Pandas.cumsum_from 0 total) 0
    = list_sum (map (fun c => nth i (Pandas.cumsum_from 0 c) 0) cols).
Proof.
  intros L H. induction i as [|i IH]; intro Hi.
  - rewrite cumsum_from_nth_0, (H 0 Hi). f_equal. apply map_ext.
    intro c. symmetry. apply cumsum_from_nth_0.
  - rewrite (cumsum_from_step 0 total i Hi), IH by lia. rewrite (H (S i) Hi).
    rewrite <- list_sum_map_add. f_equal. apply map_ext_in. intros c Hc.
    rewrite Forall_forall in L. symmetry. apply cumsum_from_step. rewrite (L c Hc). exact Hi.
Qed.

(** X22.  The two scripts agree on an agent.  When [export_web_data]
    produces the structure of an agent, [generate_summary_stats] produces
    its monthly adoption table from the same files, with the same months;
    in every month [new_repos] is the sum of the exported ["monthly"] counts
    over the industries and [cumulative_repos] the sum of their ["values"],
    and the last [cumulative_repos] is the exported [total_repos]. *)
Theorem export_and_monthly_adoption_agree (fs : FileSystem) (agent : string)
  (out : ExportWebData.WebData) :
  ExportWebData.generate_cumulative_data fs agent = Ok out ->
  exists t,
    snd (SummaryStats.generate_monthly_adoption fs agent) = Ok t
    /\ SummaryStats.month t = ExportWebData.months out
    /\ (forall i, i < length (ExportWebData.months out) ->
          nth i (SummaryStats.new_repos t) 0
          = list_sum (map (fun e => nth i (ExportWebData.monthly e) 0)
                          (ExportWebData.industries out))
          /\ nth i (SummaryStats.cumulative_repos t) 0
             = list_sum (map (fun e => nth i (ExportWebData.values e) 0)
                             (ExportWebData.industries out)))
    /\ last (SummaryStats.cumulative_repos t) 0 = ExportWebData.total_repos out.
Proof.
  intro G.
  destruct (@generate_cumulative_data_inv fs agent out G) as [df [L [N [M [T [P _]]]]]].
  eexists. split; [apply (monthly_adoption_of_loaded fs agent df L)|].
  cbn [SummaryStats.month SummaryStats.new_repos SummaryStats.cumulative_repos].
  set (idx := Pandas.index (monthly_table df)) in *.
  assert (News : map snd (Pandas.groupby_month_size df)
                 = map (fun m => length (records_of_month m df)) idx).
  { rewrite groupby_month_size_counts. unfold idx. now rewrite monthly_table_index_months. }
  assert (Len : length (ExportWebData.months out) = length idx)
    by (rewrite M; apply length_map).
  assert (Cols : Forall (fun c => length c = length idx)
                   (map snd (Pandas.data (monthly_table df)))).
  { rewrite Forall_forall. intros c Hc. apply in_map_iff in Hc as [e [<- He]].
    destruct (industry_entry_values df e He) as [_ ->]. apply length_map. }
  assert (Month : forall i, i < length idx ->
            nth i (map (fun m => length (records_of_month m df)) idx) 0
            = list_sum (map (fun c => nth i c 0) (map snd (Pandas.data (monthly_table df))))).
  { intros i Hi.
    rewrite (nth_map_in_range (fun m => length (records_of_month m df)) idx 0%Z i Hi).
    rewrite map_map. fold (month_total (monthly_table df) i).
    symmetry. now apply monthly_table_month_total. }
  split; [|split].
  - rewrite M. unfold idx. rewrite monthly_table_index_months, <- groupby_month_size_index.
    now rewrite map_map.
  - intros i Hi. rewrite Len in Hi. rewrite News.
    rewrite (Permutation_list_sum
               (Permutation_map (fun e => nth i (ExportWebData.monthly e) 0) P)).
    rewrite (Permutation_list_sum
               (Permutation_map (fun e => nth i (ExportWebData.values e) 0) P)).
    rewrite !map_map. cbn [industry_entry ExportWebData.monthly ExportWebData.values].
    split.
    + rewrite (Month i Hi). now rewrite map_map.
    + rewrite <- (length_map (fun m => length (records_of_month m df)) idx) in Hi, Cols.
      rewrite (cumsum_of_column_sums _ _ Cols) by
        (try exact Hi; intros j Hj; apply Month; now rewrite length_map in Hj).
      now rewrite map_map.
  - rewrite cumsum_from_last.
    + rewrite groupby_month_size_total. now rewrite T.
    + rewrite News. intro E. apply map_eq_nil in E. revert E.
      now apply monthly_table_index_nonempty.
Qed.

Lemma export_and_monthly_adoption_agree_witness :
  exists out t,
    ExportWebData.generate_cumulative_data Example.fs "claude" = Ok out
    /\ snd (SummaryStats.generate_monthly_adoption Example.fs "claude") = Ok t
    /\ SummaryStats.month t = ExportWebData.months out
    /\ last (SummaryStats.cumulative_repos t) 0 = ExportWebData.total_repos out.
Proof.
  destruct (export_and_monthly_adoption_agree Example.fs "claude" _
              ltac:(vm_compute; reflexivity)) as [t [A [B [_ C]]]].
  eexists. exists t. split; [vm_compute; reflexivity|].
  split; [exact A|]. split; [exact B | exact C].
Defined.

(* ================================================================== *)
(** ** Further properties: the monthly adoption loop of
    generate_summary_stats *)

Lemma monthly_adoption_loop_body (fs : FileSystem) (a : string * string) :
  In a SummaryStats.display_names ->
  try_except
    (emit (SummaryStats.Info SummaryStats.Rule) ;;;
     display <- lift (dict_item SummaryStats.display_names (fst a)) ;;
     emit (SummaryStats.Info (SummaryStats.MonthlyAdoptionTitle display)) ;;;
     emit (SummaryStats.Info SummaryStats.Rule) ;;;
     monthly <- SummaryStats.generate_monthly_adoption fs (fst a) ;;
     emit (SummaryStats.PrintTable (SummaryStats.tail12 monthly)) ;;;
     emit (SummaryStats.ToCsv ("output/monthly_adoption_" ++ fst a ++ ".csv")%string
             monthly))%io
    (fun _ => true)
    (fun e => emit (SummaryStats.Warning (SummaryStats.ErrorMonthlyAdoption (fst a) e)))
  = (monthly_adoption_events fs a, Ok tt).
Proof.
  intro I.
  assert (D : dict_item SummaryStats.display_names (fst a) = Ok (snd a)).
  { simpl in I. destruct I as [<-|[<-|[<-|[]]]]; reflexivity. }
  unfold monthly_adoption_events. rewrite D.
  rewrite io_bind_emit. unfold lift at 1. cbn [io_bind app fst snd].
  rewrite !io_bind_emit. cbv beta. cbn [fst snd].
  destruct (SummaryStats.generate_monthly_adoption fs (fst a)) as [log [t|e]].
  - reflexivity.
  - reflexivity.
Qed.

Lemma skipn_last {A} (k : nat) (l : list A) (d : A) :
  k < length l -> last (skipn k l) d = last l d.
Proof.
  revert l; induction k as [|k IH]; intros l H; [reflexivity|].
  destruct l as [|x t]; simpl in H; [lia|].
  simpl skipn. rewrite IH by lia.
  destruct t; [simpl in H; lia | reflexivity].
Qed.

(** X23.  The monthly adoption loop of [generate_summary_stats.main] goes
    through the three agents in order and always ends well; the display
    name of every agent is found.  For an agent it logs the title, then
    what [generate_monthly_adoption] logs, then either prints and writes the
    table or logs the error.  What is written is the whole table; what is
    printed is its last twelve rows (all of them when there are fewer), the
    three columns cut at the same row, so that the last cumulative count is
    always shown. *)
Theorem monthly_adoption_main_output (fs : FileSystem) :
  SummaryStats.main_monthly_adoption fs
  = (flat_map (monthly_adoption_events fs) SummaryStats.display_names, Ok tt)
  /\ forall agent t,
       snd (SummaryStats.generate_monthly_adoption fs agent) = Ok t ->
       let n := length (SummaryStats.month t) in
       let shown := SummaryStats.tail12 t in
       length (SummaryStats.month shown) = Nat.min 12 n
       /\ SummaryStats.month shown = skipn (n - 12) (SummaryStats.month t)
       /\ SummaryStats.new_repos shown = skipn (n - 12) (SummaryStats.new_repos t)
       /\ SummaryStats.cumulative_repos shown
          = skipn (n - 12) (SummaryStats.cumulative_repos t)
       /\ last (SummaryStats.cumulative_repos shown) 0
          = last (SummaryStats.cumulative_repos t) 0.
Proof.
  split.
  - unfold SummaryStats.main_monthly_adoption, SummaryStats.agents.
    pose proof (monthly_adoption_loop_body fs ("claude", "Claude Code")) as B1.
    pose proof (monthly_adoption_loop_body fs ("copilot", "GitHub Copilot")) as B2.
    pose proof (monthly_adoption_loop_body fs ("codex", "OpenAI Codex")) as B3.
    cbn [fst snd] in B1, B2, B3. cbn [for_each].
    rewrite B1, B2, B3 by (simpl; tauto).
    cbn [io_bind io_ret app fst snd flat_map SummaryStats.display_names].
    now rewrite !app_nil_r.
  - intros agent t G n shown.
    destruct (@generate_monthly_adoption_inv fs agent t G) as [fu [pr [_ [_ D]]]].
    cbv zeta in D.
    assert (L1 : length (SummaryStats.new_repos t) = n)
      by (unfold n; subst t; cbn; now rewrite !length_map).
    assert (L2 : length (SummaryStats.cumulative_repos t) = n)
      by (unfold n; subst t; cbn; now rewrite cumsum_from_length, !length_map).
    unfold shown, SummaryStats.tail12.
    cbn [SummaryStats.month SummaryStats.new_repos SummaryStats.cumulative_repos].
    rewrite L1, L2. fold n.
    split; [rewrite length_skipn; fold n; lia|].
    split; [reflexivity|]. split; [reflexivity|]. split; [reflexivity|].
    destruct (Nat.eq_dec n 0) as [Z|NZ].
    + rewrite Z. reflexivity.
    + apply skipn_last. lia.
Qed.

Lemma monthly_adoption_main_output_witness :
  exists t,
    snd (SummaryStats.generate_monthly_adoption Example.fs "claude") = Ok t
    /\ SummaryStats.cumulative_repos (SummaryStats.tail12 t) = [2; 3]
    /\ last (SummaryStats.cumulative_repos (SummaryStats.tail12 t)) 0
       = last (SummaryStats.cumulative_repos t) 0.
Proof.
  eexists. split; [vm_compute; reflexivity|]. split; [reflexivity|].
  destruct (proj2 (monthly_adoption_main_output Example.fs) "claude" _
              ltac:(vm_compute; reflexivity)) as [_ [_ [_ [_ H]]]].
  exact H.
Defined.

(* ================================================================== *)
(** ** Further properties: the industries an agent's log reports *)









(* ================================================================== *)
(** ** Further properties: the column normalisation *)

Lemma rename_absent (old new : string) (cols : list string) :
  existsb (String.eqb old) cols = false ->
  map (fun c => if String.eqb c old then new else c) cols = cols.
Proof.
  induction cols as [|c t IH]; simpl; intro H; [reflexivity|].
  apply orb_false_iff in H as [H1 H2]. rewrite String.eqb_sym in H1.
  now rewrite H1, IH.
Qed.

(** X25.  The normalisation that opens every loader changes labels only:
    every column labelled "repo_nwo" becomes "nwo" and every column
    labelled "first_claude_commit" becomes "first_use_date"; every other
    label, the order of the columns and the rows stay as they are, and no
    legacy label is left. *)
Theorem normalize_columns_relabels {R} (df : Pandas.Frame R) :
  Pandas.columns (normalize_columns df)
  = map (fun c => if String.eqb c "repo_nwo" then "nwo"
                  else if String.eqb c "first_claude_commit" then "first_use_date"
                  else c)
        (Pandas.columns df)
  /\ Pandas.rows (normalize_columns df) = Pandas.rows df
  /\ ~ In "repo_nwo" (Pandas.columns (normalize_columns df))
  /\ ~ In "first_claude_commit" (Pandas.columns (normalize_columns df)).
Proof.
  assert (C : Pandas.columns (normalize_columns df)
              = map (fun c => if String.eqb c "repo_nwo" then "nwo"
                              else if String.eqb c "first_claude_commit"
                                   then "first_use_date"
                                   else c)
                    (Pandas.columns df)).
  { assert (Two : forall cols : list string,
               map (fun c => if String.eqb c "first_claude_commit" then "first_use_date" else c)
                   (map (fun c => if String.eqb c "repo_nwo" then "nwo" else c) cols)
               = map (fun c => if String.eqb c "repo_nwo" then "nwo"
                               else if String.eqb c "first_claude_commit"
                                    then "first_use_date"
                                    else c) cols).
    { intro cols. rewrite map_map. apply map_ext. intro c.
      destruct (String.eqb c "repo_nwo"); reflexivity. }
    rewrite <- Two. unfold normalize_columns, Pandas.has_column.
    destruct (existsb (String.eqb "repo_nwo") (Pandas.columns df)) eqn:A.
    - destruct (existsb (String.eqb "first_claude_commit")
                  (Pandas.columns (Pandas.rename "repo_nwo" "nwo" df))) eqn:B.
      + reflexivity.
      + cbn [Pandas.columns Pandas.rename] in B |- *.
        now rewrite (rename_absent "first_claude_commit" "first_use_date" _ B).
    - rewrite (rename_absent "repo_nwo" "nwo" _ A).
      destruct (existsb (String.eqb "first_claude_commit") (Pandas.columns df)) eqn:B.
      + reflexivity.
      + now rewrite (rename_absent "first_claude_commit" "first_use_date" _ B). }
  split; [exact C|]. split; [apply normalize_columns_rows|].
  rewrite C. split; intro H; apply in_map_iff in H as [c [E _]].
  - destruct (String.eqb_spec c "repo_nwo"); [discriminate|].
    destruct (String.eqb_spec c "first_claude_commit"); [discriminate|].
    contradiction.
  - destruct (String.eqb_spec c "repo_nwo"); [discriminate|].
    destruct (String.eqb_spec c "first_claude_commit"); [discriminate|].
    contradiction.
Qed.
